(** * Snowflake dialect of drizzle-orm: a shallow embedding and its properties

    The development follows the layout of the TypeScript sources:

    - [JS]          the few JavaScript notions the code relies on
                    (truthiness, number printing, [Array.prototype.join]);
    - [Core]        tables, columns and SQL fragments
                    (snowflake-core/table.ts, columns/common.ts);
    - [ColumnTypes] the column classes and their [getSQLType]
                    (columns/varchar.ts, number.ts, timestamp.ts, ...);
    - [Constraints] unique / primary / foreign keys and their names
                    (unique-constraint.ts, primary-keys.ts, foreign-keys.ts);
    - [Dialect]     the SQL compiler (snowflake-core/dialect.ts);
    - [Driver]      the session and its scoped transactions
                    (snowflake/session.ts on top of snowflake-core/session.ts);
    - [Notions]     the vocabulary of the statements;
    - [Scenarios]   sample schemas, queries, connections and callbacks.

    The properties follow, module by module.  *)

From Stdlib Require Import String Ascii ZArith List Bool Lia.
From stdpp Require Import gmap strings pretty.
Import ListNotations.

Set Warnings "-register-all".

Open Scope string_scope.

(* ===================================================================== *)
(** ** JavaScript notions used by the code                                *)
(* ===================================================================== *)

Module JS.

(** Primitive values that travel through the module as column data,
    bound parameters and static defaults.  Numbers are the integral
    ones (a [Z]); the code never computes with them, it only prints
    them and tests them for truthiness. *)
Inductive JSValue : Type :=
| JSUndefined
| JSNull
| JSBoolean (b : bool)
| JSNumber (n : Z)
| JSString (s : string).

(** [ToBoolean] on primitives: [undefined], [null], [false], [0] and
    the empty string are falsy. *)
Definition truthy (v : JSValue) : bool :=
  match v with
  | JSUndefined | JSNull => false
  | JSBoolean b => b
  | JSNumber n => negb (n =? 0)%Z
  | JSString s => negb (String.eqb s "")
  end.

(** [`${n}`] for an integral number [n] (below 10^21 in magnitude
    JavaScript prints the plain decimal numeral). *)
Definition Number_toString (n : Z) : string := pretty n.

(** [xs.join(sep)] on an array of strings. *)
Definition join (sep : string) (xs : list string) : string :=
  String.concat sep xs.

(** [!s] for [s : string | undefined]. *)
Definition string_falsy (s : option string) : bool :=
  match s with
  | None => true
  | Some v => String.eqb v ""
  end.

(** [a ?? b] *)
Definition nullish {A : Type} (a : option A) (b : A) : A :=
  match a with
  | Some v => v
  | None => b
  end.

(** Errors, and the result of a synchronous call: a value, or the
    error thrown.  [TransactionRollbackError] is the class of
    ~/errors.ts. *)
Inductive JSError : Type :=
| TypeError (message : string)
| Error (message : string)
| TransactionRollbackError.

Inductive Result (A : Type) : Type :=
| Ok (value : A)
| Throw (error : JSError).
Arguments Ok {A}. Arguments Throw {A}.

End JS.
Import JS.

(* ===================================================================== *)
(** ** Tables, columns and SQL fragments                                  *)
(* ===================================================================== *)

Module Core.

(** The symbol-keyed fields of a table ([Table.Symbol.Name] and the
    like).  [getTableName] reads [Table.Symbol.Name]. *)
Record Table : Type := mkTable {
  TableName : string;
  OriginalName : string;
  Schema : option string;
  BaseName : string;
  IsAlias : bool
}.

Definition getTableName (t : Table) : string := TableName t.

(** The runtime classes of columns/*.ts with their readonly fields. *)
Inductive ColumnClass : Type :=
| SnowflakeVarchar (length : option Z)
| SnowflakeText
| SnowflakeNumber (precision scale : option Z)
| SnowflakeInteger
| SnowflakeBoolean
| SnowflakeTimestamp (withTimezone : bool) (precision : option Z)
| SnowflakeTimestampString (withTimezone : bool) (precision : option Z)
| SnowflakeDate
| SnowflakeDateString.

Inductive TimestampMode : Type := ModeDate | ModeString.

(** [config.generated.type] *)
Inductive GeneratedType : Type := always | byDefault.

(** The configuration object a column builder accumulates and hands
    to the column it builds ([ColumnBuilderRuntimeConfig]).  [S] is the
    type of SQL fragments: a static default and the results of the
    generator functions are either data or a fragment. *)
Record RuntimeConfigOf (S : Type) : Type := mkConfig {
  name : string;
  uniqueName : option string;
  isUnique : bool;
  default : option (JSValue + S);
  defaultFn : option (unit -> JSValue + S);
  onUpdateFn : option (unit -> JSValue + S);
  cfg_length : option Z;
  cfg_precision : option Z;
  cfg_scale : option Z;
  cfg_withTimezone : option bool;
  cfg_mode : option TimestampMode;
  generated : option GeneratedType
}.
Arguments mkConfig {S}.
Arguments name {S}. Arguments uniqueName {S}. Arguments isUnique {S}.
Arguments default {S}. Arguments defaultFn {S}. Arguments onUpdateFn {S}.
Arguments cfg_length {S}. Arguments cfg_precision {S}.
Arguments cfg_scale {S}. Arguments cfg_withTimezone {S}.
Arguments cfg_mode {S}. Arguments generated {S}.

(** A column: a back-reference to its table, the configuration it was
    built from (the base class [Column] copies [name], [default],
    [defaultFn], [onUpdateFn], [uniqueName], ... out of it) and its
    runtime class. *)
Record ColumnOf (S : Type) : Type := mkColumn {
  table : Table;
  config : RuntimeConfigOf S;
  columnClass : ColumnClass
}.
Arguments mkColumn {S}. Arguments table {S}. Arguments config {S}.
Arguments columnClass {S}.

(** Result decoders are only passed around; a fragment starts with the
    no-op decoder. *)
Inductive Decoder : Type :=
| NoopDecoder
| CustomDecoder (id : nat)
| ColumnDecoder (tableName columnName : string).

(** SQL fragments: a tree of typed chunks.  [ValueChunk] is a primitive
    interpolated as it is (a number, [undefined], ...), [ArrayChunk] an
    interpolated array. *)
Inductive SQLChunk : Type :=
| ValueChunk (value : JSValue)
| StringChunk (value : string)
| Name (value : string)
| Param (value : JSValue) (encoder : option (ColumnOf SQL))
| Placeholder (placeholderName : string)
| ColumnChunk (c : ColumnOf SQL)
| TableChunk (t : Table)
| ViewChunk (viewName : string) (viewSchema : option string)
            (viewOriginalName : string)
| SQLChunk_SQL (s : SQL)
| Aliased (sql : SQL) (fieldAlias : string) (isSelectionField : bool)
| SubqueryChunk (alias : string) (sql : SQL)
                (selectedFields : list (string * SQLChunk))
| ArrayChunk (items : list SQLChunk)
with SQL : Type :=
| mkSQL (queryChunks : list SQLChunk) (decoder : Decoder).

Definition Undefined : SQLChunk := ValueChunk JSUndefined.

Definition queryChunks (s : SQL) : list SQLChunk :=
  match s with mkSQL q _ => q end.
Definition decoder (s : SQL) : Decoder :=
  match s with mkSQL _ d => d end.

Definition SnowflakeColumn : Type := ColumnOf SQL.
Definition ColumnBuilderRuntimeConfig : Type := RuntimeConfigOf SQL.

Definition column_name (c : SnowflakeColumn) : string := name (config c).

(** A table together with its columns, in declaration order
    ([Object.entries(table[Table.Symbol.Columns])]). *)
Record SnowflakeTable : Type := mkSnowflakeTable {
  base : Table;
  Columns : list (string * SnowflakeColumn)
}.

End Core.
Import Core.

(* ===================================================================== *)
(** ** Column classes (snowflake-core/columns)                            *)
(* ===================================================================== *)

Module ColumnTypes.

(** Modelled from the spec: the constructor of the base class
    [ColumnBuilder] (~/column-builder.ts, the generic framework this
    module extends) is not part of these sources; it starts the
    configuration with the column name and nothing else set. *)
Definition ColumnBuilder_new (name : string) : ColumnBuilderRuntimeConfig :=
  mkConfig name None false None None None None None None None None None.

(** unique-constraint.ts, [uniqueKeyName] *)
Definition uniqueKeyName (table : Table) (columns : list string) : string :=
  TableName table +:+ "_" +:+ join "_" columns +:+ "_unique".

Definition set_uniqueName (config : ColumnBuilderRuntimeConfig)
    (n : option string) : ColumnBuilderRuntimeConfig :=
  mkConfig (name config) n (isUnique config) (default config)
           (defaultFn config) (onUpdateFn config) (cfg_length config)
           (cfg_precision config) (cfg_scale config)
           (cfg_withTimezone config) (cfg_mode config) (generated config).

(** columns/common.ts, the constructor of [SnowflakeColumn]:
<<
    if (!config.uniqueName) {
      config.uniqueName = uniqueKeyName(table, [config.name]);
    }
    super(table, config);
>>
    The configuration object is the builder's own: the assignment is
    visible to the builder afterwards, so the constructor returns the
    column together with the configuration as it leaves it.  The
    subclass reads its readonly fields from that configuration. *)
Definition SnowflakeColumn_new (table : Table)
    (config : ColumnBuilderRuntimeConfig)
    (fields : ColumnBuilderRuntimeConfig -> ColumnClass)
  : SnowflakeColumn * ColumnBuilderRuntimeConfig :=
  let config' :=
    if string_falsy (uniqueName config)
    then set_uniqueName config (Some (uniqueKeyName table [name config]))
    else config in
  (mkColumn table config' (fields config'), config').

(** *** Arguments of the column functions *)

(** [varchar()], [varchar(name, config?)], [varchar(config?)]: the
    first argument is absent, a name or a configuration. *)
Inductive FirstArg (C : Type) : Type :=
| ArgAbsent
| ArgName (n : string)
| ArgConfig (c : C).
Arguments ArgAbsent {C}. Arguments ArgName {C}. Arguments ArgConfig {C}.

Definition getSnowflakeColumnBuilderNameAndConfig {C : Type} (empty : C)
    (a : FirstArg C) (b : option C) : string * C :=
  match a with
  | ArgName n => (n, nullish b empty)
  | ArgConfig c => ("", c)
  | ArgAbsent => ("", empty)
  end.

(** *** varchar *)

Record SnowflakeVarcharConfig : Type := { length : option Z }.

Definition SnowflakeVarcharBuilder_new (name : string)
    (config : SnowflakeVarcharConfig) : ColumnBuilderRuntimeConfig :=
  let c := ColumnBuilder_new name in
  mkConfig (Core.name c) (uniqueName c) (isUnique c) (default c)
           (defaultFn c) (onUpdateFn c) (length config)
           (cfg_precision c) (cfg_scale c) (cfg_withTimezone c) (cfg_mode c)
           (generated c).

Definition SnowflakeVarcharBuilder_build (table : Table)
    (builder : ColumnBuilderRuntimeConfig) :=
  SnowflakeColumn_new table builder
    (fun config => SnowflakeVarchar (cfg_length config)).

Definition varchar (a : FirstArg SnowflakeVarcharConfig)
    (b : option SnowflakeVarcharConfig) : ColumnBuilderRuntimeConfig :=
  let '(name, config) :=
    getSnowflakeColumnBuilderNameAndConfig {| length := None |} a
      (Some (nullish b {| length := None |})) in
  SnowflakeVarcharBuilder_new name config.

(** *** number *)

Record SnowflakeNumberConfig : Type :=
  { precision : option Z; scale : option Z }.

Definition SnowflakeNumberBuilder_new (name : string)
    (config : SnowflakeNumberConfig) : ColumnBuilderRuntimeConfig :=
  let c := ColumnBuilder_new name in
  mkConfig (Core.name c) (uniqueName c) (isUnique c) (default c)
           (defaultFn c) (onUpdateFn c) (cfg_length c)
           (precision config) (scale config)
           (cfg_withTimezone c) (cfg_mode c) (generated c).

Definition SnowflakeNumberBuilder_build (table : Table)
    (builder : ColumnBuilderRuntimeConfig) :=
  SnowflakeColumn_new table builder
    (fun config => SnowflakeNumber (cfg_precision config) (cfg_scale config)).

Definition number (a : FirstArg SnowflakeNumberConfig)
    (b : option SnowflakeNumberConfig) : ColumnBuilderRuntimeConfig :=
  let empty := {| precision := None; scale := None |} in
  let '(name, config) :=
    getSnowflakeColumnBuilderNameAndConfig empty a (Some (nullish b empty)) in
  SnowflakeNumberBuilder_new name config.

(** *** timestamp *)

Record SnowflakeTimestampConfig : Type := {
  withTimezone : option bool;
  ts_precision : option Z;
  mode : option TimestampMode
}.

Definition SnowflakeTimestampBuilder_new (name : string)
    (config : SnowflakeTimestampConfig) : ColumnBuilderRuntimeConfig :=
  let c := ColumnBuilder_new name in
  mkConfig (Core.name c) (uniqueName c) (isUnique c) (default c)
           (defaultFn c) (onUpdateFn c) (cfg_length c)
           (ts_precision config) (cfg_scale c)
           (Some (nullish (withTimezone config) false))
           (Some (nullish (mode config) ModeDate)) (generated c).

Definition SnowflakeTimestampStringBuilder_new (name : string)
    (config : SnowflakeTimestampConfig) : ColumnBuilderRuntimeConfig :=
  let c := ColumnBuilder_new name in
  mkConfig (Core.name c) (uniqueName c) (isUnique c) (default c)
           (defaultFn c) (onUpdateFn c) (cfg_length c)
           (ts_precision config) (cfg_scale c)
           (Some (nullish (withTimezone config) false))
           (cfg_mode c) (generated c).

Definition SnowflakeTimestampBuilder_build (table : Table)
    (builder : ColumnBuilderRuntimeConfig) :=
  SnowflakeColumn_new table builder
    (fun config =>
       SnowflakeTimestamp (nullish (cfg_withTimezone config) false)
                          (cfg_precision config)).

Definition SnowflakeTimestampStringBuilder_build (table : Table)
    (builder : ColumnBuilderRuntimeConfig) :=
  SnowflakeColumn_new table builder
    (fun config =>
       SnowflakeTimestampString (nullish (cfg_withTimezone config) false)
                                (cfg_precision config)).

(** [timestamp(a?, b = {})] picks the builder class by [config.mode];
    the result says which [build] goes with the configuration. *)
Inductive TimestampBuilder : Type :=
| TimestampBuilderDate (config : ColumnBuilderRuntimeConfig)
| TimestampBuilderString (config : ColumnBuilderRuntimeConfig).

Definition timestamp (a : FirstArg SnowflakeTimestampConfig)
    (b : option SnowflakeTimestampConfig) : TimestampBuilder :=
  let empty :=
    {| withTimezone := None; ts_precision := None; mode := None |} in
  let '(name, config) :=
    getSnowflakeColumnBuilderNameAndConfig empty a (Some (nullish b empty)) in
  match mode config with
  | Some ModeString =>
      TimestampBuilderString (SnowflakeTimestampStringBuilder_new name config)
  | _ => TimestampBuilderDate (SnowflakeTimestampBuilder_new name config)
  end.

Definition TimestampBuilder_build (table : Table) (b : TimestampBuilder) :=
  match b with
  | TimestampBuilderDate config => SnowflakeTimestampBuilder_build table config
  | TimestampBuilderString config =>
      SnowflakeTimestampStringBuilder_build table config
  end.

(** *** the classes without a configuration of their own *)

Definition text (name : option string) : ColumnBuilderRuntimeConfig :=
  ColumnBuilder_new (nullish name "").
Definition integer (name : option string) : ColumnBuilderRuntimeConfig :=
  ColumnBuilder_new (nullish name "").

Definition SnowflakeIntegerBuilder_build (table : Table)
    (builder : ColumnBuilderRuntimeConfig) :=
  SnowflakeColumn_new table builder (fun _ => SnowflakeInteger).

(** *** getSQLType, one clause per class *)

Definition precisionSuffix (precision : option Z) : string :=
  match precision with
  | None => ""
  | Some p => "(" +:+ Number_toString p +:+ ")"
  end.

Definition getSQLType (c : SnowflakeColumn) : string :=
  match columnClass c with
  | SnowflakeVarchar None => "varchar"
  | SnowflakeVarchar (Some l) => "varchar(" +:+ Number_toString l +:+ ")"
  | SnowflakeText => "text"
  | SnowflakeNumber (Some p) (Some s) =>
      "number(" +:+ Number_toString p +:+ ", " +:+ Number_toString s +:+ ")"
  | SnowflakeNumber (Some p) None => "number(" +:+ Number_toString p +:+ ")"
  | SnowflakeNumber None _ => "number"
  | SnowflakeInteger => "integer"
  | SnowflakeBoolean => "boolean"
  | SnowflakeTimestamp tz p | SnowflakeTimestampString tz p =>
      if tz then "timestamp_tz" +:+ precisionSuffix p
      else "timestamp_ntz" +:+ precisionSuffix p
  | SnowflakeDate | SnowflakeDateString => "date"
  end.

End ColumnTypes.
Import ColumnTypes.

(* ===================================================================== *)
(** ** Constraints and their names                                        *)
(* ===================================================================== *)

Module Constraints.

(** *** unique-constraint.ts *)

Record UniqueConstraintBuilder : Type := mkUniqueConstraintBuilder {
  ucb_columns : list SnowflakeColumn;
  ucb_nullsNotDistinct : bool;
  ucb_name : option string
}.

Definition UniqueConstraintBuilder_new (columns : list SnowflakeColumn)
    (name : option string) : UniqueConstraintBuilder :=
  mkUniqueConstraintBuilder columns false name.

Record UniqueConstraint : Type := mkUniqueConstraint {
  uc_table : Table;
  uc_columns : list SnowflakeColumn;
  uc_name : string;
  uc_nullsNotDistinct : bool
}.

(** [this.name = name ?? uniqueKeyName(table, columns.map((c) => c.name))] *)
Definition UniqueConstraint_new (table : Table) (columns : list SnowflakeColumn)
    (nullsNotDistinct : bool) (name : option string) : UniqueConstraint :=
  mkUniqueConstraint table columns
    (nullish name (uniqueKeyName table (map column_name columns)))
    nullsNotDistinct.

Definition UniqueConstraintBuilder_build (table : Table)
    (b : UniqueConstraintBuilder) : UniqueConstraint :=
  UniqueConstraint_new table (ucb_columns b) (ucb_nullsNotDistinct b) (ucb_name b).

Definition UniqueConstraint_getName (u : UniqueConstraint) : string := uc_name u.

(** *** primary-keys.ts *)

Definition primaryKeyName (table : Table) (columns : list string) : string :=
  TableName table +:+ "_" +:+ join "_" columns +:+ "_pk".

Record PrimaryKey : Type := mkPrimaryKey {
  pk_table : Table;
  pk_columns : list SnowflakeColumn;
  pk_name : string
}.

Definition PrimaryKey_new (table : Table) (columns : list SnowflakeColumn)
    (name : option string) : PrimaryKey :=
  mkPrimaryKey table columns
    (nullish name (primaryKeyName table (map column_name columns))).

Definition PrimaryKey_getName (p : PrimaryKey) : string := pk_name p.

(** *** foreign-keys.ts *)

Inductive UpdateDeleteAction : Type :=
| cascade | restrict | no_action | set_null | set_default.

Record ReferenceValue : Type := mkReference {
  ref_columns : list SnowflakeColumn;
  ref_foreignTable : Table;
  ref_foreignColumns : list SnowflakeColumn
}.

(** [Reference] is a thunk; calling it reads [foreignColumns[0]!.table],
    a [TypeError] when there is no foreign column. *)
Definition Reference : Type := unit -> Result ReferenceValue.

(** The optional second argument of the constructor. *)
Record Actions : Type := mkActions {
  onUpdate : option UpdateDeleteAction;
  onDelete : option UpdateDeleteAction
}.

Record ForeignKeyBuilder : Type := mkForeignKeyBuilder {
  reference : Reference;
  _onUpdate : option UpdateDeleteAction;
  _onDelete : option UpdateDeleteAction
}.

(** The constructor: the field initialisers run first ('no action'
    for both), then the body:
<<
    if (actions) {
      this._onUpdate = actions.onUpdate;
      this._onDelete = actions.onDelete;
    }
>> *)
Definition ForeignKeyBuilder_new
    (config : unit -> list SnowflakeColumn * list SnowflakeColumn)
    (actions : option Actions) : ForeignKeyBuilder :=
  let reference : Reference := fun _ =>
    let '(columns, foreignColumns) := config tt in
    match foreignColumns with
    | [] => Throw (TypeError "Cannot read properties of undefined (reading 'table')")
    | first :: _ => Ok (mkReference columns (table first) foreignColumns)
    end in
  let this := mkForeignKeyBuilder reference (Some no_action) (Some no_action) in
  match actions with
  | Some actions =>
      mkForeignKeyBuilder (Constraints.reference this)
                          (onUpdate actions) (onDelete actions)
  | None => this
  end.

Definition ForeignKeyBuilder_onUpdate (this : ForeignKeyBuilder)
    (action : UpdateDeleteAction) : ForeignKeyBuilder :=
  mkForeignKeyBuilder (reference this) (Some action) (_onDelete this).

Definition ForeignKeyBuilder_onDelete (this : ForeignKeyBuilder)
    (action : UpdateDeleteAction) : ForeignKeyBuilder :=
  mkForeignKeyBuilder (reference this) (_onUpdate this) (Some action).

Record ForeignKey : Type := mkForeignKey {
  fk_table : Table;
  fk_reference : Reference;
  fk_onUpdate : option UpdateDeleteAction;
  fk_onDelete : option UpdateDeleteAction
}.

Definition ForeignKey_new (table : Table) (builder : ForeignKeyBuilder)
  : ForeignKey :=
  mkForeignKey table (reference builder) (_onUpdate builder) (_onDelete builder).

Definition ForeignKeyBuilder_build (table : Table) (this : ForeignKeyBuilder)
  : ForeignKey := ForeignKey_new table this.

(** [ForeignKey.getName] *)
Definition ForeignKey_getName (this : ForeignKey) : Result string :=
  match fk_reference this tt with
  | Throw e => Throw e
  | Ok r =>
      let columnNames := map column_name (ref_columns r) in
      let foreignColumnNames := map column_name (ref_foreignColumns r) in
      match ref_foreignColumns r with
      | [] => Throw (TypeError "Cannot read properties of undefined (reading 'table')")
      | first :: _ =>
          let chunks :=
            ([TableName (fk_table this)] ++ columnNames
               ++ [TableName (table first)] ++ foreignColumnNames)%list in
          Ok (join "_" chunks +:+ "_fk")
      end
  end.

(** [foreignKey({ name, columns, foreignColumns })]: the builder gets
    the columns; no actions object is passed. *)
Definition foreignKey (name : option string)
    (columns foreignColumns : list SnowflakeColumn) : ForeignKeyBuilder :=
  ForeignKeyBuilder_new (fun _ => (columns, foreignColumns)) None.

End Constraints.
Import Constraints.

(* ===================================================================== *)
(** ** Column builders, tables and indexes                                *)
(* ===================================================================== *)

Module Builders.

(** *** columns/common.ts, [SnowflakeColumnBuilder] *)

Record ReferenceConfig : Type := mkReferenceConfig {
  ref : unit -> SnowflakeColumn;
  actions : Actions
}.

(** A column builder: the configuration object of the base class, the
    private list [foreignKeyConfigs], and what the [build] of its
    subclass reads from the configuration for the column class. *)
Record SnowflakeColumnBuilder : Type := mkBuilder {
  builder_config : ColumnBuilderRuntimeConfig;
  foreignKeyConfigs : list ReferenceConfig;
  builder_fields : ColumnBuilderRuntimeConfig -> ColumnClass
}.

(** A builder as a column function returns it: no reference yet. *)
Definition SnowflakeColumnBuilder_new (config : ColumnBuilderRuntimeConfig)
    (fields : ColumnBuilderRuntimeConfig -> ColumnClass)
  : SnowflakeColumnBuilder :=
  mkBuilder config [] fields.

(** [references(ref, actions = {})] *)
Definition SnowflakeColumnBuilder_references (this : SnowflakeColumnBuilder)
    (ref : unit -> SnowflakeColumn) (actions : option Actions)
  : SnowflakeColumnBuilder :=
  mkBuilder (builder_config this)
    (foreignKeyConfigs this
     ++ [mkReferenceConfig ref (nullish actions (mkActions None None))])%list
    (builder_fields this).

(** [unique(name?, config?)]: [isUnique] is set and [uniqueName] is
    overwritten with the argument, also when it is absent
    ([config.uniqueType] is not read by this module). *)
Definition SnowflakeColumnBuilder_unique (this : SnowflakeColumnBuilder)
    (name : option string) : SnowflakeColumnBuilder :=
  let c := builder_config this in
  mkBuilder
    (mkConfig (Core.name c) name true (default c) (defaultFn c) (onUpdateFn c)
              (cfg_length c) (cfg_precision c) (cfg_scale c)
              (cfg_withTimezone c) (cfg_mode c) (generated c))
    (foreignKeyConfigs this) (builder_fields this).

(** [generatedAlwaysAs(as)]: [config.generated = { as, type: 'always',
    mode: 'stored' }]; the configuration keeps the type. *)
Definition SnowflakeColumnBuilder_generatedAlwaysAs
    (this : SnowflakeColumnBuilder) : SnowflakeColumnBuilder :=
  let c := builder_config this in
  mkBuilder
    (mkConfig (Core.name c) (uniqueName c) (isUnique c) (default c)
              (defaultFn c) (onUpdateFn c) (cfg_length c) (cfg_precision c)
              (cfg_scale c) (cfg_withTimezone c) (cfg_mode c) (Some always))
    (foreignKeyConfigs this) (builder_fields this).

(** [buildForeignKeys(column, table)]: one key per collected reference;
    the builder is constructed without an actions object and an action
    is set only when the reference gives one. *)
Definition SnowflakeColumnBuilder_buildForeignKeys
    (this : SnowflakeColumnBuilder) (column : SnowflakeColumn) (table : Table)
  : list ForeignKey :=
  map (fun rc =>
         let builder :=
           ForeignKeyBuilder_new (fun _ => ([column], [ref rc tt])) None in
         let builder :=
           match onUpdate (actions rc) with
           | Some action => ForeignKeyBuilder_onUpdate builder action
           | None => builder
           end in
         let builder :=
           match onDelete (actions rc) with
           | Some action => ForeignKeyBuilder_onDelete builder action
           | None => builder
           end in
         ForeignKeyBuilder_build table builder)
      (foreignKeyConfigs this).

(** [build(table)]: the column, and the builder with the configuration
    as the constructor of the column leaves it. *)
Definition SnowflakeColumnBuilder_build (table : Table)
    (this : SnowflakeColumnBuilder)
  : SnowflakeColumn * SnowflakeColumnBuilder :=
  let '(column, config) :=
    SnowflakeColumn_new table (builder_config this) (builder_fields this) in
  (column, mkBuilder config (foreignKeyConfigs this) (builder_fields this)).

(** *** unique-constraint.ts, [unique(name?).on(...columns)] *)

Module UniqueOn.

Record UniqueOnConstraintBuilder : Type := { name : option string }.

Definition unique (name : option string) : UniqueOnConstraintBuilder :=
  {| name := name |}.

Definition on (this : UniqueOnConstraintBuilder)
    (columns : list SnowflakeColumn) : UniqueConstraintBuilder :=
  UniqueConstraintBuilder_new columns (name this).

Definition nullsNotDistinctConfig (this : UniqueConstraintBuilder)
  : UniqueConstraintBuilder :=
  mkUniqueConstraintBuilder (ucb_columns this) true (ucb_name this).

End UniqueOn.

(** *** table.ts *)

(** Modelled from the spec: the constructor of the base class [Table]
    (~/table.ts) is outside these sources.  A table is created under
    its name, which is also its original name until it is aliased, with
    its schema and base name. *)
Definition Table_new (name : string) (schema : option string)
    (baseName : string) : Table :=
  mkTable name name schema baseName false.

(** What [snowflakeTableWithSchema] leaves behind: the table with its
    columns, its inline foreign keys, the extra-configuration callback
    (stored, not called), and the column builders it was given, whose
    configuration objects it has written to. *)
Record BuiltTable (E : Type) : Type := mkBuiltTable {
  built : SnowflakeTable;
  InlineForeignKeys : list ForeignKey;
  ExtraConfigBuilder : option E;
  builders : list (string * SnowflakeColumnBuilder)
}.
Arguments mkBuiltTable {E}. Arguments built {E}.
Arguments InlineForeignKeys {E}. Arguments ExtraConfigBuilder {E}.
Arguments builders {E}.

Section WithColumnBuilder.

(** [ColumnBuilder.setName] of ~/column-builder.ts, an external
    collaborator: what it does to the configuration of a builder. *)
Variable setName : string -> ColumnBuilderRuntimeConfig -> ColumnBuilderRuntimeConfig.

(** The body of the [map] callback, for one entry of [columns]. *)
Definition buildColumn (rawTable : Table)
    (entry : string * SnowflakeColumnBuilder)
  : (string * SnowflakeColumn) * list ForeignKey
    * (string * SnowflakeColumnBuilder) :=
  let '(name, colBuilder) := entry in
  let colBuilder :=
    mkBuilder (setName name (builder_config colBuilder))
              (foreignKeyConfigs colBuilder) (builder_fields colBuilder) in
  let '(column, colBuilder) := SnowflakeColumnBuilder_build rawTable colBuilder in
  ((name, column),
   SnowflakeColumnBuilder_buildForeignKeys colBuilder column rawTable,
   (name, colBuilder)).

Definition snowflakeTableWithSchema {E : Type} (name : string)
    (columns : list (string * SnowflakeColumnBuilder)) (extraConfig : option E)
    (schema : option string) (baseName : option string) : BuiltTable E :=
  let rawTable := Table_new name schema (nullish baseName name) in
  let results := map (buildColumn rawTable) columns in
  mkBuiltTable
    (mkSnowflakeTable rawTable (map (fun r => fst (fst r)) results))
    (concat (map (fun r => snd (fst r)) results))
    extraConfig
    (map snd results).

Definition snowflakeTable {E : Type} (name : string)
    (columns : list (string * SnowflakeColumnBuilder)) (extraConfig : option E)
  : BuiltTable E :=
  snowflakeTableWithSchema name columns extraConfig None None.

Definition snowflakeTableCreator {E : Type}
    (customizeTableName : string -> string) (name : string)
    (columns : list (string * SnowflakeColumnBuilder)) (extraConfig : option E)
  : BuiltTable E :=
  snowflakeTableWithSchema (customizeTableName name) columns extraConfig None
                           (Some name).

(** schema.ts, [SnowflakeSchema.table] *)
Record SnowflakeSchema : Type := { schemaName : string }.

Definition snowflakeSchema (name : string) : SnowflakeSchema :=
  {| schemaName := name |}.

Definition SnowflakeSchema_table {E : Type} (this : SnowflakeSchema)
    (name : string) (columns : list (string * SnowflakeColumnBuilder))
    (extraConfig : option E) : BuiltTable E :=
  snowflakeTableWithSchema name columns extraConfig (Some (schemaName this)) None.

End WithColumnBuilder.

End Builders.
Import Builders.

(** *** indexes.ts *)

Module Indexes.

Inductive IndexColumn : Type :=
| OnColumn (c : SnowflakeColumn)
| OnSQL (s : SQL).

(** ['asc' | 'desc'] and ['first' | 'last'] *)
Inductive Order : Type := order_asc | order_desc.
Inductive Nulls : Type := nulls_first | nulls_last.

Record IndexedColumn : Type := mkIndexedColumn {
  column : IndexColumn;
  order : option Order;
  nulls : option Nulls
}.

Record IndexConfig : Type := mkIndexConfig {
  name : string;
  columns : list IndexedColumn;
  unique : bool;
  where_ : option SQL
}.

Record IndexBuilderOn : Type := mkIndexBuilderOn {
  on_name : string;
  on_unique : bool
}.

(** The builder is its [config]. *)
Definition IndexBuilder : Type := IndexConfig.

Definition IndexBuilder_new (name : string) (columns : list IndexColumn)
    (unique : bool) : IndexBuilder :=
  mkIndexConfig name
    (map (fun column => mkIndexedColumn column (Some order_asc) (Some nulls_last))
         columns)
    unique None.

Definition on (this : IndexBuilderOn) (columns : list IndexColumn)
  : IndexBuilder :=
  IndexBuilder_new (on_name this) columns (on_unique this).

(** [for (const column of this.config.columns) column.order = o] *)
Definition setOrder (o : Order) (this : IndexBuilder) : IndexBuilder :=
  mkIndexConfig (name this)
    (map (fun c => mkIndexedColumn (column c) (Some o) (nulls c)) (columns this))
    (unique this) (where_ this).

Definition setNulls (n : Nulls) (this : IndexBuilder) : IndexBuilder :=
  mkIndexConfig (name this)
    (map (fun c => mkIndexedColumn (column c) (order c) (Some n)) (columns this))
    (unique this) (where_ this).

Definition asc : IndexBuilder -> IndexBuilder := setOrder order_asc.
Definition desc : IndexBuilder -> IndexBuilder := setOrder order_desc.
Definition nullsFirst : IndexBuilder -> IndexBuilder := setNulls nulls_first.
Definition nullsLast : IndexBuilder -> IndexBuilder := setNulls nulls_last.

Definition IndexBuilder_where (condition : SQL) (this : IndexBuilder)
  : IndexBuilder :=
  mkIndexConfig (name this) (columns this) (unique this) (Some condition).

(** [this.config = { ...config, table }] *)
Record Index : Type := mkIndex {
  config : IndexConfig;
  table : Table
}.

Definition build (table : Table) (this : IndexBuilder) : Index :=
  mkIndex this table.

Definition index (name : string) : IndexBuilderOn := mkIndexBuilderOn name false.
Definition uniqueIndex (name : string) : IndexBuilderOn :=
  mkIndexBuilderOn name true.

(** The calls a caller can chain on an index builder. *)
Inductive Call : Type :=
| call_asc | call_desc | call_nullsFirst | call_nullsLast
| call_where (condition : SQL).

Definition call (this : IndexBuilder) (c : Call) : IndexBuilder :=
  match c with
  | call_asc => asc this
  | call_desc => desc this
  | call_nullsFirst => nullsFirst this
  | call_nullsLast => nullsLast this
  | call_where condition => IndexBuilder_where condition this
  end.

Definition chain (this : IndexBuilder) (calls : list Call) : IndexBuilder :=
  fold_left call calls this.

End Indexes.

(* ===================================================================== *)
(** ** The SQL compiler (snowflake-core/dialect.ts)                       *)
(* ===================================================================== *)

Module Dialect.

(** The double-quote character, as a string. *)
Definition dquote : string := String (ascii_of_nat 34) EmptyString.

(** *** The [sql] template and its helpers

    Modelled from the spec: the fragment-composition primitive
    (~/sql/sql.ts) is an external collaborator of this module.  A
    template yields the fragment made of its raw text pieces and the
    interpolated values, in order; [sql.join] concatenates chunks
    around an optional separator; [sql.raw], [sql.identifier] and
    [sql.param] build a raw-text fragment, an identifier and a bound
    parameter. *)

Fixpoint interleave (params : list SQLChunk) (strings : list string)
  : list SQLChunk :=
  match params, strings with
  | p :: ps, s :: ss => p :: StringChunk s :: interleave ps ss
  | _, _ => []
  end.

Definition sql (strings : list string) (params : list SQLChunk) : SQL :=
  match strings with
  | [] => mkSQL [] NoopDecoder
  | s0 :: rest =>
      mkSQL ((if negb (Nat.eqb (List.length params) 0) || negb (String.eqb s0 "")
              then [StringChunk s0] else []) ++ interleave params rest)%list
            NoopDecoder
  end.

Definition sql_raw (str : string) : SQL := mkSQL [StringChunk str] NoopDecoder.
Definition sql_identifier (value : string) : SQLChunk := Name value.
Definition sql_param (value : JSValue) (encoder : option SnowflakeColumn)
  : SQLChunk := Param value encoder.

Definition sql_join (chunks : list SQLChunk) (separator : option SQLChunk)
  : SQL :=
  mkSQL (concat (imap (fun i chunk =>
                         match separator with
                         | Some sep => if Nat.ltb 0 i then [sep; chunk] else [chunk]
                         | None => [chunk]
                         end) chunks))
        NoopDecoder.

(** An optional fragment, interpolated. *)
Definition opt (s : option SQL) : SQLChunk :=
  match s with
  | Some s => SQLChunk_SQL s
  | None => Undefined
  end.

(** *** The dialect object *)

(** Modelled from the spec: [CasingCache] (~/casing.ts) is outside
    these sources; the dialect only asks it for the name under which a
    column is written. *)
Record CasingCache : Type := { getColumnCasing : SnowflakeColumn -> string }.

Record SnowflakeDialect : Type := { casing : CasingCache }.

Definition escapeName (name : string) : string := dquote +:+ name +:+ dquote.

Definition escapeParam (_num : Z) : string := "?".

(** [str.replace(/'/g, "''")] *)
Fixpoint replace_quotes (str : string) : string :=
  match str with
  | EmptyString => EmptyString
  | String c rest =>
      if Ascii.eqb c "'"%char
      then String "'"%char (String "'"%char (replace_quotes rest))
      else String c (replace_quotes rest)
  end.

Definition escapeString (str : string) : string :=
  "'" +:+ replace_quotes str +:+ "'".

(** The quoting rule in the words of the specification, SQL-92
    delimited identifiers: the name between double quotes, every double
    quote inside it doubled.  Only used to compare [escapeName] with. *)
Fixpoint double_dquotes (name : string) : string :=
  match name with
  | EmptyString => EmptyString
  | String c rest =>
      if Ascii.eqb c (ascii_of_nat 34)
      then String c (String c (double_dquotes rest))
      else String c (double_dquotes rest)
  end.

Definition sql92_delimited (name : string) : string :=
  dquote +:+ double_dquotes name +:+ dquote.

Fixpoint contains_dquote (name : string) : bool :=
  match name with
  | EmptyString => false
  | String c rest => Ascii.eqb c (ascii_of_nat 34) || contains_dquote rest
  end.

(** *** Query descriptors *)

Record Subquery : Type := mkSubquery {
  sq_alias : string;
  sq_sql : SQL;
  sq_selectedFields : list (string * SQLChunk)
}.

Definition SubqueryChunk_of (q : Subquery) : SQLChunk :=
  SubqueryChunk (sq_alias q) (sq_sql q) (sq_selectedFields q).

(** [SelectedFieldsOrdered]: the projected fields with their paths. *)
Record SelectedField : Type := mkField {
  path : list string;
  field : SQLChunk
}.

Definition SelectedFieldsOrdered : Type := list SelectedField.

Record SnowflakeSelectJoinConfig : Type := mkJoin {
  on : option SQL;
  join_table : SQLChunk;
  join_alias : option string;
  joinType : string
}.

(** A [limit] / [offset]: a number or a placeholder. *)
Inductive LimitValue : Type :=
| LimitNumber (n : Z)
| LimitPlaceholder (placeholderName : string).

Record SetOperator : Type := mkSetOperator {
  rightSelect : SQL;          (* [rightSelect.getSQL()] *)
  so_type : string;
  isAll : bool;
  so_orderBy : option (list SQLChunk);
  so_limit : option LimitValue;
  so_offset : option LimitValue
}.

(** [SnowflakeSelectConfig].  [fields_ordered] stands for
    [orderSelectedFields(fields)], a function of ~/utils.ts that these
    sources only call. *)
Record SnowflakeSelectConfig : Type := mkSelect {
  withList : option (list Subquery);
  fields_ordered : SelectedFieldsOrdered;
  fieldsFlat : option SelectedFieldsOrdered;
  where_ : option SQL;
  having : option SQL;
  sel_table : SQLChunk;
  limit : option LimitValue;
  offset : option LimitValue;
  joins : option (list SnowflakeSelectJoinConfig);
  orderBy : option (list SQLChunk);
  groupBy : option (list SQLChunk);
  distinct : option bool;
  setOperators : list SetOperator
}.

(** *** buildWithCTE *)

Definition buildWithCTE (queries : option (list Subquery)) : option SQL :=
  match queries with
  | None | Some [] => None
  | Some queries =>
      let withSqlChunks :=
        ([SQLChunk_SQL (sql ["WITH "] [])]
         ++ concat (imap (fun i w =>
              [SQLChunk_SQL (sql [""; " AS ("; ")"]
                               [sql_identifier (sq_alias w);
                                SQLChunk_SQL (sq_sql w)])]
              ++ (if Nat.ltb i (List.length queries - 1)
                  then [SQLChunk_SQL (sql [", "] [])] else [])) queries)
         ++ [SQLChunk_SQL (sql [" "] [])])%list in
      Some (sql_join withSqlChunks None)
  end.

(** *** buildSelection *)

(** In single-table mode the columns inside a fragment lose their
    table: [query.queryChunks.map((c) => is(c, SnowflakeColumn) ? ... : c)]. *)
Definition unqualify (this : SnowflakeDialect) (c : SQLChunk) : SQLChunk :=
  match c with
  | ColumnChunk col => sql_identifier (getColumnCasing (casing this) col)
  | _ => c
  end.

(** The decoder a sub-query with one selected field inherits. *)
Definition inheritedDecoder (current : Decoder)
    (selectedFields : list (string * SQLChunk)) : Decoder :=
  match selectedFields with
  | [(_, entry)] =>
      match entry with
      | SQLChunk_SQL s => decoder s
      | ColumnChunk c => ColumnDecoder (TableName (table c)) (column_name c)
      | Aliased s _ _ => decoder s
      | _ => current
      end
  | _ => current
  end.

(** The chunks one field contributes, before the separator: the body of
    the [flatMap] callback, branch by branch. *)
Definition selectionChunk (this : SnowflakeDialect) (isSingleTable : bool)
    (field : SQLChunk) : list SQLChunk :=
  match field with
  | Aliased query fieldAlias true => [sql_identifier fieldAlias]
  | Aliased query fieldAlias false =>
      [if isSingleTable
       then SQLChunk_SQL (mkSQL (map (unqualify this) (queryChunks query))
                                NoopDecoder)
       else SQLChunk_SQL query;
       SQLChunk_SQL (sql [" AS "; ""] [sql_identifier fieldAlias])]
  | SQLChunk_SQL query =>
      [if isSingleTable
       then SQLChunk_SQL (mkSQL (map (unqualify this) (queryChunks query))
                                NoopDecoder)
       else SQLChunk_SQL query]
  | ColumnChunk c =>
      if isSingleTable
      then [sql_identifier (getColumnCasing (casing this) c)]
      else [ColumnChunk c]
  | SubqueryChunk alias s selectedFields =>
      [SubqueryChunk alias
         (mkSQL (queryChunks s) (inheritedDecoder (decoder s) selectedFields))
         selectedFields]
  | _ => []
  end.

Definition buildSelection (this : SnowflakeDialect)
    (fields : SelectedFieldsOrdered) (isSingleTable : bool) : SQL :=
  let columnsLen := List.length fields in
  let chunks :=
    concat (imap (fun i f =>
              (selectionChunk this isSingleTable (field f)
               ++ (if Nat.ltb i (columnsLen - 1)
                   then [SQLChunk_SQL (sql [", "] [])] else []))%list)
            fields) in
  sql_join chunks None.

(** *** buildJoins *)

Definition string_truthy (s : option string) : bool := negb (string_falsy s).

(** [alias && sql` ${sql.identifier(alias)}`] *)
Definition aliasSql (alias : option string) : SQLChunk :=
  match alias with
  | None => Undefined
  | Some a =>
      if String.eqb a "" then ValueChunk (JSString "")
      else SQLChunk_SQL (sql [" "; ""] [sql_identifier a])
  end.

(** [schema ? sql`${sql.identifier(schema)}.` : undefined] *)
Definition schemaSql (schema : option string) : SQLChunk :=
  match schema with
  | Some s =>
      if String.eqb s "" then Undefined
      else SQLChunk_SQL (sql [""; "."] [sql_identifier s])
  | None => Undefined
  end.

Definition buildJoin (joinMeta : SnowflakeSelectJoinConfig) : SQLChunk :=
  let onSql :=
    match on joinMeta with
    | Some o => SQLChunk_SQL (sql [" ON "; ""] [SQLChunk_SQL o])
    | None => Undefined
    end in
  match join_table joinMeta with
  | TableChunk t =>
      let alias :=
        if String.eqb (TableName t) (OriginalName t) then None
        else join_alias joinMeta in
      SQLChunk_SQL (sql [""; " JOIN "; ""; ""; ""; ""]
        [SQLChunk_SQL (sql_raw (joinType joinMeta)); schemaSql (Schema t);
         sql_identifier (OriginalName t); aliasSql alias; onSql])
  | ViewChunk viewName viewSchema origViewName =>
      let alias :=
        if String.eqb viewName origViewName then None
        else join_alias joinMeta in
      SQLChunk_SQL (sql [""; " JOIN "; ""; ""; ""; ""]
        [SQLChunk_SQL (sql_raw (joinType joinMeta)); schemaSql viewSchema;
         sql_identifier origViewName; aliasSql alias; onSql])
  | other =>
      SQLChunk_SQL (sql [""; " JOIN "; ""; ""]
        [SQLChunk_SQL (sql_raw (joinType joinMeta)); other; onSql])
  end.

Definition buildJoins (joins : option (list SnowflakeSelectJoinConfig))
  : option SQL :=
  match joins with
  | None | Some [] => None
  | Some joins =>
      let joinsArray :=
        concat (imap (fun index joinMeta =>
                  ((if Nat.eqb index 0 then [SQLChunk_SQL (sql [" "] [])] else [])
                   ++ [buildJoin joinMeta]
                   ++ (if Nat.ltb index (List.length joins - 1)
                       then [SQLChunk_SQL (sql [" "] [])] else []))%list)
                joins) in
      Some (sql_join joinsArray None)
  end.

(** *** buildFromTable *)

Definition buildFromTable (table : SQLChunk) : SQLChunk :=
  match table with
  | TableChunk t =>
      if IsAlias t then
        let fullName := sql [""; ""] [sql_identifier (OriginalName t)] in
        let fullName :=
          if string_truthy (Schema t)
          then sql [""; "."; ""]
                   [sql_identifier (nullish (Schema t) ""); SQLChunk_SQL fullName]
          else fullName in
        SQLChunk_SQL (sql [""; " "; ""]
                          [SQLChunk_SQL fullName; sql_identifier (TableName t)])
      else table
  | _ => table
  end.

(** *** buildSelectQuery *)

(** The name the root of the query goes by:
<<
    is(table, Subquery) ? table._.alias
      : is(table, SQL) ? undefined : getTableName(table)
>>
    (a view has no [Table.Symbol.Name]). *)
Definition rootName (table : SQLChunk) : option string :=
  match table with
  | SubqueryChunk alias _ _ => Some alias
  | TableChunk t => Some (getTableName t)
  | _ => None
  end.

(** The name a join is looked up by:
    [table[Table.Symbol.IsAlias] ? getTableName(table) : table[Table.Symbol.BaseName]] *)
Definition joinKey (table : Table) : string :=
  if IsAlias table then getTableName table else BaseName table.

(** [joins?.some(({ alias }) => alias === joinKey(table))], with
    [undefined] read as false. *)
Definition joined (joins : option (list SnowflakeSelectJoinConfig))
    (table : Table) : bool :=
  match joins with
  | None => false
  | Some joins =>
      existsb (fun j =>
                 match join_alias j with
                 | Some alias => String.eqb alias (joinKey table)
                 | None => false
                 end) joins
  end.

(** The condition of the [if] inside the validation loop. *)
Definition unresolved (table : SQLChunk)
    (joins : option (list SnowflakeSelectJoinConfig)) (f : SelectedField)
  : option SnowflakeColumn :=
  match field f with
  | ColumnChunk c =>
      if negb (match rootName table with
               | Some root => String.eqb (getTableName (Core.table c)) root
               | None => false
               end)
         && negb (joined joins (Core.table c))
      then Some c else None
  | _ => None
  end.

Definition unresolvedMessage (f : SelectedField) (c : SnowflakeColumn)
  : string :=
  let tableName := getTableName (table c) in
  "Your " +:+ dquote +:+ join "->" (path f) +:+ dquote
  +:+ " field references a column "
  +:+ dquote +:+ tableName +:+ dquote +:+ "."
  +:+ dquote +:+ column_name c +:+ dquote
  +:+ ", but the table " +:+ dquote +:+ tableName +:+ dquote
  +:+ " is not part of the query! Did you forget to join it?".

(** The [for (const f of fieldsList)] loop: the first unresolved field
    throws. *)
Fixpoint checkFields (table : SQLChunk)
    (joins : option (list SnowflakeSelectJoinConfig))
    (fieldsList : SelectedFieldsOrdered) : Result unit :=
  match fieldsList with
  | [] => Ok tt
  | f :: rest =>
      match unresolved table joins f with
      | Some c => Throw (Error (unresolvedMessage f c))
      | None => checkFields table joins rest
      end
  end.

Definition limitSql (limit : option LimitValue) : SQLChunk :=
  match limit with
  | Some (LimitPlaceholder p) =>
      SQLChunk_SQL (sql [" LIMIT "; ""] [Placeholder p])
  | Some (LimitNumber n) =>
      if (0 <=? n)%Z
      then SQLChunk_SQL (sql [" LIMIT "; ""] [ValueChunk (JSNumber n)])
      else Undefined
  | None => Undefined
  end.

Definition offsetSql (offset : option LimitValue) : SQLChunk :=
  match offset with
  | Some (LimitPlaceholder p) =>
      SQLChunk_SQL (sql [" OFFSET "; ""] [Placeholder p])
  | Some (LimitNumber n) =>
      if truthy (JSNumber n)
      then SQLChunk_SQL (sql [" OFFSET "; ""] [ValueChunk (JSNumber n)])
      else Undefined
  | None => Undefined
  end.

(** *** buildSetOperationQuery and buildSetOperations *)

Definition orderByValue (singleOrderBy : SQLChunk) : SQLChunk :=
  match singleOrderBy with
  | ColumnChunk c => sql_identifier (column_name c)
  | SQLChunk_SQL s =>
      let chunks :=
        map (fun chunk =>
               match chunk with
               | ColumnChunk c => sql_identifier (column_name c)
               | _ => chunk
               end) (queryChunks s) in
      SQLChunk_SQL (sql [""; ""] [SQLChunk_SQL (mkSQL chunks (decoder s))])
  | other => SQLChunk_SQL (sql [""; ""] [other])
  end.

Definition buildSetOperationQuery (leftSelect : SQL) (setOperator : SetOperator)
  : SQL :=
  let leftChunk := sql ["("; ") "] [SQLChunk_SQL leftSelect] in
  let rightChunk := sql ["("; ")"] [SQLChunk_SQL (rightSelect setOperator)] in
  let orderBySql :=
    match so_orderBy setOperator with
    | None | Some [] => Undefined
    | Some orderBy =>
        let orderByValues := map orderByValue orderBy in
        SQLChunk_SQL (sql [" ORDER BY "; " "]
          [SQLChunk_SQL (sql_join orderByValues
                                  (Some (SQLChunk_SQL (sql [", "] []))))])
    end in
  let operatorChunk :=
    sql_raw (so_type setOperator +:+ " "
             +:+ (if isAll setOperator then "ALL " else "")) in
  sql [""; ""; ""; ""; ""; ""; ""]
      [SQLChunk_SQL leftChunk; SQLChunk_SQL operatorChunk;
       SQLChunk_SQL rightChunk; orderBySql;
       limitSql (so_limit setOperator); offsetSql (so_offset setOperator)].

Fixpoint buildSetOperations (leftSelect : SQL) (setOperators : list SetOperator)
  : Result SQL :=
  match setOperators with
  | [] => Throw (Error "Cannot pass undefined values to any set operator")
  | setOperator :: rest =>
      match rest with
      | [] => Ok (buildSetOperationQuery leftSelect setOperator)
      | _ =>
          buildSetOperations (buildSetOperationQuery leftSelect setOperator) rest
      end
  end.

Definition isSingleTableOf (joins : option (list SnowflakeSelectJoinConfig))
  : bool :=
  match joins with
  | None | Some [] => true
  | Some _ => false
  end.

Definition buildSelectQuery (this : SnowflakeDialect)
    (config : SnowflakeSelectConfig) : Result SQL :=
  let fieldsList := nullish (fieldsFlat config) (fields_ordered config) in
  match checkFields (sel_table config) (joins config) fieldsList with
  | Throw e => Throw e
  | Ok _ =>
      let isSingleTable := isSingleTableOf (joins config) in
      let withSql := buildWithCTE (withList config) in
      let distinctSql :=
        match distinct config with
        | Some true => SQLChunk_SQL (sql [" DISTINCT"] [])
        | _ => Undefined
        end in
      let selection := buildSelection this fieldsList isSingleTable in
      let tableSql := buildFromTable (sel_table config) in
      let joinsSql := buildJoins (joins config) in
      let whereSql :=
        match where_ config with
        | Some w => SQLChunk_SQL (sql [" WHERE "; ""] [SQLChunk_SQL w])
        | None => Undefined
        end in
      let havingSql :=
        match having config with
        | Some h => SQLChunk_SQL (sql [" HAVING "; ""] [SQLChunk_SQL h])
        | None => Undefined
        end in
      let orderBySql :=
        match orderBy config with
        | None | Some [] => Undefined
        | Some orderBy =>
            SQLChunk_SQL (sql [" ORDER BY "; ""]
              [SQLChunk_SQL (sql_join orderBy
                                      (Some (SQLChunk_SQL (sql [", "] []))))])
        end in
      let groupBySql :=
        match groupBy config with
        | None | Some [] => Undefined
        | Some groupBy =>
            SQLChunk_SQL (sql [" GROUP BY "; ""]
              [SQLChunk_SQL (sql_join groupBy
                                      (Some (SQLChunk_SQL (sql [", "] []))))])
        end in
      let finalQuery :=
        sql [""; "SELECT"; " "; " FROM "; ""; ""; ""; ""; ""; ""; ""; ""]
            [opt withSql; distinctSql; SQLChunk_SQL selection; tableSql;
             opt joinsSql; whereSql; groupBySql; havingSql; orderBySql;
             limitSql (limit config); offsetSql (offset config)] in
      if Nat.ltb 0 (List.length (setOperators config))
      then buildSetOperations finalQuery (setOperators config)
      else Ok finalQuery
  end.

(** *** buildInsertQuery *)

(** Modelled from the spec: [Column.shouldDisableInsert] (~/column.ts)
    is outside these sources; a column flagged insert-disabled is an
    identity / generated column, which [generatedAlwaysAs] of
    columns/common.ts marks with [generated.type = 'always']. *)
Definition shouldDisableInsert (col : SnowflakeColumn) : bool :=
  match generated (config col) with
  | Some always => true
  | _ => false
  end.

(** [values]: the rows of an [insert ... values], or the query of an
    [insert ... select] (a fragment, or a builder with [getSQL()]). *)
Inductive InsertValues : Type :=
| ValuesRows (rows : list (gmap string SQLChunk))
| ValuesSQL (s : SQL)
| ValuesQueryBuilder (getSQL : SQL).

Record SnowflakeInsertConfig : Type := mkInsert {
  ins_table : SnowflakeTable;
  values : InsertValues;
  onConflict : option SQL;
  returning : option SelectedFieldsOrdered;
  ins_withList : option (list Subquery);
  select : option bool
}.

(** [!col.default]: the static default is absent or a falsy value. *)
Definition default_falsy (col : SnowflakeColumn) : bool :=
  match default (config col) with
  | None => true
  | Some (inl v) => negb (truthy v)
  | Some (inr _) => false
  end.

(** [is(r, SQL) ? r : sql.param(r, col)] *)
Definition generatedValue (col : SnowflakeColumn) (r : JSValue + SQL)
  : SQLChunk :=
  match r with
  | inr s => SQLChunk_SQL s
  | inl v => sql_param v (Some col)
  end.

(** [colValue === undefined || (is(colValue, Param) && colValue.value === undefined)] *)
Definition notSupplied (colValue : option SQLChunk) : bool :=
  match colValue with
  | None => true
  | Some (ValueChunk JSUndefined) => true
  | Some (Param JSUndefined _) => true
  | Some _ => false
  end.

(** What the inner loop pushes on [valueList] for one column of one row:
<<
    if (colValue === undefined || (is(colValue, Param) && colValue.value === undefined)) {
      if (col.defaultFn !== undefined) { ... defaultFn() ... }
      else if (!col.default && col.onUpdateFn !== undefined) { ... onUpdateFn() ... }
      else { valueList.push(sql`DEFAULT`); }
    } else { valueList.push(colValue); }
>> *)
Definition insertValue (col : SnowflakeColumn) (colValue : option SQLChunk)
  : SQLChunk :=
  if notSupplied colValue then
    match defaultFn (config col) with
    | Some defaultFn => generatedValue col (defaultFn tt)
    | None =>
        match default_falsy col, onUpdateFn (config col) with
        | true, Some onUpdateFn => generatedValue col (onUpdateFn tt)
        | _, _ => SQLChunk_SQL (sql ["DEFAULT"] [])
        end
    end
  else nullish colValue Undefined.

Definition buildInsertQuery (this : SnowflakeDialect)
    (config : SnowflakeInsertConfig) : Result SQL :=
  let table := ins_table config in
  let colEntries :=
    List.filter (fun entry => negb (shouldDisableInsert (snd entry)))
                (Columns table) in
  let insertOrder :=
    map (fun entry => sql_identifier (getColumnCasing (casing this) (snd entry)))
        colEntries in
  let valuesSqlList : Result (list SQLChunk) :=
    match select config with
    | Some true =>
        match values config with
        | ValuesSQL s => Ok [SQLChunk_SQL s]
        | ValuesQueryBuilder s => Ok [SQLChunk_SQL s]
        | ValuesRows _ => Throw (TypeError "select.getSQL is not a function")
        end
    | _ =>
        match values config with
        | ValuesRows rows =>
            Ok ([SQLChunk_SQL (sql_raw "VALUES ")]
                ++ concat (imap (fun valueIndex (value : gmap string SQLChunk) =>
                     let valueList :=
                       map (fun entry =>
                              insertValue (snd entry) (value !! fst entry))
                           colEntries in
                     ([ArrayChunk valueList]
                      ++ (if Nat.ltb valueIndex (List.length rows - 1)
                          then [SQLChunk_SQL (sql [", "] [])] else []))%list)
                   rows))%list
        | _ => Throw (TypeError "values.entries is not a function or its return value is not iterable")
        end
    end in
  match valuesSqlList with
  | Throw e => Throw e
  | Ok valuesSqlList =>
      let withSql := buildWithCTE (ins_withList config) in
      let valuesSql := sql_join valuesSqlList None in
      Ok (sql [""; "INSERT INTO "; " "; " "; ""]
              [opt withSql; TableChunk (base table); ArrayChunk insertOrder;
               SQLChunk_SQL valuesSql])
  end.

(** *** Rendering a fragment to text

    Modelled from the spec: the final serialization ([SQL.toQuery] of
    ~/sql/sql.ts) is an external collaborator.  The spec fixes how the
    chunk kinds below are written: raw text as it is, an identifier
    through [escapeName], a bound value as the positionless placeholder,
    a column qualified with the name of its table, a nested fragment as
    the concatenation of its parts, [undefined] as nothing.  The other
    kinds are not rendered here ([None]). *)
Fixpoint toText (this : SnowflakeDialect) (c : SQLChunk) : option string :=
  let fix all (l : list SQLChunk) : option string :=
    match l with
    | [] => Some EmptyString
    | x :: rest =>
        match toText this x, all rest with
        | Some a, Some b => Some (a +:+ b)
        | _, _ => None
        end
    end in
  match c with
  | ValueChunk JSUndefined => Some EmptyString
  | StringChunk s => Some s
  | Name n => Some (escapeName n)
  | Param _ _ => Some (escapeParam 0)
  | ColumnChunk col =>
      Some (escapeName (TableName (table col)) +:+ "."
            +:+ escapeName (getColumnCasing (casing this) col))
  | SQLChunk_SQL (mkSQL chunks _) => all chunks
  | _ => None
  end.

Definition sqlToText (this : SnowflakeDialect) (s : SQL) : option string :=
  toText this (SQLChunk_SQL s).

(** *** buildDeleteQuery *)

Record SnowflakeDeleteConfig : Type := mkDelete {
  del_table : SnowflakeTable;
  del_where : option SQL;
  del_returning : option SelectedFieldsOrdered;
  del_withList : option (list Subquery)
}.

(** [where ? sql` WHERE ${where}` : undefined] *)
Definition whereSql (where_ : option SQL) : SQLChunk :=
  match where_ with
  | Some w => SQLChunk_SQL (sql [" WHERE "; ""] [SQLChunk_SQL w])
  | None => Undefined
  end.

Definition buildDeleteQuery (config : SnowflakeDeleteConfig) : SQL :=
  let withSql := buildWithCTE (del_withList config) in
  sql [""; "DELETE FROM "; ""; ""]
      [opt withSql; TableChunk (base (del_table config));
       whereSql (del_where config)].

(** *** buildUpdateSet and buildUpdateQuery *)

(** [UpdateSet]: the values by column key; a key can be present with
    the value [undefined] or [null]. *)
Definition UpdateSet : Type := gmap string SQLChunk.

(** [set[colName] !== undefined] *)
Definition isDefined (value : option SQLChunk) : bool :=
  match value with
  | None | Some (ValueChunk JSUndefined) => false
  | Some _ => true
  end.

(** [value ?? fallback] *)
Definition coalesce (value : option SQLChunk) (fallback : SQLChunk) : SQLChunk :=
  match value with
  | None | Some (ValueChunk JSUndefined) | Some (ValueChunk JSNull) => fallback
  | Some v => v
  end.

(** The filter on the column keys: a value is given or the column has
    an update generator. *)
Definition inUpdateSet (set : UpdateSet) (entry : string * SnowflakeColumn)
  : bool :=
  isDefined (set !! fst entry)
  || match onUpdateFn (config (snd entry)) with
     | Some _ => true
     | None => false
     end.

(** [set[colName] ?? (is(onUpdateFnResult, SQL) ? onUpdateFnResult
                        : sql.param(onUpdateFnResult, col))],
    where [onUpdateFnResult = col.onUpdateFn?.()]. *)
Definition updateValue (set : UpdateSet) (entry : string * SnowflakeColumn)
  : SQLChunk :=
  let col := snd entry in
  coalesce (set !! fst entry)
    match onUpdateFn (config col) with
    | Some onUpdateFn => generatedValue col (onUpdateFn tt)
    | None => sql_param JSUndefined (Some col)
    end.

(** The table's columns are an object: its keys, each looked up again,
    are its entries. *)
Definition buildUpdateSet (this : SnowflakeDialect) (table : SnowflakeTable)
    (set : UpdateSet) : SQL :=
  let tableColumns := Columns table in
  let columnNames := List.filter (inUpdateSet set) tableColumns in
  let setSize := List.length columnNames in
  sql_join
    (concat (imap (fun i entry =>
               let col := snd entry in
               let res :=
                 SQLChunk_SQL
                   (sql [""; " = "; ""]
                        [sql_identifier (getColumnCasing (casing this) col);
                         updateValue set entry]) in
               if Nat.ltb i (setSize - 1)
               then [res; SQLChunk_SQL (sql_raw ", ")]
               else [res])
            columnNames))
    None.



(** *** prepareTyping *)

(** The encoder of a bound parameter is a column or some other encoder
    ([None]). *)
Definition prepareTyping (encoder : option SnowflakeColumn) : string :=
  match encoder with
  | Some c =>
      match columnClass c with
      | SnowflakeTimestamp _ _ | SnowflakeTimestampString _ _ => "timestamp"
      | SnowflakeDate | SnowflakeDateString => "date"
      | _ => "none"
      end
  | None => "none"
  end.

End Dialect.
Import Dialect.

(* ===================================================================== *)
(** ** The session and its transactions (snowflake/session.ts)            *)
(* ===================================================================== *)

Module Driver.

(** *** The connection

    The vendor connection is an external collaborator with one method,
    [execute({ sqlText, binds?, complete })].  It is a shared object: the
    session, every transaction handle and every prepared query hold a
    reference to it.  What it answers is its own business; here its
    answer to a call is a function of the calls it has received so far,
    and every call is recorded, in order. *)

Record Query : Type := mkQuery {
  query_sql : string;
  params : list JSValue
}.

Record ExecuteOptions : Type := mkExecute {
  sqlText : string;
  binds : option (list JSValue)
}.

Definition Rows : Type := list (list JSValue).

(** The arguments [complete] is called with ([stmt] is never inspected). *)
Record Completion : Type := mkCompletion {
  err : option JSError;
  rows : option Rows
}.

Record SnowflakeConnection : Type := mkConnection {
  calls : list ExecuteOptions;
  respond : list ExecuteOptions -> ExecuteOptions -> Completion
}.

Definition ConnRef : Type := nat.

(** A logger is a [NoopLogger] or one that keeps what it is given. *)
Inductive Logger : Type := NoopLogger | RecordingLogger.

(** The objects the module shares with its caller: the connections, by
    reference, and the lines handed to a recording logger. *)
Record World : Type := mkWorld {
  connections : ConnRef -> SnowflakeConnection;
  logged : list Query
}.

(** [connection.execute(options)]: the call is recorded and answered. *)
Definition connection_execute (c : ConnRef) (options : ExecuteOptions)
    (w : World) : World * Completion :=
  let conn := connections w c in
  let completion := respond conn (calls conn) options in
  let conn' := mkConnection (calls conn ++ [options])%list (respond conn) in
  (mkWorld (fun r => if Nat.eqb r c then conn' else connections w r) (logged w),
   completion).

Definition logQuery (l : Logger) (q : Query) (w : World) : World :=
  match l with
  | NoopLogger => w
  | RecordingLogger => mkWorld (connections w) (logged w ++ [q])%list
  end.

(** *** Promises

    An [async] function is a computation over the shared objects that
    settles: it resolves with a value or rejects with an error.  One
    statement completes before the next is issued. *)

Inductive Outcome (A : Type) : Type :=
| Resolved (value : A)
| Rejected (error : JSError).
Arguments Resolved {A}. Arguments Rejected {A}.

Definition Async (A : Type) : Type := World -> World * Outcome A.

Definition resolve {A : Type} (v : A) : Async A := fun w => (w, Resolved v).

Definition reject {A : Type} (e : JSError) : Async A := fun w => (w, Rejected e).

(** [const x = await m; k x] *)
Definition await {A B : Type} (m : Async A) (k : A -> Async B) : Async B :=
  fun w =>
    match m w with
    | (w', Resolved v) => k v w'
    | (w', Rejected e) => (w', Rejected e)
    end.

(** [try { body } catch (error) { handler error }] *)
Definition try_catch {A : Type} (body : Async A) (handler : JSError -> Async A)
  : Async A :=
  fun w =>
    match body w with
    | (w', Resolved v) => (w', Resolved v)
    | (w', Rejected e) => handler e w'
    end.

Notation "x <- m ;; k" := (await m (fun x => k))
  (at level 100, m at level 99, right associativity).

(** The promise the transaction methods wrap around a bare statement:
<<
    new Promise<void>((resolve, reject) => {
      this.connection.execute({ sqlText, complete: (err) => { if (err) reject(err); else resolve(); } });
    })
>> *)
Definition statement (c : ConnRef) (text : string) : Async unit :=
  fun w =>
    let '(w', completion) := connection_execute c (mkExecute text None) w in
    match err completion with
    | Some e => (w', Rejected e)
    | None => (w', Resolved tt)
    end.

(** *** SnowflakeSdkPreparedQuery *)

Record SnowflakeSdkPreparedQuery : Type := mkPreparedQuery {
  pq_connection : ConnRef;
  rawQuery : Query;
  pq_logger : Logger;
  pq_fields : option SelectedFieldsOrdered;
  _isResponseInArrayMode : bool;
  customResultMapper : option (option Rows -> option Rows)
}.

Definition SnowflakeSdkPreparedQuery_new (connection : ConnRef) (query : Query)
    (logger : Logger) (fields : option SelectedFieldsOrdered)
    (name : option string) (isResponseInArrayMode : bool)
    (customResultMapper : option (option Rows -> option Rows))
  : SnowflakeSdkPreparedQuery :=
  mkPreparedQuery connection (mkQuery (query_sql query) (params query)) logger
                  fields isResponseInArrayMode customResultMapper.

Definition SnowflakeSdkPreparedQuery_execute (this : SnowflakeSdkPreparedQuery)
  : Async (option Rows) :=
  fun w =>
    let params := params (rawQuery this) in
    let w := logQuery (pq_logger this) (rawQuery this) w in
    let '(w', completion) :=
      connection_execute (pq_connection this)
        (mkExecute (query_sql (rawQuery this)) (Some params)) w in
    match err completion with
    | Some e => (w', Rejected e)
    | None =>
        match customResultMapper this with
        | Some mapper => (w', Resolved (mapper (rows completion)))
        | None => (w', Resolved (rows completion))
        end
    end.

Definition SnowflakeSdkPreparedQuery_all (this : SnowflakeSdkPreparedQuery)
  : Async (option Rows) :=
  fun w =>
    let params := params (rawQuery this) in
    let w := logQuery (pq_logger this) (rawQuery this) w in
    let '(w', completion) :=
      connection_execute (pq_connection this)
        (mkExecute (query_sql (rawQuery this)) (Some params)) w in
    match err completion with
    | Some e => (w', Rejected e)
    | None => (w', Resolved (rows completion))
    end.

Definition isResponseInArrayMode (this : SnowflakeSdkPreparedQuery) : bool :=
  _isResponseInArrayMode this.

(** *** SnowflakeSdkSession and SnowflakeSdkTransaction *)

Record SnowflakeDriverConfig : Type := { cfg_logger : option Logger }.

(** The relational schema is only handed on. *)
Record RelationalSchema : Type := { tableNamesMap : list (string * string) }.

Record SnowflakeSdkSession : Type := mkSession {
  connection : ConnRef;
  dialect : SnowflakeDialect;
  schema : option RelationalSchema;
  options : SnowflakeDriverConfig;
  logger : Logger
}.

(** [this.logger = options.logger ?? new NoopLogger()] *)
Definition SnowflakeSdkSession_new (connection : ConnRef)
    (dialect : SnowflakeDialect) (schema : option RelationalSchema)
    (options : option SnowflakeDriverConfig) : SnowflakeSdkSession :=
  let options := nullish options {| cfg_logger := None |} in
  mkSession connection dialect schema options
            (nullish (cfg_logger options) NoopLogger).

Record SnowflakeSdkTransaction : Type := mkTransaction {
  tx_connection : ConnRef;
  tx_dialect : SnowflakeDialect;
  tx_session : SnowflakeSdkSession;
  tx_schema : option RelationalSchema;
  tx_options : SnowflakeDriverConfig;
  nestedIndex : nat
}.

(** The constructor; [nestedIndex] defaults to 0. *)
Definition SnowflakeSdkTransaction_new (connection : ConnRef)
    (dialect : SnowflakeDialect) (session : SnowflakeSdkSession)
    (schema : option RelationalSchema) (options : SnowflakeDriverConfig)
    (nestedIndex : option nat) : SnowflakeSdkTransaction :=
  mkTransaction connection dialect session schema options (nullish nestedIndex 0).

Section WithFragmentCompiler.

(** [dialect.sqlToQuery]: the text and the parameters of a fragment are
    computed by the fragment itself ([SQL.toQuery] of ~/sql/sql.ts, an
    external collaborator); the session hands its result on. *)
Variable sqlToQuery : SnowflakeDialect -> SQL -> Query.

Definition prepareQuery (this : SnowflakeSdkSession) (query : Query)
    (fields : option SelectedFieldsOrdered) (name : option string)
    (isResponseInArrayMode : bool)
    (customResultMapper : option (option Rows -> option Rows))
  : SnowflakeSdkPreparedQuery :=
  SnowflakeSdkPreparedQuery_new (connection this) query (logger this) fields
    name isResponseInArrayMode customResultMapper.

(** [SnowflakeSession.execute] and [SnowflakeSession.all] *)
Definition SnowflakeSession_execute (this : SnowflakeSdkSession) (query : SQL)
  : Async (option Rows) :=
  let prepared :=
    prepareQuery this (sqlToQuery (dialect this) query) None None false None in
  SnowflakeSdkPreparedQuery_execute prepared.

Definition SnowflakeSession_all (this : SnowflakeSdkSession) (query : SQL)
  : Async (option Rows) :=
  SnowflakeSdkPreparedQuery_all
    (prepareQuery this (sqlToQuery (dialect this) query) None None false None).

(** [SnowflakeDatabase.execute], which a transaction handle inherits:
    [return this.session.execute(query)] *)
Definition SnowflakeSdkTransaction_execute (this : SnowflakeSdkTransaction)
    (query : SQL) : Async (option Rows) :=
  SnowflakeSession_execute (tx_session this) query.

(** [SnowflakeTransaction.rollback]: [throw new TransactionRollbackError()] *)
Definition SnowflakeTransaction_rollback {T : Type}
    (this : SnowflakeSdkTransaction) : Async T :=
  reject TransactionRollbackError.

(** [SnowflakeSdkSession.transaction] *)
Definition SnowflakeSdkSession_transaction {T : Type}
    (this : SnowflakeSdkSession)
    (transaction : SnowflakeSdkTransaction -> Async T) : Async T :=
  let tx :=
    SnowflakeSdkTransaction_new (connection this) (dialect this) this
      (schema this) (options this) (Some 0) in
  _ <- statement (connection this) "BEGIN TRANSACTION" ;;
  try_catch
    (result <- transaction tx ;;
     _ <- statement (connection this) "COMMIT" ;;
     resolve result)
    (fun error =>
       _ <- statement (connection this) "ROLLBACK" ;;
       reject error).

(** [SnowflakeSdkTransaction.transaction] *)
Definition SnowflakeSdkTransaction_transaction {T : Type}
    (this : SnowflakeSdkTransaction)
    (transaction : SnowflakeSdkTransaction -> Async T) : Async T :=
  let tx :=
    SnowflakeSdkTransaction_new (tx_connection this) (tx_dialect this)
      (tx_session this) (tx_schema this) (tx_options this)
      (Some (nestedIndex this + 1)) in
  transaction tx.

(** *** Transaction bodies

    The function a caller passes to [transaction] receives a handle and
    works through it: it runs queries with [tx.execute], opens nested
    transactions with [tx.transaction], aborts with [tx.rollback()],
    throws, catches, returns.  [TxBody m] says that [m] is such a
    computation. *)
Inductive TxBody : forall {T : Type}, Async T -> Prop :=
| body_resolve {T} (v : T) : TxBody (resolve v)
| body_throw {T} (e : JSError) : TxBody (@reject T e)
| body_execute (tx : SnowflakeSdkTransaction) (query : SQL) :
    TxBody (SnowflakeSdkTransaction_execute tx query)
| body_rollback {T} (tx : SnowflakeSdkTransaction) :
    TxBody (@SnowflakeTransaction_rollback T tx)
| body_transaction {T} (tx : SnowflakeSdkTransaction)
    (transaction : SnowflakeSdkTransaction -> Async T) :
    (forall tx', TxBody (transaction tx')) ->
    TxBody (SnowflakeSdkTransaction_transaction tx transaction)
| body_await {A T} (m : Async A) (k : A -> Async T) :
    TxBody m -> (forall v, TxBody (k v)) -> TxBody (await m k)
| body_try_catch {T} (body : Async T) (handler : JSError -> Async T) :
    TxBody body -> (forall e, TxBody (handler e)) ->
    TxBody (try_catch body handler).

End WithFragmentCompiler.

(** The handle a top-level transaction passes to its callback, and the
    handle a nested transaction passes on. *)
Definition topHandle (this : SnowflakeSdkSession) : SnowflakeSdkTransaction :=
  SnowflakeSdkTransaction_new (connection this) (dialect this) this
    (schema this) (options this) (Some 0).

Definition nestedHandle (parent : SnowflakeSdkTransaction)
  : SnowflakeSdkTransaction :=
  SnowflakeSdkTransaction_new (tx_connection parent) (tx_dialect parent)
    (tx_session parent) (tx_schema parent) (tx_options parent)
    (Some (nestedIndex parent + 1)).

(** A callback that opens [depth] nested transactions, one inside the
    other, around [inner]:
    [tx => tx.transaction(tx1 => tx1.transaction(... inner ...))]. *)
Fixpoint nested {T : Type} (depth : nat)
    (inner : SnowflakeSdkTransaction -> Async T)
  : SnowflakeSdkTransaction -> Async T :=
  match depth with
  | 0 => inner
  | S depth => fun tx => SnowflakeSdkTransaction_transaction tx (nested depth inner)
  end.

(** *** Reading the record of a connection *)

(** The statements a connection received between two states. *)
Definition newCalls (c : ConnRef) (before after : World)
  : list ExecuteOptions :=
  skipn (List.length (calls (connections before c)))
        (calls (connections after c)).

(** The transaction methods submit their statements bare (no [binds]);
    a prepared query always submits its parameter array.  A call without
    [binds] is a statement of the transaction protocol itself. *)
Definition isProtocol (o : ExecuteOptions) : bool :=
  match binds o with
  | None => true
  | Some _ => false
  end.

(** How many times the protocol issued the statement [text]. *)
Definition issued (text : string) (l : list ExecuteOptions) : nat :=
  List.length (List.filter (fun o => isProtocol o && String.eqb (sqlText o) text) l).

Definition accepts (w : World) (c : ConnRef) (text : string) : Prop :=
  err (respond (connections w c) (calls (connections w c)) (mkExecute text None))
  = None.

(** *** The database facade (snowflake-core/db.ts, snowflake/driver.ts) *)

Record SnowflakeDatabase : Type := mkDatabase {
  db_dialect : SnowflakeDialect;
  db_session : SnowflakeSdkSession;
  db_schema : option RelationalSchema
}.

Record SnowflakeSdkDriver : Type := mkDriver {
  drv_connection : ConnRef;
  drv_options : SnowflakeDriverConfig
}.

(** [config.logger]: a boolean or a logger. *)
Inductive LoggerSetting : Type :=
| LoggerFlag (b : bool)
| LoggerObject (l : Logger).

Section Facade.

Variable sqlToQuery : SnowflakeDialect -> SQL -> Query.

(** External collaborators of [drizzle]: the dialect as
    [new SnowflakeDialect()] makes it (its casing cache comes from
    ~/casing.ts), the default logger of ~/logger.ts, and the extraction
    of the relational configuration from a user schema (~/relations.ts). *)
Variable SnowflakeDialect_new : SnowflakeDialect.
Variable DefaultLogger : Logger.
Variable UserSchema : Type.
Variable extractTablesRelationalConfig : UserSchema -> RelationalSchema.

Record DrizzleSnowflakeConfig : Type := mkDrizzleConfig {
  dz_schema : option UserSchema;
  dz_logger : option LoggerSetting
}.

Definition SnowflakeDatabase_execute (this : SnowflakeDatabase) (query : SQL)
  : Async (option Rows) :=
  SnowflakeSession_execute sqlToQuery (db_session this) query.

Definition SnowflakeDatabase_transaction {T : Type} (this : SnowflakeDatabase)
    (transaction : SnowflakeSdkTransaction -> Async T) : Async T :=
  SnowflakeSdkSession_transaction (db_session this) transaction.

Definition createSession (this : SnowflakeSdkDriver)
    (schema : option RelationalSchema) : SnowflakeSdkSession :=
  SnowflakeSdkSession_new (drv_connection this) SnowflakeDialect_new schema
                          (Some (drv_options this)).

(** [drizzle(connection, config = {})] *)
Definition drizzle (connection : ConnRef) (config : option DrizzleSnowflakeConfig)
  : SnowflakeDatabase :=
  let config :=
    nullish config {| dz_schema := None; dz_logger := None |} in
  let dialect := SnowflakeDialect_new in
  let logger : option Logger :=
    match dz_logger config with
    | Some (LoggerFlag true) => Some DefaultLogger
    | Some (LoggerFlag false) | None => None
    | Some (LoggerObject l) => Some l
    end in
  let schema : option RelationalSchema :=
    match dz_schema config with
    | Some s => Some (extractTablesRelationalConfig s)
    | None => None
    end in
  let driver := mkDriver connection {| cfg_logger := logger |} in
  let session := createSession driver schema in
  mkDatabase dialect session schema.

End Facade.

End Driver.
Import Driver.

(* ===================================================================== *)
(** ** Migration bookkeeping ([SnowflakeDialect.migrate], dialect.ts)     *)
(* ===================================================================== *)

Module Migrator.

(** [MigrationMeta] of ~/migrator.ts, as far as [migrate] reads it. *)
Record MigrationMeta : Type := mkMigration {
  mig_sql : list string;
  folderMillis : Z;
  hash : string
}.

(** [config: string | MigrationConfig] *)
Inductive MigrateConfig : Type :=
| ConfigFolder (migrationsFolder : string)
| ConfigObject (migrationsFolder : string)
               (migrationsTable migrationsSchema : option string).

Definition newline : string := String (ascii_of_nat 10) EmptyString.
Definition tab : string := String (ascii_of_nat 9) EmptyString.

(** [for (const x of l) { await body(x); }] *)
Fixpoint forEach {A : Type} (l : list A) (body : A -> Async unit) : Async unit :=
  match l with
  | [] => resolve tt
  | x :: rest => _ <- body x ;; forEach rest body
  end.

Definition createSchemaSql (migrationsSchema : string) : SQL :=
  sql ["CREATE SCHEMA IF NOT EXISTS "; ""] [sql_identifier migrationsSchema].

Definition migrationTableCreate (migrationsSchema migrationsTable : string)
  : SQL :=
  sql [newline +:+ tab +:+ tab +:+ tab +:+ "CREATE TABLE IF NOT EXISTS ";
       ".";
       " (" +:+ newline +:+ tab +:+ tab +:+ tab +:+ tab
       +:+ "id INTEGER AUTOINCREMENT PRIMARY KEY," +:+ newline
       +:+ tab +:+ tab +:+ tab +:+ tab +:+ "hash VARCHAR NOT NULL," +:+ newline
       +:+ tab +:+ tab +:+ tab +:+ tab +:+ "created_at BIGINT" +:+ newline
       +:+ tab +:+ tab +:+ tab +:+ ")" +:+ newline +:+ tab +:+ tab]
      [sql_identifier migrationsSchema; sql_identifier migrationsTable].

Definition lastMigrationSql (migrationsSchema migrationsTable : string) : SQL :=
  sql ["SELECT id, hash, created_at FROM "; ".";
       " ORDER BY created_at DESC LIMIT 1"]
      [sql_identifier migrationsSchema; sql_identifier migrationsTable].

Definition recordMigrationSql (migrationsSchema migrationsTable : string)
    (migration : MigrationMeta) : SQL :=
  sql ["INSERT INTO "; "."; " (hash, created_at) VALUES("; ", "; ")"]
      [sql_identifier migrationsSchema; sql_identifier migrationsTable;
       ValueChunk (JSString (hash migration));
       ValueChunk (JSNumber (folderMillis migration))].

Section WithRuntime.

Variable sqlToQuery : SnowflakeDialect -> SQL -> Query.

(** How a result row gives its [created_at] field, and JavaScript's
    [Number(value)] ([None] is [NaN]): the row objects come from the
    driver, the conversion from the language. *)
Variable created_at : list JSValue -> JSValue.
Variable Number : JSValue -> option Z.

(** [!lastDbMigration || Number(lastDbMigration.created_at) < migration.folderMillis] *)
Definition isPending (lastDbMigration : option (list JSValue))
    (migration : MigrationMeta) : bool :=
  match lastDbMigration with
  | None => true
  | Some row =>
      match Number (created_at row) with
      | Some millis => (millis <? folderMillis migration)%Z
      | None => false
      end
  end.

(** The body of the outer loop for a pending migration. *)
Definition applyMigration (session : SnowflakeSdkSession)
    (migrationsSchema migrationsTable : string) (migration : MigrationMeta)
  : Async unit :=
  _ <- forEach (mig_sql migration)
         (fun stmt =>
            _ <- SnowflakeSession_execute sqlToQuery session (sql_raw stmt) ;;
            resolve tt) ;;
  _ <- SnowflakeSession_execute sqlToQuery session
         (recordMigrationSql migrationsSchema migrationsTable migration) ;;
  resolve tt.

Definition migrate (migrations : list MigrationMeta)
    (session : SnowflakeSdkSession) (config : MigrateConfig) : Async unit :=
  let migrationsTable :=
    match config with
    | ConfigFolder _ => "__drizzle_migrations"
    | ConfigObject _ t _ => nullish t "__drizzle_migrations"
    end in
  let migrationsSchema :=
    match config with
    | ConfigFolder _ => "drizzle"
    | ConfigObject _ _ s => nullish s "drizzle"
    end in
  _ <- SnowflakeSession_execute sqlToQuery session
         (createSchemaSql migrationsSchema) ;;
  _ <- SnowflakeSession_execute sqlToQuery session
         (migrationTableCreate migrationsSchema migrationsTable) ;;
  dbMigrations <- SnowflakeSession_all sqlToQuery session
                    (lastMigrationSql migrationsSchema migrationsTable) ;;
  match dbMigrations with
  | None =>
      reject (TypeError "Cannot read properties of undefined (reading '0')")
  | Some dbMigrations =>
      let lastDbMigration := head dbMigrations in
      forEach migrations
        (fun migration =>
           if isPending lastDbMigration migration
           then applyMigration session migrationsSchema migrationsTable migration
           else resolve tt)
  end.

End WithRuntime.

End Migrator.
Import Migrator.

(* ===================================================================== *)
(** ** Notions the properties are stated with                             *)
(* ===================================================================== *)

Module Notions.

(** [piece] occurs in [s]. *)
Definition mentions (s piece : string) : Prop :=
  exists pre post, s = pre +:+ piece +:+ post.



(** [s] is the fragment [q] or is interpolated somewhere inside it. *)
Inductive occursIn (s : SQL) : SQL -> Prop :=
| occurs_here : occursIn s s
| occurs_inside (inner : SQL) (before after : list SQLChunk) (d : Decoder) :
    occursIn s inner ->
    occursIn s (mkSQL (before ++ SQLChunk_SQL inner :: after) d).

(** The text of a list of chunks, one after the other. *)
Fixpoint textAll (this : SnowflakeDialect) (l : list SQLChunk) : option string :=
  match l with
  | [] => Some EmptyString
  | x :: rest =>
      match toText this x, textAll this rest with
      | Some a, Some b => Some (a +:+ b)
      | _, _ => None
      end
  end.

(** What one projected field reads as in the selection list. *)
Definition projected (this : SnowflakeDialect) (isSingleTable : bool)
    (f : SelectedField) (text : string) : Prop :=
  textAll this (selectionChunk this isSingleTable (field f)) = Some text.

(** The items of the selection from position [k] on, in a list of [n]
    fields: each field, and a comma after every field but the last. *)
Definition selectionItems (this : SnowflakeDialect) (isSingleTable : bool)
    (n k : nat) (fields : SelectedFieldsOrdered) : list SQLChunk :=
  concat (imap (fun i f =>
            (selectionChunk this isSingleTable (field f)
             ++ (if Nat.ltb (k + i) (n - 1)
                 then [SQLChunk_SQL (sql [", "] [])] else []))%list)
          fields).

(** From [w] to [w'] every connection received the calls [l c] and
    nothing else changed about it; the calls all satisfy [P]. *)
Definition grows (P : ExecuteOptions -> Prop) (w w' : World) : Prop :=
  forall c, exists l,
    calls (connections w' c) = (calls (connections w c) ++ l)%list
    /\ Forall P l
    /\ respond (connections w' c) = respond (connections w c).

Definition prepared (o : ExecuteOptions) : Prop := isProtocol o = false.

(** How SQL reads a character string literal: after the opening quote,
    two quotes in a row stand for one quote character and a single quote
    ends the literal.  [readLiteral s] is the value of the literal that
    [s] starts with, and the text that follows its closing quote. *)
Fixpoint readBody (s : string) : option (string * string) :=
  match s with
  | EmptyString => None
  | String c rest =>
      if Ascii.eqb c "'"%char then
        match rest with
        | String c' rest' =>
            if Ascii.eqb c' "'"%char then
              match readBody rest' with
              | Some (value, after) => Some (String "'"%char value, after)
              | None => None
              end
            else Some (EmptyString, rest)
        | EmptyString => Some (EmptyString, EmptyString)
        end
      else
        match readBody rest with
        | Some (value, after) => Some (String c value, after)
        | None => None
        end
  end.

Definition readLiteral (s : string) : option (string * string) :=
  match s with
  | String c rest => if Ascii.eqb c "'"%char then readBody rest else None
  | EmptyString => None
  end.

Definition startsWithQuote (s : string) : bool :=
  match s with
  | String c _ => Ascii.eqb c "'"%char
  | EmptyString => false
  end.

(** [items], with [sep] between two items and none after the last. *)
Fixpoint separatedBy (sep : SQLChunk) (items : list SQLChunk) : list SQLChunk :=
  match items with
  | [] => []
  | x :: rest =>
      match rest with
      | [] => [x]
      | _ => x :: sep :: separatedBy sep rest
      end
  end.

(** The columns an INSERT writes: those that are not insert-disabled,
    in declaration order. *)
Definition insertable (table : SnowflakeTable)
  : list (string * SnowflakeColumn) :=
  List.filter (fun entry => negb (shouldDisableInsert (snd entry)))
              (Columns table).

(** What the connection is asked when a session executes [query]: its
    compiled text with its parameters as [binds]. *)
Definition sent (sqlToQuery : SnowflakeDialect -> SQL -> Query)
    (session : SnowflakeSdkSession) (query : SQL) : ExecuteOptions :=
  mkExecute (query_sql (sqlToQuery (dialect session) query))
            (Some (params (sqlToQuery (dialect session) query))).

(** A connection that completes every statement without an error and
    with the rows [answer]. *)
Definition obliging (answer : option Rows) (c : ConnRef) (w : World) : Prop :=
  forall history options,
    respond (connections w c) history options = mkCompletion None answer.

End Notions.
Import Notions.

(* ===================================================================== *)
(** ** Sample schemas, queries and connections                            *)
(* ===================================================================== *)

Module Scenarios.

(** *** Tables and columns *)

Definition users : Table := mkTable "users" "users" None "users" false.
Definition orgs : Table := mkTable "orgs" "orgs" None "orgs" false.

Definition integerColumn (t : Table) (n : string) : SnowflakeColumn :=
  fst (SnowflakeIntegerBuilder_build t (integer (Some n))).

Definition users_id : SnowflakeColumn := integerColumn users "id".
Definition users_name : SnowflakeColumn :=
  fst (SnowflakeVarcharBuilder_build users
         (varchar (ArgName "name") (Some {| length := Some 255%Z |}))).
Definition orgs_id : SnowflakeColumn := integerColumn orgs "id".

(** A name with a double quote inside: a, a double quote, b. *)
Definition quoted_name : string := "a" +:+ dquote +:+ "b".

(** A dialect without a casing policy writes a column under its name. *)
Definition plainDialect : SnowflakeDialect :=
  {| casing := {| getColumnCasing := column_name |} |}.

(** *** Queries *)

(** [select id, name from users] *)
Definition selectUsers : SnowflakeSelectConfig :=
  mkSelect None []
    (Some [mkField ["id"] (ColumnChunk users_id);
           mkField ["name"] (ColumnChunk users_name)])
    None None (TableChunk users) None None None None None None [].

(** the same projection with [orgs] joined *)
Definition selectUsersJoinOrgs : SnowflakeSelectConfig :=
  mkSelect None []
    (Some [mkField ["id"] (ColumnChunk users_id);
           mkField ["name"] (ColumnChunk users_name)])
    None None (TableChunk users) None None
    (Some [mkJoin None (TableChunk orgs) (Some "orgs") "inner"])
    None None None [].

(** A query result, or the empty fragment. *)
Definition compiled (r : Result SQL) : SQL :=
  match r with
  | Ok q => q
  | Throw _ => mkSQL [] NoopDecoder
  end.

(** A boolean column with the static default [false] and an update
    generator, as [boolean('active').default(false).$onUpdate(() => true)]
    configures it. *)
Definition users_active : SnowflakeColumn :=
  mkColumn users
    (mkConfig "active" (Some "users_active_unique") false
              (Some (inl (JSBoolean false))) None
              (Some (fun _ => inl (JSBoolean true)))
              None None None None None None)
    SnowflakeBoolean.

Definition usersWithActive : SnowflakeTable :=
  mkSnowflakeTable users [("id", users_id); ("active", users_active)].

(** [insert into users values ({ id: 1 })] *)
Definition insertUser : SnowflakeInsertConfig :=
  mkInsert usersWithActive
    (ValuesRows [ {[ "id" := Param (JSNumber 1) (Some users_id) ]} ])
    None None None None.

(** *** Connections, sessions and callbacks *)

Definition done : Completion := mkCompletion None (Some []).

(** A connection that completes every statement. *)
Definition healthy : SnowflakeConnection := mkConnection [] (fun _ _ => done).

(** A connection that fails the statements whose text is [text]. *)
Definition failing (text : string) : SnowflakeConnection :=
  mkConnection []
    (fun _ o =>
       if String.eqb (sqlText o) text
       then mkCompletion (Some (Error (text +:+ " failed"))) None
       else done).

Definition worldOf (conn : SnowflakeConnection) : World :=
  mkWorld (fun _ => conn) [].

Definition session0 : SnowflakeSdkSession :=
  SnowflakeSdkSession_new 0 plainDialect None None.

(** A stand-in for the fragment compiler. *)
Definition textOnly (d : SnowflakeDialect) (s : SQL) : Query :=
  mkQuery (nullish (sqlToText d s) EmptyString) [].

(** [async (tx) => { await tx.execute(sql`SELECT 1`); return 42; }] *)
Definition selectThenReturn (tx : SnowflakeSdkTransaction) : Async nat :=
  _ <- SnowflakeSdkTransaction_execute textOnly tx (sql ["SELECT 1"] []) ;;
  resolve 42.

(** [async (tx) => { await tx.execute(sql`SELECT 1`); throw new Error('Test error'); }] *)
Definition selectThenThrow (tx : SnowflakeSdkTransaction) : Async nat :=
  _ <- SnowflakeSdkTransaction_execute textOnly tx (sql ["SELECT 1"] []) ;;
  reject (Error "Test error").

(** *** Column builders and tables *)

(** [ColumnBuilder.setName] as the framework has it: the key of the
    column names it when the builder was given no name. *)
Definition setNameIfEmpty (name : string) (config : ColumnBuilderRuntimeConfig)
  : ColumnBuilderRuntimeConfig :=
  if String.eqb (Core.name config) "" then
    mkConfig name (uniqueName config) (isUnique config) (default config)
             (defaultFn config) (onUpdateFn config) (cfg_length config)
             (cfg_precision config) (cfg_scale config)
             (cfg_withTimezone config) (cfg_mode config) (generated config)
  else config.

(** [{ id: integer(), org_id: integer('org_id').references(() => orgs.id) }] *)
Definition userColumns : list (string * SnowflakeColumnBuilder) :=
  [("id", SnowflakeColumnBuilder_new (integer None) (fun _ => SnowflakeInteger));
   ("org_id",
    SnowflakeColumnBuilder_references
      (SnowflakeColumnBuilder_new (integer (Some "org_id"))
                                  (fun _ => SnowflakeInteger))
      (fun _ => orgs_id) None)].

(** *** More tables and queries *)

(** [users] in the schema [app], aliased as [u]. *)
Definition usersAlias : Table := mkTable "u" "users" (Some "app") "users" true.

(** Two common table expressions. *)
Definition recent : Subquery := mkSubquery "recent" (sql ["SELECT 1"] []) [].
Definition old : Subquery := mkSubquery "old" (sql ["SELECT 2"] []) [].

(** [users.id = orgs.id], with the columns written out by name. *)
Definition sameId : SQL :=
  sql [""; " = "; ""] [sql_identifier "id"; sql_identifier "org_id"].

(** A column that is generated always, as [generatedAlwaysAs] marks it. *)
Definition users_total : SnowflakeColumn :=
  fst (SnowflakeColumnBuilder_build users
         (SnowflakeColumnBuilder_generatedAlwaysAs
            (SnowflakeColumnBuilder_new (integer (Some "total"))
                                        (fun _ => SnowflakeInteger)))).

Definition usersWithTotal : SnowflakeTable :=
  mkSnowflakeTable users [("id", users_id); ("total", users_total)].

(** [update users set id = 7] on the table with the [active] column,
    whose update generator gives [true]. *)
Definition setId : UpdateSet := {[ "id" := Param (JSNumber 7) (Some users_id) ]}.

(** [async (tx) => { try { await tx.transaction(selectThenThrow) } catch { }
    return 7; }] *)
Definition catchNested (tx : SnowflakeSdkTransaction) : Async nat :=
  try_catch (SnowflakeSdkTransaction_transaction tx selectThenThrow)
            (fun _ => resolve 7).

(** [async (tx) => { await tx.execute(sql`SELECT 1`); tx.rollback(); }] *)
Definition selectThenRollback (tx : SnowflakeSdkTransaction) : Async nat :=
  _ <- SnowflakeSdkTransaction_execute textOnly tx (sql ["SELECT 1"] []) ;;
  SnowflakeTransaction_rollback tx.

(** Two migrations, and a connection whose bookkeeping table records
    the first one. *)
Definition migration1 : MigrationMeta :=
  mkMigration ["CREATE TABLE a (id INTEGER)"] 1000 "hash1".
Definition migration2 : MigrationMeta :=
  mkMigration ["CREATE TABLE b (id INTEGER)"; "ALTER TABLE b ADD c INTEGER"]
              2000 "hash2".

Definition recorded : SnowflakeConnection :=
  mkConnection []
    (fun _ _ =>
       mkCompletion None
         (Some [[JSNumber 1; JSString "hash1"; JSString "1000"]])).

(** The third field of a row, and [Number] on the values of these
    scenarios: numbers, and the numerals ['1000'] and ['2000']. *)
Definition thirdField (row : list JSValue) : JSValue :=
  nth 2 row JSUndefined.

Definition numberOf (v : JSValue) : option Z :=
  match v with
  | JSNumber n => Some n
  | JSString s =>
      if String.eqb s "1000" then Some 1000%Z
      else if String.eqb s "2000" then Some 2000%Z
      else None
  | _ => None
  end.

End Scenarios.

(* ===================================================================== *)
(** * Properties                                                          *)
(* ===================================================================== *)

(** ** Column types *)

Module ColumnTypeProperties.

Lemma Number_toString_examples :
  Number_toString 255 = "255" /\ Number_toString 10 = "10"
  /\ Number_toString 2 = "2" /\ Number_toString 6 = "6".
Proof. repeat split; vm_compute; reflexivity. Qed.

(** Building a column never changes what its class reads from the
    configuration: the constructor only touches [uniqueName]. *)
Lemma SnowflakeColumn_new_class (t : Table) (config : ColumnBuilderRuntimeConfig)
    (fields : ColumnBuilderRuntimeConfig -> ColumnClass) :
  (forall n, fields (set_uniqueName config n) = fields config) ->
  columnClass (fst (SnowflakeColumn_new t config fields)) = fields config.
Proof.
  intros Hfields. unfold SnowflakeColumn_new.
  destruct (string_falsy (uniqueName config)); simpl; auto.
Qed.

Lemma varchar_getSQLType (t : Table) (n : string) (l : option Z) :
  getSQLType (fst (SnowflakeVarcharBuilder_build t
                     (varchar (ArgName n) (Some {| length := l |}))))
  = match l with
    | None => "varchar"
    | Some l => "varchar(" +:+ Number_toString l +:+ ")"
    end.
Proof.
  unfold getSQLType, SnowflakeVarcharBuilder_build.
  rewrite SnowflakeColumn_new_class by reflexivity.
  destruct l; reflexivity.
Qed.

Lemma number_getSQLType (t : Table) (n : string) (p s : option Z) :
  getSQLType (fst (SnowflakeNumberBuilder_build t
                     (number (ArgName n) (Some {| precision := p; scale := s |}))))
  = match p, s with
    | Some p, Some s =>
        "number(" +:+ Number_toString p +:+ ", " +:+ Number_toString s +:+ ")"
    | Some p, None => "number(" +:+ Number_toString p +:+ ")"
    | None, _ => "number"
    end.
Proof.
  unfold getSQLType, SnowflakeNumberBuilder_build.
  rewrite SnowflakeColumn_new_class by reflexivity.
  destruct p, s; reflexivity.
Qed.

Lemma timestamp_getSQLType (t : Table) (n : string) (tz : option bool)
    (p : option Z) (m : option TimestampMode) :
  getSQLType (fst (TimestampBuilder_build t
                     (timestamp (ArgName n)
                        (Some {| withTimezone := tz; ts_precision := p;
                                 mode := m |}))))
  = (if nullish tz false then "timestamp_tz" else "timestamp_ntz")
    +:+ precisionSuffix p.
Proof.
  unfold getSQLType.
  destruct m as [[|]|];
    cbv [timestamp getSnowflakeColumnBuilderNameAndConfig nullish mode
         TimestampBuilder_build SnowflakeTimestampBuilder_build
         SnowflakeTimestampStringBuilder_build];
    rewrite SnowflakeColumn_new_class by reflexivity;
    destruct tz as [[|]|]; reflexivity.
Qed.

(** C7.  [getSQLType] follows the documented grammar.  For a column
    built on any table under any name: variable-length text with
    length 255 is [varchar(255)] and without a length [varchar]; numeric
    with precision 10 and scale 2 is [number(10, 2)] and without a
    configuration [number]; a timestamp without a configuration is
    [timestamp_ntz], with precision 6 [timestamp_ntz(6)], and configured
    with a time zone [timestamp_tz]. *)
Theorem getSQLType_documented_grammar (t : Table) (n : string) :
  getSQLType (fst (SnowflakeVarcharBuilder_build t
                     (varchar (ArgName n) (Some {| length := Some 255%Z |}))))
  = "varchar(255)"
  /\ getSQLType (fst (SnowflakeVarcharBuilder_build t (varchar (ArgName n) None)))
     = "varchar"
  /\ getSQLType (fst (SnowflakeNumberBuilder_build t
                        (number (ArgName n)
                           (Some {| precision := Some 10%Z; scale := Some 2%Z |}))))
     = "number(10, 2)"
  /\ getSQLType (fst (SnowflakeNumberBuilder_build t (number (ArgName n) None)))
     = "number"
  /\ getSQLType (fst (TimestampBuilder_build t (timestamp (ArgName n) None)))
     = "timestamp_ntz"
  /\ getSQLType (fst (TimestampBuilder_build t
                        (timestamp (ArgName n)
                           (Some {| withTimezone := None;
                                    ts_precision := Some 6%Z;
                                    mode := None |}))))
     = "timestamp_ntz(6)"
  /\ getSQLType (fst (TimestampBuilder_build t
                        (timestamp (ArgName n)
                           (Some {| withTimezone := Some true;
                                    ts_precision := None;
                                    mode := None |}))))
     = "timestamp_tz".
Proof.
  split; [ rewrite varchar_getSQLType; vm_compute; reflexivity | ].
  split; [ apply (varchar_getSQLType t n None) | ].
  split; [ rewrite number_getSQLType; vm_compute; reflexivity | ].
  split; [ apply (number_getSQLType t n None None) | ].
  split; [ apply (timestamp_getSQLType t n None None None) | ].
  split; [ rewrite timestamp_getSQLType; vm_compute; reflexivity | ].
  rewrite timestamp_getSQLType; vm_compute; reflexivity.
Qed.

End ColumnTypeProperties.

(** ** Constraint names *)

Module ConstraintProperties.

Import Scenarios.

Example uniqueKeyName_example :
  uniqueKeyName users ["id"; "email"] = "users_id_email_unique".
Proof. reflexivity. Qed.

Example column_uniqueName_example :
  uniqueName (config (integerColumn users "id")) = Some "users_id_unique".
Proof. reflexivity. Qed.


(** The constructor of a column fills in the unique name exactly when
    the configuration has none, and leaves the rest as it is. *)
Lemma SnowflakeColumn_new_uniqueName (t : Table)
    (c : ColumnBuilderRuntimeConfig)
    (fields : ColumnBuilderRuntimeConfig -> ColumnClass) :
  uniqueName (config (fst (SnowflakeColumn_new t c fields)))
  = if string_falsy (uniqueName c)
    then Some (uniqueKeyName t [name c]) else uniqueName c.
Proof.
  unfold SnowflakeColumn_new.
  destruct (string_falsy (uniqueName c)) eqn:E; reflexivity.
Qed.


(** The derived name is written into the configuration the builder
    keeps: a later column built from that configuration finds a unique
    name in it and keeps it as it is. *)
Lemma SnowflakeColumn_new_writes_back (t t' : Table)
    (c : ColumnBuilderRuntimeConfig)
    (fields : ColumnBuilderRuntimeConfig -> ColumnClass) :
  string_falsy (uniqueName c) = true ->
  uniqueName (snd (SnowflakeColumn_new t c fields))
  = Some (uniqueKeyName t [name c])
  /\ uniqueName (config (fst (SnowflakeColumn_new t'
                                (snd (SnowflakeColumn_new t c fields)) fields)))
     = Some (uniqueKeyName t [name c]).
Proof.
  intros Hnone.
  assert (uniqueName (snd (SnowflakeColumn_new t c fields))
          = Some (uniqueKeyName t [name c])) as Hwritten.
  { unfold SnowflakeColumn_new. now rewrite Hnone. }
  split; [exact Hwritten|].
  rewrite SnowflakeColumn_new_uniqueName, Hwritten.
  assert (string_falsy (Some (uniqueKeyName t [name c])) = false) as ->; [|reflexivity].
  unfold string_falsy, uniqueKeyName. apply String.eqb_neq.
  destruct (TableName t) as [|ch rest]; discriminate.
Qed.



(** An explicit name overrides the derived one. *)
Lemma explicit_constraint_names (t : Table) (columns : list SnowflakeColumn)
    (n : string) :
  UniqueConstraint_getName
    (UniqueConstraintBuilder_build t (UniqueConstraintBuilder_new columns (Some n)))
  = n
  /\ PrimaryKey_getName (PrimaryKey_new t columns (Some n)) = n.
Proof. split; reflexivity. Qed.

(** C10.  A [ForeignKeyBuilder] constructed with an actions object
    takes both actions from the fields of that object as they are: a
    field the object omits leaves the action undefined.  The 'no action'
    default stays only when no actions object is passed. *)
Theorem ForeignKeyBuilder_actions_verbatim
    (cfg : unit -> list SnowflakeColumn * list SnowflakeColumn) (a : Actions) :
  _onUpdate (ForeignKeyBuilder_new cfg (Some a)) = onUpdate a
  /\ _onDelete (ForeignKeyBuilder_new cfg (Some a)) = onDelete a
  /\ (forall d, _onUpdate (ForeignKeyBuilder_new cfg (Some (mkActions None d)))
                = None)
  /\ (forall u, _onDelete (ForeignKeyBuilder_new cfg (Some (mkActions u None)))
                = None)
  /\ _onUpdate (ForeignKeyBuilder_new cfg None) = Some no_action
  /\ _onDelete (ForeignKeyBuilder_new cfg None) = Some no_action.
Proof.
  unfold ForeignKeyBuilder_new.
  split; [reflexivity|]. split; [reflexivity|].
  split; [intros d; reflexivity|]. split; [intros u; reflexivity|].
  split; reflexivity.
Qed.

(** The built key carries what the builder holds. *)
Lemma ForeignKey_actions (t : Table)
    (cfg : unit -> list SnowflakeColumn * list SnowflakeColumn)
    (a : option Actions) :
  fk_onUpdate (ForeignKeyBuilder_build t (ForeignKeyBuilder_new cfg a))
  = _onUpdate (ForeignKeyBuilder_new cfg a)
  /\ fk_onDelete (ForeignKeyBuilder_build t (ForeignKeyBuilder_new cfg a))
     = _onDelete (ForeignKeyBuilder_new cfg a).
Proof. split; reflexivity. Qed.

End ConstraintProperties.

(** ** Strings *)

Module StringFacts.

Lemma string_app_cons (c : ascii) (s t : string) :
  String c s +:+ t = String c (s +:+ t).
Proof. reflexivity. Qed.

Lemma string_app_assoc (s t u : string) : (s +:+ t) +:+ u = s +:+ (t +:+ u).
Proof.
  induction s as [|c s IH]; [reflexivity|].
  rewrite !string_app_cons. now rewrite IH.
Qed.

Lemma string_length_app (s t : string) :
  String.length (s +:+ t) = String.length s + String.length t.
Proof.
  induction s as [|c s IH]; [reflexivity|].
  rewrite string_app_cons. simpl. now rewrite IH.
Qed.

Lemma substring_prefix (s t : string) :
  substring 0 (String.length s) (s +:+ t) = s.
Proof.
  induction s as [|c s IH].
  - destruct t; reflexivity.
  - rewrite string_app_cons. simpl. now rewrite IH.
Qed.


Lemma mentions_here (piece post : string) : mentions (piece +:+ post) piece.
Proof. exists EmptyString, post. reflexivity. Qed.

End StringFacts.
Import StringFacts.

(** ** The SQL compiler *)

Module DialectProperties.

(** *** Identifier escaping *)

Example escapeName_Column : escapeName "Column" = dquote +:+ "Column" +:+ dquote.
Proof. reflexivity. Qed.

Lemma double_dquotes_id (name : string) :
  contains_dquote name = false -> double_dquotes name = name.
Proof.
  induction name as [|c rest IH]; simpl; [reflexivity|].
  destruct (Ascii.eqb c (ascii_of_nat 34)); simpl; [discriminate|].
  intros H. now rewrite IH.
Qed.

Lemma double_dquotes_longer (name : string) :
  String.length name <= String.length (double_dquotes name)
  /\ (contains_dquote name = true ->
      String.length name < String.length (double_dquotes name)).
Proof.
  induction name as [|c rest [IHle IHlt]]; simpl.
  - split; [lia | discriminate].
  - destruct (Ascii.eqb c (ascii_of_nat 34)); simpl.
    + split; intros; lia.
    + split; [lia|]. intros H. specialize (IHlt H). lia.
Qed.

(** C8, as the code has it.  [escapeName] returns the name between two
    double quotes with every character of the name as it was: no case
    folding, and no doubling of a double quote inside the name.  The
    result is the SQL-92 delimited identifier of the name exactly when
    the name contains no double quote. *)
Theorem escapeName_verbatim (name : string) :
  escapeName name = dquote +:+ name +:+ dquote
  /\ String.length (escapeName name) = String.length name + 2
  /\ substring 1 (String.length name) (escapeName name) = name
  /\ (escapeName name = sql92_delimited name <-> contains_dquote name = false).
Proof.
  split; [reflexivity|].
  split.
  { unfold escapeName. rewrite !string_length_app. simpl. lia. }
  split.
  { unfold escapeName, dquote. rewrite string_app_cons. simpl.
    change (EmptyString +:+ name +:+ String (ascii_of_nat 34) EmptyString)
      with (name +:+ String (ascii_of_nat 34) EmptyString).
    apply substring_prefix. }
  unfold escapeName, sql92_delimited. split.
  - intros Heq.
    destruct (contains_dquote name) eqn:Hc; [|reflexivity].
    exfalso.
    apply (f_equal String.length) in Heq.
    rewrite !string_length_app in Heq.
    pose proof (proj2 (double_dquotes_longer name) Hc). lia.
  - intros Hc. now rewrite double_dquotes_id.
Qed.

(** *** The unresolved-join check of [buildSelectQuery] *)











(** *** The selection list *)

Lemma toText_SQL (this : SnowflakeDialect) (l : list SQLChunk) (d : Decoder) :
  toText this (SQLChunk_SQL (mkSQL l d)) = textAll this l.
Proof.
  induction l as [|x rest IH]; [reflexivity|].
  simpl in *. now rewrite IH.
Qed.

Lemma string_app_nil_r (s : string) : s +:+ EmptyString = s.
Proof.
  induction s as [|c s IH]; [reflexivity|]. rewrite string_app_cons. now rewrite IH.
Qed.

Lemma textAll_app (this : SnowflakeDialect) (l1 l2 : list SQLChunk) (a b : string) :
  textAll this l1 = Some a -> textAll this l2 = Some b ->
  textAll this (l1 ++ l2) = Some (a +:+ b).
Proof.
  revert a. induction l1 as [|x l1 IH]; intros a H1 H2; simpl in *.
  - injection H1 as <-. exact H2.
  - destruct (toText this x) as [tx|]; [|discriminate].
    destruct (textAll this l1) as [t1|]; [|discriminate].
    injection H1 as <-. rewrite (IH t1 eq_refl H2).
    now rewrite string_app_assoc.
Qed.

Lemma sql_join_no_separator (chunks : list SQLChunk) :
  sql_join chunks None = mkSQL chunks NoopDecoder.
Proof.
  unfold sql_join. f_equal.
  change (concat (imap (fun _ chunk => [chunk]) chunks) = chunks).
  induction chunks as [|c chunks IH]; [reflexivity|].
  simpl. f_equal. exact IH.
Qed.

Lemma selectionItems_cons (this : SnowflakeDialect) (isSingleTable : bool)
    (n k : nat) (f : SelectedField) (fields : SelectedFieldsOrdered) :
  selectionItems this isSingleTable n k (f :: fields)
  = (selectionChunk this isSingleTable (field f)
     ++ (if Nat.ltb k (n - 1) then [SQLChunk_SQL (sql [", "] [])] else [])
     ++ selectionItems this isSingleTable n (S k) fields)%list.
Proof.
  unfold selectionItems. simpl. rewrite Nat.add_0_r, <- List.app_assoc.
  do 2 f_equal. f_equal. apply imap_ext. intros i x _. simpl.
  now rewrite Nat.add_succ_r.
Qed.

Lemma selectionItems_text (this : SnowflakeDialect) (isSingleTable : bool)
    (n : nat) (fields : SelectedFieldsOrdered) (texts : list string) :
  Forall2 (projected this isSingleTable) fields texts ->
  forall k, k + List.length fields = n ->
  textAll this (selectionItems this isSingleTable n k fields)
  = Some (join ", " texts).
Proof.
  induction 1 as [|f t fields texts Hf Hrest IH]; intros k Hk.
  - reflexivity.
  - rewrite selectionItems_cons.
    specialize (IH (S k)). simpl in Hk.
    destruct Hrest as [|f' t' fields' texts' Hf' Hrest'].
    + assert (Nat.ltb k (n - 1) = false) as -> by (apply Nat.ltb_ge; simpl in *; lia).
      change (selectionItems this isSingleTable n (S k) []) with (@nil SQLChunk).
      simpl. rewrite List.app_nil_r. exact Hf.
    + assert (Nat.ltb k (n - 1) = true) as -> by (apply Nat.ltb_lt; simpl in *; lia).
      rewrite (textAll_app this _ _ t (", " +:+ join ", " (t' :: texts')) Hf).
      * reflexivity.
      * rewrite (textAll_app this [SQLChunk_SQL (sql [", "] [])] _ ", "
                   (join ", " (t' :: texts'))); [reflexivity | reflexivity |].
        apply IH. simpl in *. lia.
Qed.

Lemma buildSelection_text (this : SnowflakeDialect) (isSingleTable : bool)
    (fields : SelectedFieldsOrdered) (texts : list string) :
  Forall2 (projected this isSingleTable) fields texts ->
  sqlToText this (buildSelection this fields isSingleTable)
  = Some (join ", " texts).
Proof.
  intros H. unfold sqlToText, buildSelection.
  rewrite sql_join_no_separator, toText_SQL.
  apply (selectionItems_text this isSingleTable (List.length fields) fields texts H 0).
  reflexivity.
Qed.

Lemma selectionChunk_column (this : SnowflakeDialect) (isSingleTable : bool)
    (c : SnowflakeColumn) :
  selectionChunk this isSingleTable (ColumnChunk c)
  = if isSingleTable
    then [Name (getColumnCasing (casing this) c)] else [ColumnChunk c].
Proof. destruct isSingleTable; reflexivity. Qed.

Lemma projected_column (this : SnowflakeDialect) (isSingleTable : bool)
    (f : SelectedField) (c : SnowflakeColumn) (text : string) :
  field f = ColumnChunk c ->
  projected this isSingleTable f text ->
  text = if isSingleTable
         then escapeName (getColumnCasing (casing this) c)
         else escapeName (TableName (table c)) +:+ "."
              +:+ escapeName (getColumnCasing (casing this) c).
Proof.
  unfold projected. intros ->. rewrite selectionChunk_column.
  destruct isSingleTable; simpl; rewrite string_app_nil_r; congruence.
Qed.

Lemma isSingleTableOf_spec (joins : option (list SnowflakeSelectJoinConfig)) :
  (isSingleTableOf joins = true <-> joins = None \/ joins = Some [])
  /\ (isSingleTableOf joins = false <-> exists j js, joins = Some (j :: js)).
Proof.
  destruct joins as [[|j js]|]; simpl.
  - split; split; auto; [discriminate | intros (j & js & H); discriminate].
  - split; split;
      [discriminate | intros [H|H]; discriminate | eauto | reflexivity].
  - split; split; auto; [discriminate | intros (j & js & H); discriminate].
Qed.

(** A column field contributes its chunk to the selection list. *)
Lemma selectionItems_column (this : SnowflakeDialect) (isSingleTable : bool)
    (n : nat) (fields : SelectedFieldsOrdered) (f : SelectedField)
    (c : SnowflakeColumn) :
  In f fields -> field f = ColumnChunk c ->
  forall k,
    In (if isSingleTable
        then Name (getColumnCasing (casing this) c) else ColumnChunk c)
       (selectionItems this isSingleTable n k fields).
Proof.
  intros Hin Hf. induction fields as [|g fields IH]; intros k; [destruct Hin|].
  rewrite selectionItems_cons. apply in_or_app.
  destruct Hin as [<-|Hin].
  - left. rewrite Hf, selectionChunk_column.
    destruct isSingleTable; now left.
  - right. apply in_or_app. right. now apply IH.
Qed.

Lemma buildSelection_column (this : SnowflakeDialect) (isSingleTable : bool)
    (fields : SelectedFieldsOrdered) (f : SelectedField) (c : SnowflakeColumn) :
  In f fields -> field f = ColumnChunk c ->
  In (if isSingleTable
      then Name (getColumnCasing (casing this) c) else ColumnChunk c)
     (queryChunks (buildSelection this fields isSingleTable)).
Proof.
  intros Hin Hf. unfold buildSelection. rewrite sql_join_no_separator. simpl.
  exact (selectionItems_column this isSingleTable (List.length fields) fields
           f c Hin Hf 0).
Qed.

(** The left operand of a chain of set operators stays inside the
    compiled chain. *)
Lemma buildSetOperationQuery_left (left : SQL) (op : SetOperator) :
  occursIn left (buildSetOperationQuery left op).
Proof.
  unfold buildSetOperationQuery.
  apply (occurs_inside left (sql ["("; ") "] [SQLChunk_SQL left])
           [StringChunk ""] _ NoopDecoder).
  apply (occurs_inside left left [StringChunk "("] [StringChunk ") "] NoopDecoder).
  constructor.
Qed.

Lemma occursIn_trans (a b c : SQL) :
  occursIn a b -> occursIn b c -> occursIn a c.
Proof.
  intros Hab Hbc. induction Hbc as [|inner before after d _ IH]; [exact Hab|].
  now constructor.
Qed.

Lemma buildSetOperations_left (ops : list SetOperator) (left query : SQL) :
  buildSetOperations left ops = Ok query -> occursIn left query.
Proof.
  revert left. induction ops as [|op rest IH]; intros left; [discriminate|].
  destruct rest as [|op' rest']; simpl.
  - intros [= <-]. apply buildSetOperationQuery_left.
  - intros H. eapply occursIn_trans; [apply buildSetOperationQuery_left|].
    apply IH. exact H.
Qed.

(** The compiled query holds the [SELECT] template, with the selection
    list in its place: it is the query itself, or the innermost left
    operand when there are set operators. *)
Lemma buildSelectQuery_selection (this : SnowflakeDialect)
    (cfg : SnowflakeSelectConfig) (query : SQL) :
  buildSelectQuery this cfg = Ok query ->
  exists selectQuery withSql distinctSql rest,
    occursIn selectQuery query
    /\ queryChunks selectQuery
       = ([StringChunk ""; withSql; StringChunk "SELECT"; distinctSql;
           StringChunk " ";
           SQLChunk_SQL (buildSelection this
                           (nullish (fieldsFlat cfg) (fields_ordered cfg))
                           (isSingleTableOf (joins cfg)));
           StringChunk " FROM "] ++ rest)%list.
Proof.
  unfold buildSelectQuery. intros H.
  destruct (checkFields _ _ _); [|discriminate].
  match type of H with
  | (if _ then buildSetOperations ?q _ else _) = _ => set (finalQuery := q) in *
  end.
  exists finalQuery. do 3 eexists. split; [|reflexivity].
  destruct (setOperators cfg) as [|op ops].
  - injection H as <-. constructor.
  - change (Nat.ltb 0 (List.length (op :: ops))) with true in H. cbv iota in H.
    now apply buildSetOperations_left in H.
Qed.

(** C5.  In the query compiled for a descriptor, the selection list
    stands between [SELECT] and [FROM].  With an empty join list every
    projected bare column goes into it as an identifier, which reads as
    the escaped name of the column alone, without a table; with at
    least one join the same column goes into it as the column itself,
    which reads as the escaped name of its table, a dot, and the
    escaped name of the column.  When every projected field has a text,
    the selection list reads as these texts separated by commas. *)
Theorem selection_qualification (this : SnowflakeDialect)
    (cfg : SnowflakeSelectConfig) (query : SQL) :
  buildSelectQuery this cfg = Ok query ->
  exists selectQuery withSql distinctSql selection rest,
    occursIn selectQuery query
    /\ queryChunks selectQuery
       = ([StringChunk ""; withSql; StringChunk "SELECT"; distinctSql;
           StringChunk " "; SQLChunk_SQL selection; StringChunk " FROM "]
          ++ rest)%list
    /\ (joins cfg = None \/ joins cfg = Some [] ->
        forall f c,
          In f (nullish (fieldsFlat cfg) (fields_ordered cfg)) ->
          field f = ColumnChunk c ->
          In (Name (getColumnCasing (casing this) c)) (queryChunks selection)
          /\ toText this (Name (getColumnCasing (casing this) c))
             = Some (escapeName (getColumnCasing (casing this) c))
          /\ projected this (isSingleTableOf (joins cfg)) f
               (escapeName (getColumnCasing (casing this) c)))
    /\ (forall j js, joins cfg = Some (j :: js) ->
        forall f c,
          In f (nullish (fieldsFlat cfg) (fields_ordered cfg)) ->
          field f = ColumnChunk c ->
          In (ColumnChunk c) (queryChunks selection)
          /\ toText this (ColumnChunk c)
             = Some (escapeName (TableName (table c)) +:+ "."
                     +:+ escapeName (getColumnCasing (casing this) c))
          /\ projected this (isSingleTableOf (joins cfg)) f
               (escapeName (TableName (table c)) +:+ "."
                +:+ escapeName (getColumnCasing (casing this) c)))
    /\ (forall texts,
          Forall2 (projected this (isSingleTableOf (joins cfg)))
                  (nullish (fieldsFlat cfg) (fields_ordered cfg)) texts ->
          sqlToText this selection = Some (join ", " texts)).
Proof.
  intros Hq.
  destruct (buildSelectQuery_selection this cfg query Hq)
    as (selectQuery & withSql & distinctSql & rest & Hoccurs & Hchunks).
  exists selectQuery, withSql, distinctSql,
    (buildSelection this (nullish (fieldsFlat cfg) (fields_ordered cfg))
                    (isSingleTableOf (joins cfg))), rest.
  split; [exact Hoccurs|]. split; [exact Hchunks|]. split; [|split].
  - intros Hj f c Hin Hf.
    apply (proj1 (isSingleTableOf_spec (joins cfg))) in Hj. rewrite Hj.
    split; [exact (buildSelection_column this true _ f c Hin Hf)|].
    split; [reflexivity|].
    unfold projected. rewrite Hf. simpl. now rewrite string_app_nil_r.
  - intros j js Hj f c Hin Hf.
    assert (isSingleTableOf (joins cfg) = false) as ->
      by (apply isSingleTableOf_spec; eauto).
    split; [exact (buildSelection_column this false _ f c Hin Hf)|].
    split; [reflexivity|].
    unfold projected. rewrite Hf. simpl. now rewrite string_app_nil_r.
  - intros texts Htexts. now apply buildSelection_text.
Qed.

(** *** The values of an INSERT *)

(** The fallback order, as the loop has it. *)
Lemma insertValue_order (col : SnowflakeColumn) (colValue : option SQLChunk) :
  (notSupplied colValue = false ->
   insertValue col colValue = nullish colValue Undefined)
  /\ (notSupplied colValue = true ->
      forall defaultFn, Core.defaultFn (config col) = Some defaultFn ->
      insertValue col colValue = generatedValue col (defaultFn tt))
  /\ (notSupplied colValue = true -> defaultFn (config col) = None ->
      forall onUpdateFn, Core.onUpdateFn (config col) = Some onUpdateFn ->
      default_falsy col = true ->
      insertValue col colValue = generatedValue col (onUpdateFn tt))
  /\ (notSupplied colValue = true -> defaultFn (config col) = None ->
      onUpdateFn (config col) = None \/ default_falsy col = false ->
      insertValue col colValue = SQLChunk_SQL (sql ["DEFAULT"] [])).
Proof.
  unfold insertValue. repeat split.
  - intros ->. reflexivity.
  - intros -> f ->. reflexivity.
  - intros -> -> g -> ->. reflexivity.
  - intros -> -> [-> | ->].
    + now destruct (default_falsy col).
    + reflexivity.
Qed.

(** *** The sample queries *)

Import Scenarios.

Lemma selection_qualification_witness :
  (exists selectQuery selection,
     occursIn selectQuery (compiled (buildSelectQuery plainDialect selectUsers))
     /\ In (SQLChunk_SQL selection) (queryChunks selectQuery)
     /\ sqlToText plainDialect selection
        = Some (escapeName "id" +:+ ", " +:+ escapeName "name"))
  /\ (exists selectQuery selection,
        occursIn selectQuery
          (compiled (buildSelectQuery plainDialect selectUsersJoinOrgs))
        /\ In (SQLChunk_SQL selection) (queryChunks selectQuery)
        /\ sqlToText plainDialect selection
           = Some (escapeName "users" +:+ "." +:+ escapeName "id" +:+ ", "
                   +:+ escapeName "users" +:+ "." +:+ escapeName "name")).
Proof.
  split.
  - destruct (selection_qualification plainDialect selectUsers
                (compiled (buildSelectQuery plainDialect selectUsers)) eq_refl)
      as (selectQuery & withSql & distinctSql & selection & rest
          & Hoccurs & Hchunks & _ & _ & Htext).
    exists selectQuery, selection. split; [exact Hoccurs|]. split.
    + rewrite Hchunks. apply in_or_app. left. simpl. tauto.
    + apply (Htext [escapeName "id"; escapeName "name"]).
      repeat constructor.
  - destruct (selection_qualification plainDialect selectUsersJoinOrgs
                (compiled (buildSelectQuery plainDialect selectUsersJoinOrgs))
                eq_refl)
      as (selectQuery & withSql & distinctSql & selection & rest
          & Hoccurs & Hchunks & _ & _ & Htext).
    exists selectQuery, selection. split; [exact Hoccurs|]. split.
    + rewrite Hchunks. apply in_or_app. left. simpl. tauto.
    + apply (Htext [escapeName "users" +:+ "." +:+ escapeName "id";
                    escapeName "users" +:+ "." +:+ escapeName "name"]).
      repeat constructor.
Defined.

(** A column of a table that is neither the root nor joined is
    refused, with the message of the source. *)
Example unresolved_join_example :
  buildSelectQuery plainDialect
    (mkSelect None []
       (Some [mkField ["users"; "id"] (ColumnChunk users_id);
              mkField ["orgs"; "id"] (ColumnChunk orgs_id)])
       None None (TableChunk users) None None None None None None [])
  = Throw (Error ("Your " +:+ dquote +:+ "orgs->id" +:+ dquote
                  +:+ " field references a column "
                  +:+ dquote +:+ "orgs" +:+ dquote +:+ "."
                  +:+ dquote +:+ "id" +:+ dquote
                  +:+ ", but the table " +:+ dquote +:+ "orgs" +:+ dquote
                  +:+ " is not part of the query! Did you forget to join it?")).
Proof. vm_compute. reflexivity. Qed.

(** C8, as the specification words it, fails on a name with a double
    quote inside: [escapeName] leaves the inner quote single, where
    SQL-92 quoting doubles it. *)
Lemma escapeName_keeps_inner_quote :
  escapeName quoted_name = dquote +:+ "a" +:+ dquote +:+ "b" +:+ dquote
  /\ sql92_delimited quoted_name
     = dquote +:+ "a" +:+ dquote +:+ dquote +:+ "b" +:+ dquote
  /\ escapeName quoted_name <> sql92_delimited quoted_name.
Proof.
  split; [reflexivity|]. split; [reflexivity|].
  vm_compute. discriminate.
Qed.

(** C6 on a column with a falsy static default.  The column
    [users_active] has the static default [false], an update generator
    and no default generator.  For a row that supplies no value for it
    the loop pushes the result of the update generator as a bound
    parameter, not the [DEFAULT] keyword: [!col.default] holds of a
    configured default that is falsy. *)
Theorem insert_falsy_static_default :
  default (config users_active) = Some (inl (JSBoolean false))
  /\ defaultFn (config users_active) = None
  /\ insertValue users_active None = Param (JSBoolean true) (Some users_active)
  /\ insertValue users_active None <> SQLChunk_SQL (sql ["DEFAULT"] [])
  /\ buildInsertQuery plainDialect insertUser
     = Ok (sql [""; "INSERT INTO "; " "; " "; ""]
             [Undefined; TableChunk users;
              ArrayChunk [Name "id"; Name "active"];
              SQLChunk_SQL
                (mkSQL [SQLChunk_SQL (sql_raw "VALUES ");
                        ArrayChunk [Param (JSNumber 1) (Some users_id);
                                    Param (JSBoolean true) (Some users_active)]]
                       NoopDecoder)]).
Proof.
  split; [reflexivity|]. split; [reflexivity|].
  split; [reflexivity|]. split; [discriminate|].
  vm_compute. reflexivity.
Qed.

End DialectProperties.

(** ** The session and its transactions *)

Module DriverProperties.

(** *** What a call does to the record of the connections *)

Lemma grows_refl (P : ExecuteOptions -> Prop) (w : World) : grows P w w.
Proof.
  intros c. exists []. rewrite List.app_nil_r. repeat split. constructor.
Qed.

Lemma grows_trans (P : ExecuteOptions -> Prop) (w1 w2 w3 : World) :
  grows P w1 w2 -> grows P w2 w3 -> grows P w1 w3.
Proof.
  intros H12 H23 c.
  destruct (H12 c) as (l1 & E1 & F1 & R1), (H23 c) as (l2 & E2 & F2 & R2).
  exists (l1 ++ l2)%list. repeat split.
  - rewrite E2, E1. now rewrite List.app_assoc.
  - apply Forall_app. auto.
  - congruence.
Qed.

Lemma connection_execute_calls (c : ConnRef) (o : ExecuteOptions) (w : World) :
  calls (connections (fst (connection_execute c o w)) c)
  = (calls (connections w c) ++ [o])%list
  /\ respond (connections (fst (connection_execute c o w)) c)
     = respond (connections w c)
  /\ (forall c', c' <> c ->
        connections (fst (connection_execute c o w)) c' = connections w c')
  /\ snd (connection_execute c o w)
     = respond (connections w c) (calls (connections w c)) o.
Proof.
  unfold connection_execute; simpl. rewrite Nat.eqb_refl. repeat split.
  intros c' Hc'. apply Nat.eqb_neq in Hc'. now rewrite Hc'.
Qed.

Lemma connection_execute_grows (P : ExecuteOptions -> Prop) (c : ConnRef)
    (o : ExecuteOptions) (w : World) :
  P o -> grows P w (fst (connection_execute c o w)).
Proof.
  intros Ho c'.
  destruct (connection_execute_calls c o w) as (Hc & Hr & Hother & _).
  destruct (Nat.eq_dec c' c) as [->|Hne].
  - exists [o]. repeat split; auto.
  - exists []. rewrite (Hother c' Hne), List.app_nil_r. repeat split. constructor.
Qed.

Lemma logQuery_connections (l : Logger) (q : Query) (w : World) :
  connections (logQuery l q w) = connections w.
Proof. destruct l; reflexivity. Qed.

(** A bare statement: one call without binds, settled by its answer. *)
Lemma statement_spec (c : ConnRef) (text : string) (w : World) :
  statement c text w
  = (fst (connection_execute c (mkExecute text None) w),
     match err (respond (connections w c) (calls (connections w c))
                        (mkExecute text None)) with
     | Some e => Rejected e
     | None => Resolved tt
     end).
Proof.
  unfold statement, connection_execute. simpl.
  destruct (err _); reflexivity.
Qed.

Lemma statement_calls (c : ConnRef) (text : string) (w : World) :
  calls (connections (fst (statement c text w)) c)
  = (calls (connections w c) ++ [mkExecute text None])%list.
Proof.
  rewrite statement_spec. simpl. rewrite Nat.eqb_refl. reflexivity.
Qed.

Section WithFragmentCompiler.

Variable sqlToQuery : SnowflakeDialect -> SQL -> Query.

Lemma execute_grows (tx : SnowflakeSdkTransaction) (query : SQL) (w : World) :
  grows prepared w (fst (SnowflakeSdkTransaction_execute sqlToQuery tx query w)).
Proof.
  unfold SnowflakeSdkTransaction_execute, SnowflakeSession_execute,
    SnowflakeSdkPreparedQuery_execute, prepareQuery,
    SnowflakeSdkPreparedQuery_new.
  cbn [pq_connection rawQuery pq_logger customResultMapper query_sql params].
  set (q := mkQuery _ _).
  set (o := mkExecute _ _).
  set (w0 := logQuery _ _ w).
  assert (grows prepared w w0) as H0.
  { intros c. exists []. unfold w0. rewrite logQuery_connections, List.app_nil_r.
    repeat split. constructor. }
  assert (grows prepared w0 (fst (connection_execute (connection (tx_session tx)) o w0)))
    as H1 by (apply connection_execute_grows; reflexivity).
  pose proof (grows_trans _ _ _ _ H0 H1) as H.
  destruct (connection_execute (connection (tx_session tx)) o w0) as [w' completion].
  simpl in *. destruct (err completion); exact H.
Qed.

(** A transaction body adds prepared calls to the connections, and
    nothing else: whatever it nests, it never issues a statement of the
    transaction protocol. *)
Lemma TxBody_grows {T : Type} (m : Async T) :
  TxBody sqlToQuery m -> forall w, grows prepared w (fst (m w)).
Proof.
  induction 1 as [T v | T e | tx query | T tx | T tx transaction _ IH
                 | A T m k _ IHm _ IHk | T body handler _ IHb _ IHh];
    intros w.
  - apply grows_refl.
  - apply grows_refl.
  - apply execute_grows.
  - apply grows_refl.
  - unfold SnowflakeSdkTransaction_transaction. apply IH.
  - unfold await. specialize (IHm w).
    destruct (m w) as [w1 [v|e]]; simpl in *.
    + eapply grows_trans; [exact IHm | apply IHk].
    + exact IHm.
  - unfold try_catch. specialize (IHb w).
    destruct (body w) as [w1 [v|e]]; simpl in *.
    + exact IHb.
    + eapply grows_trans; [exact IHb | apply IHh].
Qed.

End WithFragmentCompiler.

(** *** Counting the statements of the protocol *)

Lemma newCalls_of (c : ConnRef) (w w' : World) (l : list ExecuteOptions) :
  calls (connections w' c) = (calls (connections w c) ++ l)%list ->
  newCalls c w w' = l.
Proof.
  unfold newCalls. intros ->.
  induction (calls (connections w c)) as [|x xs IH]; simpl; auto.
Qed.

Lemma issued_app (text : string) (l1 l2 : list ExecuteOptions) :
  issued text (l1 ++ l2) = issued text l1 + issued text l2.
Proof.
  unfold issued. now rewrite List.filter_app, List.length_app.
Qed.

Lemma issued_prepared (text : string) (l : list ExecuteOptions) :
  Forall prepared l -> issued text l = 0.
Proof.
  unfold issued. induction 1 as [|o l Ho _ IH]; [reflexivity|].
  simpl. unfold prepared in Ho. rewrite Ho. simpl. exact IH.
Qed.

Lemma issued_bare (text text' : string) :
  issued text [mkExecute text' None] = if String.eqb text' text then 1 else 0.
Proof.
  unfold issued. simpl. destruct (String.eqb text' text); reflexivity.
Qed.

(** *** The control flow of a top-level transaction, stage by stage *)

Lemma statement_accepted (c : ConnRef) (text : string) (w : World) :
  accepts w c text ->
  statement c text w = (fst (statement c text w), Resolved tt).
Proof.
  unfold accepts. intros H. rewrite statement_spec, H. reflexivity.
Qed.

Lemma statement_refused (c : ConnRef) (text : string) (w : World) (e : JSError) :
  err (respond (connections w c) (calls (connections w c)) (mkExecute text None))
  = Some e ->
  statement c text w = (fst (statement c text w), Rejected e).
Proof.
  intros H. rewrite statement_spec, H. reflexivity.
Qed.

Lemma statement_grows (c : ConnRef) (text : string) (w : World) :
  grows (fun _ => True) w (fst (statement c text w)).
Proof.
  rewrite statement_spec. simpl.
  apply (connection_execute_grows (fun _ => True) c (mkExecute text None) w I).
Qed.

Lemma transaction_stages {T : Type} (this : SnowflakeSdkSession)
    (transaction : SnowflakeSdkTransaction -> Async T) (w : World) :
  SnowflakeSdkSession_transaction this transaction w
  = match statement (connection this) "BEGIN TRANSACTION" w with
    | (w1, Rejected e) => (w1, Rejected e)
    | (w1, Resolved _) =>
        match transaction (topHandle this) w1 with
        | (w2, Resolved result) =>
            match statement (connection this) "COMMIT" w2 with
            | (w3, Resolved _) => (w3, Resolved result)
            | (w3, Rejected e) =>
                match statement (connection this) "ROLLBACK" w3 with
                | (w4, Resolved _) => (w4, Rejected e)
                | (w4, Rejected e') => (w4, Rejected e')
                end
            end
        | (w2, Rejected e) =>
            match statement (connection this) "ROLLBACK" w2 with
            | (w3, Resolved _) => (w3, Rejected e)
            | (w3, Rejected e') => (w3, Rejected e')
            end
        end
    end.
Proof.
  unfold SnowflakeSdkSession_transaction, await, try_catch, resolve, reject.
  fold (topHandle this).
  destruct (statement (connection this) "BEGIN TRANSACTION" w) as [w1 [[]|e]];
    [|reflexivity].
  destruct (transaction (topHandle this) w1) as [w2 [result|e]].
  - destruct (statement (connection this) "COMMIT" w2) as [w3 [[]|e]];
      [reflexivity|].
    destruct (statement (connection this) "ROLLBACK" w3) as [w4 [[]|e']];
      reflexivity.
  - destruct (statement (connection this) "ROLLBACK" w2) as [w3 [[]|e']];
      reflexivity.
Qed.

Ltac count_issued Hbody :=
  rewrite ?issued_app, ?issued_bare, ?(issued_prepared _ _ Hbody); reflexivity.

Section Transactions.

Variable sqlToQuery : SnowflakeDialect -> SQL -> Query.
Context {T : Type}.

(** What the connection of the session has received once the callback
    has settled: [BEGIN TRANSACTION], then the calls of the callback. *)
Lemma around_callback (this : SnowflakeSdkSession)
    (transaction : SnowflakeSdkTransaction -> Async T) (w w2 : World)
    (r : Outcome T) :
  (forall tx, TxBody sqlToQuery (transaction tx)) ->
  transaction (topHandle this)
              (fst (statement (connection this) "BEGIN TRANSACTION" w))
  = (w2, r) ->
  exists body,
    Forall prepared body
    /\ calls (connections w2 (connection this))
       = (calls (connections w (connection this))
          ++ [mkExecute "BEGIN TRANSACTION" None] ++ body)%list.
Proof.
  intros Hbody Hrun.
  pose proof (TxBody_grows sqlToQuery _ (Hbody (topHandle this))
                (fst (statement (connection this) "BEGIN TRANSACTION" w)))
    as Hgrow.
  rewrite Hrun in Hgrow. simpl in Hgrow.
  destruct (Hgrow (connection this)) as (body & Hcalls & Hprepared & _).
  exists body. split; [exact Hprepared|].
  rewrite Hcalls, statement_calls. now rewrite <- List.app_assoc.
Qed.

Lemma nested_TxBody (depth : nat) (inner : SnowflakeSdkTransaction -> Async T) :
  (forall tx, TxBody sqlToQuery (inner tx)) ->
  forall tx, TxBody sqlToQuery (nested depth inner tx).
Proof.
  intros Hinner. induction depth as [|depth IH]; intros tx; simpl.
  - apply Hinner.
  - apply body_transaction. exact IH.
Qed.

Lemma nested_runs_inner (depth : nat)
    (inner : SnowflakeSdkTransaction -> Async T) (parent : SnowflakeSdkTransaction) :
  exists tx,
    nested depth inner parent = inner tx
    /\ nestedIndex tx = nestedIndex parent + depth
    /\ tx_connection tx = tx_connection parent
    /\ tx_session tx = tx_session parent.
Proof.
  revert parent. induction depth as [|depth IH]; intros parent; simpl.
  - exists parent. repeat split. lia.
  - destruct (IH (nestedHandle parent)) as (tx & Hrun & Hidx & Hconn & Hsess).
    exists tx. repeat split; auto.
    rewrite Hidx. simpl. lia.
Qed.

(** A top-level transaction that resolves has issued [BEGIN
    TRANSACTION] before the calls of its callback and [COMMIT] after
    them, and no other statement of the protocol. *)
Lemma resolved_transaction_trace (this : SnowflakeSdkSession)
    (transaction : SnowflakeSdkTransaction -> Async T) (w wf : World)
    (result : T) :
  (forall tx, TxBody sqlToQuery (transaction tx)) ->
  SnowflakeSdkSession_transaction this transaction w = (wf, Resolved result) ->
  exists body,
    Forall prepared body
    /\ newCalls (connection this) w wf
       = ([mkExecute "BEGIN TRANSACTION" None] ++ body
          ++ [mkExecute "COMMIT" None])%list.
Proof.
  intros Hbody. rewrite transaction_stages.
  destruct (statement (connection this) "BEGIN TRANSACTION" w)
    as [w1 [[]|e]] eqn:Ebegin; [|discriminate].
  destruct (transaction (topHandle this) w1) as [w2 [v|e]] eqn:Erun.
  - destruct (statement (connection this) "COMMIT" w2)
      as [w3 [[]|e]] eqn:Ecommit.
    + intros [= <- <-].
      assert (w1 = fst (statement (connection this) "BEGIN TRANSACTION" w))
        as Hw1 by now rewrite Ebegin.
      rewrite Hw1 in Erun.
      destruct (around_callback this transaction w w2 _ Hbody Erun)
        as (body & Hprepared & Hcalls).
      exists body. split; [exact Hprepared|].
      apply newCalls_of.
      assert (w3 = fst (statement (connection this) "COMMIT" w2))
        as -> by now rewrite Ecommit.
      rewrite statement_calls, Hcalls. now rewrite <- !List.app_assoc.
    + destruct (statement (connection this) "ROLLBACK" w3) as [w4 [[]|e']];
        discriminate.
  - destruct (statement (connection this) "ROLLBACK" w2) as [w3 [[]|e']];
      discriminate.
Qed.

(** C1.  A transaction requested on a transaction handle, whatever the
    depth of that handle, runs its callback at once on a new handle
    with the same connection and session and the nesting counter plus
    one, and issues no [BEGIN TRANSACTION], [COMMIT] or [ROLLBACK] of
    its own, however deep the callback nests further.  A top-level
    transaction that nests to any depth and resolves has issued exactly
    one [BEGIN TRANSACTION] and one [COMMIT], and no [ROLLBACK]. *)
Theorem nested_transaction_is_flat (this : SnowflakeSdkSession)
    (parent : SnowflakeSdkTransaction)
    (inner : SnowflakeSdkTransaction -> Async T) :
  (forall tx, TxBody sqlToQuery (inner tx)) ->
  (forall w, SnowflakeSdkTransaction_transaction parent inner w
             = inner (nestedHandle parent) w)
  /\ tx_connection (nestedHandle parent) = tx_connection parent
  /\ tx_session (nestedHandle parent) = tx_session parent
  /\ nestedIndex (nestedHandle parent) = nestedIndex parent + 1
  /\ (forall w c,
        issued "BEGIN TRANSACTION"
          (newCalls c w (fst (SnowflakeSdkTransaction_transaction parent inner w)))
        = 0
        /\ issued "COMMIT"
             (newCalls c w (fst (SnowflakeSdkTransaction_transaction parent inner w)))
           = 0
        /\ issued "ROLLBACK"
             (newCalls c w (fst (SnowflakeSdkTransaction_transaction parent inner w)))
           = 0)
  /\ (forall depth, exists tx,
        nested depth inner parent = inner tx
        /\ nestedIndex tx = nestedIndex parent + depth
        /\ tx_connection tx = tx_connection parent
        /\ tx_session tx = tx_session parent)
  /\ (forall depth w wf result,
        SnowflakeSdkSession_transaction this (nested (S depth) inner) w
        = (wf, Resolved result) ->
        issued "BEGIN TRANSACTION" (newCalls (connection this) w wf) = 1
        /\ issued "COMMIT" (newCalls (connection this) w wf) = 1
        /\ issued "ROLLBACK" (newCalls (connection this) w wf) = 0).
Proof.
  intros Hinner.
  split; [reflexivity|]. split; [reflexivity|]. split; [reflexivity|].
  split; [reflexivity|]. split; [|split].
  - intros w c.
    pose proof (TxBody_grows sqlToQuery _
                  (body_transaction sqlToQuery parent inner Hinner) w) as Hgrow.
    destruct (Hgrow c) as (l & Hcalls & Hprepared & _).
    rewrite (newCalls_of _ _ _ _ Hcalls).
    repeat split; apply issued_prepared; exact Hprepared.
  - intros depth. apply nested_runs_inner.
  - intros depth w wf result Hrun.
    destruct (resolved_transaction_trace this _ w wf result
                (nested_TxBody (S depth) inner Hinner) Hrun)
      as (body & Hprepared & ->).
    repeat split; count_issued Hprepared.
Qed.

(** C2.  When [BEGIN TRANSACTION] has been accepted and the callback
    of a top-level transaction raises [error], the session issues
    [ROLLBACK] right after the callback has settled.  The promise
    rejects with [error] when the [ROLLBACK] completes; when the
    [ROLLBACK] itself fails, it rejects with the error of the
    [ROLLBACK] instead.  For a callback that works through its handle,
    the statements of the protocol are one [BEGIN TRANSACTION] before
    the calls of the callback and one [ROLLBACK] after them, and no
    [COMMIT]. *)
Theorem transaction_rolls_back (this : SnowflakeSdkSession)
    (transaction : SnowflakeSdkTransaction -> Async T) (w w2 : World)
    (error : JSError) :
  accepts w (connection this) "BEGIN TRANSACTION" ->
  transaction (topHandle this)
              (fst (statement (connection this) "BEGIN TRANSACTION" w))
  = (w2, Rejected error) ->
  SnowflakeSdkSession_transaction this transaction w
  = (fst (statement (connection this) "ROLLBACK" w2),
     Rejected
       match err (respond (connections w2 (connection this))
                          (calls (connections w2 (connection this)))
                          (mkExecute "ROLLBACK" None)) with
       | Some rollbackError => rollbackError
       | None => error
       end)
  /\ calls (connections (fst (statement (connection this) "ROLLBACK" w2))
                        (connection this))
     = (calls (connections w2 (connection this))
        ++ [mkExecute "ROLLBACK" None])%list
  /\ ((forall tx, TxBody sqlToQuery (transaction tx)) ->
      exists body,
        Forall prepared body
        /\ newCalls (connection this) w
             (fst (statement (connection this) "ROLLBACK" w2))
           = ([mkExecute "BEGIN TRANSACTION" None] ++ body
              ++ [mkExecute "ROLLBACK" None])%list
        /\ issued "BEGIN TRANSACTION"
             (newCalls (connection this) w
                (fst (statement (connection this) "ROLLBACK" w2))) = 1
        /\ issued "ROLLBACK"
             (newCalls (connection this) w
                (fst (statement (connection this) "ROLLBACK" w2))) = 1
        /\ issued "COMMIT"
             (newCalls (connection this) w
                (fst (statement (connection this) "ROLLBACK" w2))) = 0).
Proof.
  intros Hbegin Hrun. split; [|split].
  - rewrite transaction_stages, (statement_accepted _ _ _ Hbegin), Hrun.
    rewrite statement_spec.
    destruct (err _) as [rollbackError|]; reflexivity.
  - apply statement_calls.
  - intros Hbody.
    destruct (around_callback this transaction w w2 _ Hbody Hrun)
      as (body & Hprepared & Hcalls).
    exists body. split; [exact Hprepared|].
    assert (newCalls (connection this) w
              (fst (statement (connection this) "ROLLBACK" w2))
            = ([mkExecute "BEGIN TRANSACTION" None] ++ body
               ++ [mkExecute "ROLLBACK" None])%list) as ->.
    { apply newCalls_of. rewrite statement_calls, Hcalls.
      now rewrite <- !List.app_assoc. }
    split; [reflexivity|]. repeat split; count_issued Hprepared.
Qed.

(** C3, as the code has it.  When [BEGIN TRANSACTION] has been
    accepted, the callback of a top-level transaction resolves with
    [result], and the connection accepts the [COMMIT], the session
    issues [COMMIT] right after the callback has settled and the
    promise resolves with [result].  For a callback that works through
    its handle, the statements of the protocol are one [BEGIN
    TRANSACTION] before the calls of the callback and one [COMMIT]
    after them, and no [ROLLBACK]. *)
Theorem transaction_commits (this : SnowflakeSdkSession)
    (transaction : SnowflakeSdkTransaction -> Async T) (w w2 : World)
    (result : T) :
  accepts w (connection this) "BEGIN TRANSACTION" ->
  transaction (topHandle this)
              (fst (statement (connection this) "BEGIN TRANSACTION" w))
  = (w2, Resolved result) ->
  accepts w2 (connection this) "COMMIT" ->
  SnowflakeSdkSession_transaction this transaction w
  = (fst (statement (connection this) "COMMIT" w2), Resolved result)
  /\ calls (connections (fst (statement (connection this) "COMMIT" w2))
                        (connection this))
     = (calls (connections w2 (connection this))
        ++ [mkExecute "COMMIT" None])%list
  /\ ((forall tx, TxBody sqlToQuery (transaction tx)) ->
      exists body,
        Forall prepared body
        /\ newCalls (connection this) w
             (fst (statement (connection this) "COMMIT" w2))
           = ([mkExecute "BEGIN TRANSACTION" None] ++ body
              ++ [mkExecute "COMMIT" None])%list
        /\ issued "BEGIN TRANSACTION"
             (newCalls (connection this) w
                (fst (statement (connection this) "COMMIT" w2))) = 1
        /\ issued "COMMIT"
             (newCalls (connection this) w
                (fst (statement (connection this) "COMMIT" w2))) = 1
        /\ issued "ROLLBACK"
             (newCalls (connection this) w
                (fst (statement (connection this) "COMMIT" w2))) = 0).
Proof.
  intros Hbegin Hrun Hcommit.
  assert (SnowflakeSdkSession_transaction this transaction w
          = (fst (statement (connection this) "COMMIT" w2), Resolved result))
    as Hresult.
  { rewrite transaction_stages, (statement_accepted _ _ _ Hbegin), Hrun.
    now rewrite (statement_accepted _ _ _ Hcommit). }
  split; [exact Hresult|]. split; [apply statement_calls|].
  intros Hbody.
  destruct (resolved_transaction_trace this transaction w _ result Hbody Hresult)
    as (body & Hprepared & Htrace).
  exists body. split; [exact Hprepared|]. split; [exact Htrace|].
  rewrite Htrace. repeat split; count_issued Hprepared.
Qed.

(** When the connection refuses [BEGIN TRANSACTION] the callback is
    never called: the promise rejects with that error and nothing else
    is issued. *)
Lemma transaction_begin_refused (this : SnowflakeSdkSession)
    (transaction : SnowflakeSdkTransaction -> Async T) (w : World)
    (error : JSError) :
  err (respond (connections w (connection this))
               (calls (connections w (connection this)))
               (mkExecute "BEGIN TRANSACTION" None)) = Some error ->
  SnowflakeSdkSession_transaction this transaction w
  = (fst (statement (connection this) "BEGIN TRANSACTION" w), Rejected error)
  /\ newCalls (connection this) w
       (fst (SnowflakeSdkSession_transaction this transaction w))
     = [mkExecute "BEGIN TRANSACTION" None].
Proof.
  intros Hbegin.
  assert (SnowflakeSdkSession_transaction this transaction w
          = (fst (statement (connection this) "BEGIN TRANSACTION" w),
             Rejected error)) as Hresult
    by now rewrite transaction_stages, (statement_refused _ _ _ _ Hbegin).
  split; [exact Hresult|].
  rewrite Hresult. apply newCalls_of. simpl. apply statement_calls.
Qed.

End Transactions.

(** *** The sample transactions *)

Import Scenarios.

Lemma selectThenReturn_TxBody (tx : SnowflakeSdkTransaction) :
  TxBody textOnly (selectThenReturn tx).
Proof.
  apply body_await; [apply body_execute | intros v; apply body_resolve].
Qed.

Lemma selectThenThrow_TxBody (tx : SnowflakeSdkTransaction) :
  TxBody textOnly (selectThenThrow tx).
Proof.
  apply body_await; [apply body_execute | intros v; apply body_throw].
Qed.

Lemma settled {A : Type} (p : World * Outcome A) (r : Outcome A) :
  snd p = r -> p = (fst p, r).
Proof. destruct p. simpl. now intros ->. Qed.

(** The test of the repository: a transaction nested in a transaction
    on a connection that completes every statement. *)
Lemma nested_transaction_is_flat_witness :
  (forall tx, TxBody textOnly (selectThenReturn tx))
  /\ nestedIndex (nestedHandle (topHandle session0)) = 1
  /\ issued "BEGIN TRANSACTION"
       (newCalls 0 (worldOf healthy)
          (fst (SnowflakeSdkTransaction_transaction (topHandle session0)
                  selectThenReturn (worldOf healthy)))) = 0
  /\ issued "BEGIN TRANSACTION"
       (newCalls 0 (worldOf healthy)
          (fst (SnowflakeSdkSession_transaction session0
                  (nested 2 selectThenReturn) (worldOf healthy)))) = 1
  /\ issued "COMMIT"
       (newCalls 0 (worldOf healthy)
          (fst (SnowflakeSdkSession_transaction session0
                  (nested 2 selectThenReturn) (worldOf healthy)))) = 1
  /\ issued "ROLLBACK"
       (newCalls 0 (worldOf healthy)
          (fst (SnowflakeSdkSession_transaction session0
                  (nested 2 selectThenReturn) (worldOf healthy)))) = 0.
Proof.
  destruct (nested_transaction_is_flat textOnly session0 (topHandle session0)
              selectThenReturn selectThenReturn_TxBody)
    as (_ & _ & _ & Hindex & Hnone & _ & Hwhole).
  split; [exact selectThenReturn_TxBody|].
  split; [exact Hindex|].
  split; [exact (proj1 (Hnone (worldOf healthy) 0))|].
  apply (Hwhole 1 (worldOf healthy) _ 42).
  apply settled. vm_compute. reflexivity.
Defined.

(** A callback that throws, on a connection that completes every
    statement and on one whose [ROLLBACK] fails. *)
Lemma transaction_rolls_back_witness :
  snd (SnowflakeSdkSession_transaction session0 selectThenThrow (worldOf healthy))
  = Rejected (Error "Test error")
  /\ issued "ROLLBACK"
       (newCalls 0 (worldOf healthy)
          (fst (SnowflakeSdkSession_transaction session0 selectThenThrow
                  (worldOf healthy))))
     = 1
  /\ issued "COMMIT"
       (newCalls 0 (worldOf healthy)
          (fst (SnowflakeSdkSession_transaction session0 selectThenThrow
                  (worldOf healthy))))
     = 0
  /\ snd (SnowflakeSdkSession_transaction session0 selectThenThrow
            (worldOf (failing "ROLLBACK")))
     = Rejected (Error "ROLLBACK failed").
Proof.
  destruct (transaction_rolls_back textOnly session0 selectThenThrow
              (worldOf healthy)
              (fst (selectThenThrow (topHandle session0)
                      (fst (statement 0 "BEGIN TRANSACTION" (worldOf healthy)))))
              (Error "Test error") eq_refl (settled _ _ eq_refl))
    as (Hhealthy & _ & Hcount).
  destruct (Hcount selectThenThrow_TxBody)
    as (body & _ & _ & _ & Hrollback & Hcommit).
  pose proof (proj1 (transaction_rolls_back textOnly session0 selectThenThrow
                       (worldOf (failing "ROLLBACK"))
                       (fst (selectThenThrow (topHandle session0)
                               (fst (statement 0 "BEGIN TRANSACTION"
                                       (worldOf (failing "ROLLBACK"))))))
                       (Error "Test error") eq_refl (settled _ _ eq_refl)))
    as Hfailing.
  rewrite Hhealthy, Hfailing.
  split; [reflexivity|]. split; [exact Hrollback|]. split; [exact Hcommit|].
  reflexivity.
Defined.

(** A callback that returns, on a connection that completes every
    statement. *)
Lemma transaction_commits_witness :
  snd (SnowflakeSdkSession_transaction session0 selectThenReturn (worldOf healthy))
  = Resolved 42
  /\ issued "BEGIN TRANSACTION"
       (newCalls 0 (worldOf healthy)
          (fst (SnowflakeSdkSession_transaction session0 selectThenReturn
                  (worldOf healthy))))
     = 1
  /\ issued "COMMIT"
       (newCalls 0 (worldOf healthy)
          (fst (SnowflakeSdkSession_transaction session0 selectThenReturn
                  (worldOf healthy))))
     = 1
  /\ issued "ROLLBACK"
       (newCalls 0 (worldOf healthy)
          (fst (SnowflakeSdkSession_transaction session0 selectThenReturn
                  (worldOf healthy))))
     = 0.
Proof.
  destruct (transaction_commits textOnly session0 selectThenReturn
              (worldOf healthy)
              (fst (selectThenReturn (topHandle session0)
                      (fst (statement 0 "BEGIN TRANSACTION" (worldOf healthy)))))
              42 eq_refl (settled _ _ eq_refl) eq_refl)
    as (Hresult & _ & Hcount).
  destruct (Hcount selectThenReturn_TxBody)
    as (body & _ & _ & Hbegin & Hcommit & Hrollback).
  rewrite Hresult.
  split; [reflexivity|]. split; [exact Hbegin|]. split; [exact Hcommit|].
  exact Hrollback.
Defined.

Example transaction_traces :
  map sqlText
    (newCalls 0 (worldOf healthy)
       (fst (SnowflakeSdkSession_transaction session0 selectThenReturn
               (worldOf healthy))))
  = ["BEGIN TRANSACTION"; "SELECT 1"; "COMMIT"]
  /\ map sqlText
       (newCalls 0 (worldOf healthy)
          (fst (SnowflakeSdkSession_transaction session0 selectThenThrow
                  (worldOf healthy))))
     = ["BEGIN TRANSACTION"; "SELECT 1"; "ROLLBACK"]
  /\ map sqlText
       (newCalls 0 (worldOf healthy)
          (fst (SnowflakeSdkSession_transaction session0
                  (nested 2 selectThenReturn) (worldOf healthy))))
     = ["BEGIN TRANSACTION"; "SELECT 1"; "COMMIT"].
Proof. repeat split; vm_compute; reflexivity. Qed.

(** C3, as the specification words it, fails when the connection
    refuses the [COMMIT]: the callback has resolved normally, yet the
    session goes on to issue a [ROLLBACK] and the caller gets the error
    of the [COMMIT], not the result of the callback. *)
Lemma commit_failure_rolls_back :
  snd (selectThenReturn (topHandle session0)
         (fst (statement 0 "BEGIN TRANSACTION" (worldOf (failing "COMMIT")))))
  = Resolved 42
  /\ snd (SnowflakeSdkSession_transaction session0 selectThenReturn
            (worldOf (failing "COMMIT")))
     = Rejected (Error "COMMIT failed")
  /\ map sqlText
       (newCalls 0 (worldOf (failing "COMMIT"))
          (fst (SnowflakeSdkSession_transaction session0 selectThenReturn
                  (worldOf (failing "COMMIT")))))
     = ["BEGIN TRANSACTION"; "SELECT 1"; "COMMIT"; "ROLLBACK"]
  /\ issued "ROLLBACK"
       (newCalls 0 (worldOf (failing "COMMIT"))
          (fst (SnowflakeSdkSession_transaction session0 selectThenReturn
                  (worldOf (failing "COMMIT")))))
     = 1.
Proof.
  repeat split; vm_compute; reflexivity.
Qed.

End DriverProperties.

(** ** Column builders, constraints, tables and indexes *)

Module BuilderProperties.

Import Scenarios.


(** X2.  The typing hint of a bound parameter follows the SQL type of
    the column that encodes it: it is [timestamp] exactly for the
    columns whose SQL type starts with [timestamp_], [date] exactly for
    the columns whose SQL type is [date], and [none] for every other
    column and for every encoder that is not a column. *)
Theorem prepareTyping_follows_sql_type (c : SnowflakeColumn) :
  (prepareTyping (Some c) = "timestamp"
   <-> String.prefix "timestamp_" (getSQLType c) = true)
  /\ (prepareTyping (Some c) = "date" <-> getSQLType c = "date")
  /\ (prepareTyping (Some c) = "none"
      <-> String.prefix "timestamp_" (getSQLType c) = false
          /\ getSQLType c <> "date")
  /\ prepareTyping None = "none".
Proof.
  unfold prepareTyping, getSQLType.
  destruct (columnClass c) as [[l|]| |[p|] [s|]| | |[|] p|[|] p| |];
    (split; [|split; [|split; [|reflexivity]]]);
    (split; [intros H | intros H]);
    try discriminate H; try reflexivity;
    try (split; [reflexivity|]; intros H';
         apply (f_equal (String.get 0)) in H'; lazy in H'; discriminate H');
    try (apply (f_equal (String.get 0)) in H; lazy in H; discriminate H);
    try (destruct H as [H _]; discriminate H);
    try (destruct H as [_ H]; now contradiction H).
Qed.

(** *** Constraint names and actions *)

Lemma uniqueKeyName_truthy (t : Table) (columns : list string) :
  string_falsy (Some (uniqueKeyName t columns)) = false.
Proof.
  unfold string_falsy, uniqueKeyName. apply String.eqb_neq.
  destruct (TableName t) as [|ch rest]; discriminate.
Qed.

(** X3.  A unique name given to a column builder is the unique name of
    the column it builds, except for the empty string, which the
    constructor of the column treats as no name and replaces by the
    derived one; [unique()] without a name discards a name set before.
    The table-level constraint [unique(name).on(...)] keeps any name it
    is given, the empty string included. *)
Theorem explicit_unique_names (t : Table) (b : SnowflakeColumnBuilder)
    (n : string) (columns : list SnowflakeColumn) :
  isUnique (config (fst (SnowflakeColumnBuilder_build t
                           (SnowflakeColumnBuilder_unique b (Some n)))))
  = true
  /\ uniqueName (config (fst (SnowflakeColumnBuilder_build t
                                (SnowflakeColumnBuilder_unique b (Some n)))))
     = Some (if String.eqb n ""
             then uniqueKeyName t [name (builder_config b)] else n)
  /\ uniqueName (config (fst (SnowflakeColumnBuilder_build t
                                (SnowflakeColumnBuilder_unique b None))))
     = Some (uniqueKeyName t [name (builder_config b)])
  /\ UniqueConstraint_getName
       (UniqueConstraintBuilder_build t
          (UniqueOn.on (UniqueOn.unique (Some n)) columns))
     = n.
Proof.
  unfold SnowflakeColumnBuilder_build, SnowflakeColumnBuilder_unique,
    SnowflakeColumn_new.
  cbn [builder_config builder_fields uniqueName string_falsy].
  destruct (String.eqb n "") eqn:En; repeat split; reflexivity.
Qed.

(** X4.  [foreignKey({ name, columns, foreignColumns })] never reads
    the name: whatever name is passed, the key it builds is named by the
    derived pattern, and both its actions are 'no action'. *)
Theorem foreignKey_ignores_name (t : Table) (name : option string)
    (columns : list SnowflakeColumn) (first : SnowflakeColumn)
    (others : list SnowflakeColumn) :
  ForeignKey_getName
    (ForeignKeyBuilder_build t (foreignKey name columns (first :: others)))
  = Ok (join "_" ([TableName t] ++ map column_name columns
                  ++ [TableName (table first)]
                  ++ map column_name (first :: others))%list
        +:+ "_fk")
  /\ fk_onUpdate
       (ForeignKeyBuilder_build t (foreignKey name columns (first :: others)))
     = Some no_action
  /\ fk_onDelete
       (ForeignKeyBuilder_build t (foreignKey name columns (first :: others)))
     = Some no_action.
Proof. repeat split. Qed.

(** X5.  A foreign key has a name exactly when its builder yields at
    least one foreign column: with none, reading the reference and
    asking for the name both throw a [TypeError]. *)
Theorem ForeignKey_getName_needs_foreign_column (t : Table)
    (cfg : unit -> list SnowflakeColumn * list SnowflakeColumn)
    (a : option Actions) :
  ((exists n,
      ForeignKey_getName (ForeignKeyBuilder_build t (ForeignKeyBuilder_new cfg a))
      = Ok n)
   <-> snd (cfg tt) <> [])
  /\ (snd (cfg tt) = [] ->
      exists message,
        reference (ForeignKeyBuilder_new cfg a) tt = Throw (TypeError message)
        /\ ForeignKey_getName
             (ForeignKeyBuilder_build t (ForeignKeyBuilder_new cfg a))
           = Throw (TypeError message)).
Proof.
  unfold ForeignKey_getName, ForeignKeyBuilder_build, ForeignKey_new,
    ForeignKeyBuilder_new.
  destruct a as [a|]; cbn [reference fk_reference fk_table];
    destruct (cfg tt) as [columns [|first others]]; cbn [snd];
    (split; [split|]);
    try (intros [n H]; discriminate H);
    try (intros H; now contradiction H);
    try (intros _; discriminate);
    try (intros _; eexists; reflexivity);
    try (intros _; eexists; split; reflexivity);
    try (intros H; discriminate H).
Qed.

(** X6.  Every reference collected by [references] becomes one inline
    foreign key of the table, in order, from the column itself to the
    referenced column.  An action the reference omits stays 'no action'
    and is never undefined; the name is the table, the column, the
    foreign table and the foreign column joined by underscores, followed
    by [_fk]. *)
Theorem inline_references_default_actions (b : SnowflakeColumnBuilder)
    (c : SnowflakeColumn) (t : Table) :
  Forall2
    (fun rc fk =>
       fk_table fk = t
       /\ fk_reference fk tt
          = Ok (mkReference [c] (table (ref rc tt)) [ref rc tt])
       /\ fk_onUpdate fk = Some (nullish (onUpdate (actions rc)) no_action)
       /\ fk_onDelete fk = Some (nullish (onDelete (actions rc)) no_action)
       /\ ForeignKey_getName fk
          = Ok (TableName t +:+ "_" +:+ column_name c +:+ "_"
                +:+ TableName (table (ref rc tt)) +:+ "_"
                +:+ column_name (ref rc tt) +:+ "_fk"))
    (foreignKeyConfigs b)
    (SnowflakeColumnBuilder_buildForeignKeys b c t)
  /\ (forall r a,
        SnowflakeColumnBuilder_buildForeignKeys
          (SnowflakeColumnBuilder_references b r a) c t
        = (SnowflakeColumnBuilder_buildForeignKeys b c t
           ++ SnowflakeColumnBuilder_buildForeignKeys
                (SnowflakeColumnBuilder_references
                   (mkBuilder (builder_config b) [] (builder_fields b)) r a)
                c t)%list).
Proof.
  split.
  - unfold SnowflakeColumnBuilder_buildForeignKeys.
    induction (foreignKeyConfigs b) as [|rc rest IH]; [constructor|].
    simpl. constructor; [|exact IH].
    destruct rc as [r [[u|] [d|]]]; repeat split;
      unfold ForeignKey_getName; cbn; rewrite ?StringFacts.string_app_assoc;
      reflexivity.
  - intros r a. unfold SnowflakeColumnBuilder_buildForeignKeys,
      SnowflakeColumnBuilder_references.
    cbn [foreignKeyConfigs]. now rewrite List.map_app.
Qed.

(** *** Tables *)

Lemma buildColumn_spec (setName : string -> ColumnBuilderRuntimeConfig
                                  -> ColumnBuilderRuntimeConfig)
    (t : Table) (key : string) (b : SnowflakeColumnBuilder) :
  buildColumn setName t (key, b)
  = ((key,
      fst (SnowflakeColumn_new t (setName key (builder_config b))
                               (builder_fields b))),
     SnowflakeColumnBuilder_buildForeignKeys b
       (fst (SnowflakeColumn_new t (setName key (builder_config b))
                                 (builder_fields b))) t,
     (key,
      mkBuilder (snd (SnowflakeColumn_new t (setName key (builder_config b))
                                          (builder_fields b)))
                (foreignKeyConfigs b) (builder_fields b))).
Proof. reflexivity. Qed.



(** X8.  Building a table writes the derived unique names into the
    builders it was given.  A second table built from the same builders
    therefore gets, column by column, the unique names of the first
    table, derived from the name of the first table, whatever the second
    table is called ([setName] leaves the unique name alone). *)
Theorem reused_builders_keep_unique_names {E : Type}
    (setName : string -> ColumnBuilderRuntimeConfig -> ColumnBuilderRuntimeConfig)
    (name1 name2 : string) (columns : list (string * SnowflakeColumnBuilder))
    (extra1 extra2 : option E) (schema1 schema2 base1 base2 : option string) :
  (forall key c, uniqueName (setName key c) = uniqueName c) ->
  map (fun col => uniqueName (config (snd col)))
      (Columns (built (snowflakeTableWithSchema setName name2
                         (builders (snowflakeTableWithSchema setName name1
                                      columns extra1 schema1 base1))
                         extra2 schema2 base2)))
  = map (fun col => uniqueName (config (snd col)))
        (Columns (built (snowflakeTableWithSchema setName name1 columns
                           extra1 schema1 base1)))
  /\ Forall2
       (fun entry col =>
          string_falsy (uniqueName (builder_config (snd entry))) = true ->
          uniqueName (config (snd col))
          = Some (uniqueKeyName (Table_new name1 schema1 (nullish base1 name1))
                    [Core.name (setName (fst entry)
                                  (builder_config (snd entry)))]))
       columns
       (Columns (built (snowflakeTableWithSchema setName name2
                          (builders (snowflakeTableWithSchema setName name1
                                       columns extra1 schema1 base1))
                          extra2 schema2 base2))).
Proof.
  intros HsetName. unfold snowflakeTableWithSchema.
  cbn [built base Columns builders].
  set (t1 := Table_new name1 schema1 (nullish base1 name1)).
  set (t2 := Table_new name2 schema2 (nullish base2 name2)).
  assert (forall key b,
            uniqueName (config (snd (fst (fst
              (buildColumn setName t2
                 (snd (buildColumn setName t1 (key, b))))))))
            = uniqueName (config (snd (fst (fst
                (buildColumn setName t1 (key, b))))))
              /\ string_falsy
                   (uniqueName (config (snd (fst (fst
                      (buildColumn setName t1 (key, b))))))) = false)
    as Hone.
  { intros key b. rewrite (buildColumn_spec setName t1 key b). cbn [fst snd].
    rewrite (buildColumn_spec setName t2 key). cbn [fst snd].
    cbn [builder_config builder_fields].
    rewrite !ConstraintProperties.SnowflakeColumn_new_uniqueName.
    rewrite (HsetName key (snd _)).
    assert (uniqueName (snd (SnowflakeColumn_new t1
                               (setName key (builder_config b))
                               (builder_fields b)))
            = if string_falsy (uniqueName (setName key (builder_config b)))
              then Some (uniqueKeyName t1 [Core.name (setName key (builder_config b))])
              else uniqueName (setName key (builder_config b))) as ->.
    { unfold SnowflakeColumn_new.
      destruct (string_falsy (uniqueName (setName key (builder_config b))));
        reflexivity. }
    destruct (string_falsy (uniqueName (setName key (builder_config b)))) eqn:Ef.
    - rewrite uniqueKeyName_truthy. split; reflexivity.
    - rewrite Ef. split; reflexivity. }
  split.
  - induction columns as [|[key b] columns IH]; [reflexivity|].
    cbn [map]. f_equal; [|exact IH].
    cbn [snd]. apply (Hone key b).
  - induction columns as [|[key b] columns IH]; [constructor|].
    cbn [map]. constructor; [|exact IH].
    cbn [fst snd]. intros Hnone.
    eapply eq_trans; [exact (proj1 (Hone key b))|].
    rewrite buildColumn_spec. cbn [fst snd].
    rewrite ConstraintProperties.SnowflakeColumn_new_uniqueName.
    now rewrite HsetName, Hnone.
Qed.

Lemma reused_builders_keep_unique_names_witness :
  (forall key c, uniqueName (setNameIfEmpty key c) = uniqueName c)
  /\ map (fun col => uniqueName (config (snd col)))
         (Columns (built (snowflakeTable (E:=unit) setNameIfEmpty "accounts"
                            (builders (snowflakeTable (E:=unit) setNameIfEmpty
                                         "users" userColumns None))
                            None)))
     = [Some "users_id_unique"; Some "users_org_id_unique"].
Proof.
  assert (forall key c, uniqueName (setNameIfEmpty key c) = uniqueName c) as H.
  { intros key c. unfold setNameIfEmpty.
    destruct (String.eqb (Core.name c) ""); reflexivity. }
  split; [exact H|].
  unfold snowflakeTable.
  rewrite (proj1 (reused_builders_keep_unique_names setNameIfEmpty
                    "users" "accounts" userColumns None None None None None None H)).
  reflexivity.
Defined.

(** *** Indexes *)

Lemma index_call_frame (b : Indexes.IndexBuilder) (c : Indexes.Call) :
  Indexes.name (Indexes.call b c) = Indexes.name b
  /\ Indexes.unique (Indexes.call b c) = Indexes.unique b
  /\ map Indexes.column (Indexes.columns (Indexes.call b c))
     = map Indexes.column (Indexes.columns b).
Proof.
  destruct c; repeat split; try reflexivity;
    cbn; rewrite List.map_map; reflexivity.
Qed.

Lemma index_call_uniform (b : Indexes.IndexBuilder) (c : Indexes.Call)
    (o : Indexes.Order) (n : Indexes.Nulls) :
  Forall (fun col => Indexes.order col = Some o /\ Indexes.nulls col = Some n)
         (Indexes.columns b) ->
  Forall (fun col =>
            Indexes.order col
            = Some match c with
                   | Indexes.call_asc => Indexes.order_asc
                   | Indexes.call_desc => Indexes.order_desc
                   | _ => o
                   end
            /\ Indexes.nulls col
               = Some match c with
                      | Indexes.call_nullsFirst => Indexes.nulls_first
                      | Indexes.call_nullsLast => Indexes.nulls_last
                      | _ => n
                      end)
         (Indexes.columns (Indexes.call b c)).
Proof.
  intros H. destruct c; cbn; try exact H;
    induction H as [|col cols [Ho Hn] _ IH]; cbn; constructor; auto.
Qed.

(** X9.  Whatever calls are chained on an index builder, the index
    keeps its name, its uniqueness flag and its columns in order, and
    all its columns share one sort order and one placement of nulls,
    never undefined: ascending with nulls last until a call changes it,
    and after [desc()] (or any other of the four calls) as the last call
    says, for every column at once. *)
Theorem index_columns_share_order (n : string) (u : bool)
    (cols : list Indexes.IndexColumn) (calls : list Indexes.Call) :
  Indexes.name
    (Indexes.chain (Indexes.on (Indexes.mkIndexBuilderOn n u) cols) calls) = n
  /\ Indexes.unique
       (Indexes.chain (Indexes.on (Indexes.mkIndexBuilderOn n u) cols) calls)
     = u
  /\ map Indexes.column
       (Indexes.columns
          (Indexes.chain (Indexes.on (Indexes.mkIndexBuilderOn n u) cols) calls))
     = cols
  /\ (exists o nl,
        Forall (fun col =>
                  Indexes.order col = Some o /\ Indexes.nulls col = Some nl)
               (Indexes.columns
                  (Indexes.chain (Indexes.on (Indexes.mkIndexBuilderOn n u) cols)
                                 calls)))
  /\ Forall (fun col =>
               Indexes.order col = Some Indexes.order_asc
               /\ Indexes.nulls col = Some Indexes.nulls_last)
            (Indexes.columns (Indexes.on (Indexes.mkIndexBuilderOn n u) cols))
  /\ Forall (fun col => Indexes.order col = Some Indexes.order_desc)
            (Indexes.columns
               (Indexes.chain (Indexes.on (Indexes.mkIndexBuilderOn n u) cols)
                              (calls ++ [Indexes.call_desc])))
  /\ Indexes.index n = Indexes.mkIndexBuilderOn n false
  /\ Indexes.uniqueIndex n = Indexes.mkIndexBuilderOn n true.
Proof.
  set (b0 := Indexes.on (Indexes.mkIndexBuilderOn n u) cols).
  assert (Forall (fun col =>
                    Indexes.order col = Some Indexes.order_asc
                    /\ Indexes.nulls col = Some Indexes.nulls_last)
                 (Indexes.columns b0)) as H0.
  { unfold b0, Indexes.on, Indexes.IndexBuilder_new. cbn.
    induction cols; cbn; constructor; auto. }
  assert (forall calls b,
            Indexes.name (Indexes.chain b calls) = Indexes.name b
            /\ Indexes.unique (Indexes.chain b calls) = Indexes.unique b
            /\ map Indexes.column (Indexes.columns (Indexes.chain b calls))
               = map Indexes.column (Indexes.columns b)) as Hframe.
  { clear. intros calls. induction calls as [|c calls IH]; intros b.
    - repeat split.
    - unfold Indexes.chain in *. cbn [fold_left].
      destruct (IH (Indexes.call b c)) as (-> & -> & ->).
      apply index_call_frame. }
  assert (forall calls b,
            (exists o nl,
               Forall (fun col =>
                         Indexes.order col = Some o /\ Indexes.nulls col = Some nl)
                      (Indexes.columns b)) ->
            exists o nl,
              Forall (fun col =>
                        Indexes.order col = Some o /\ Indexes.nulls col = Some nl)
                     (Indexes.columns (Indexes.chain b calls))) as Huniform.
  { clear. intros calls. induction calls as [|c calls IH]; intros b (o & nl & H).
    - exists o, nl. exact H.
    - unfold Indexes.chain in *. cbn [fold_left]. apply IH.
      do 2 eexists. exact (index_call_uniform b c o nl H). }
  destruct (Hframe calls b0) as (Hname & Hunique & Hcolumns).
  split; [rewrite Hname; reflexivity|].
  split; [rewrite Hunique; reflexivity|].
  split.
  { rewrite Hcolumns. unfold b0, Indexes.on, Indexes.IndexBuilder_new. cbn.
    rewrite List.map_map. cbn. apply List.map_id. }
  split; [apply Huniform; eauto|].
  split; [exact H0|].
  split; [|split; reflexivity].
  unfold Indexes.chain. rewrite fold_left_app. cbn [fold_left].
  destruct (Huniform calls b0 (ex_intro _ _ (ex_intro _ _ H0))) as (o & nl & H).
  fold (Indexes.chain b0 calls).
  pose proof (index_call_uniform _ Indexes.call_desc o nl H) as Hdesc.
  cbn [Indexes.call] in *.
  eapply Forall_impl; [exact Hdesc|]. intros col [Ho _]. exact Ho.
Qed.

End BuilderProperties.

(** ** The SQL compiler, continued *)

Module CompilerProperties.

Import DialectProperties.
Import Scenarios.

(** *** String literals *)

Lemma readBody_replace_quotes (str rest : string) :
  startsWithQuote rest = false ->
  readBody (replace_quotes str +:+ String "'"%char rest) = Some (str, rest).
Proof.
  intros Hrest. induction str as [|c str IH].
  - change (readBody (String "'"%char rest) = Some (EmptyString, rest)).
    destruct rest as [|c' rest']; [reflexivity|].
    cbn [startsWithQuote] in Hrest. cbn [readBody].
    rewrite Ascii.eqb_refl. now rewrite Hrest.
  - cbn [replace_quotes]. destruct (Ascii.eqb c "'"%char) eqn:Ec.
    + apply Ascii.eqb_eq in Ec. subst c.
      rewrite !string_app_cons. cbn [readBody].
      rewrite Ascii.eqb_refl. now rewrite IH.
    + rewrite string_app_cons. cbn [readBody]. rewrite Ec. now rewrite IH.
Qed.

(** X10.  A string literal made by [escapeString] reads back as the
    string it was made from: read the way SQL reads a literal, the text
    [escapeString str] followed by any text that does not start with a
    quote gives the value [str] and leaves that text, whatever quotes
    [str] contains. *)
Theorem escapeString_reads_back (str rest : string) :
  startsWithQuote rest = false ->
  readLiteral (escapeString str +:+ rest) = Some (str, rest).
Proof.
  intros Hrest. unfold escapeString.
  rewrite !string_app_assoc.
  change ("'" +:+ (replace_quotes str +:+ ("'" +:+ rest)))
    with (String "'"%char (replace_quotes str +:+ String "'"%char rest)).
  cbn [readLiteral]. rewrite Ascii.eqb_refl.
  now apply readBody_replace_quotes.
Qed.

Lemma escapeString_reads_back_witness :
  startsWithQuote " AND 1 = 1" = false
  /\ escapeString "it's" = "'it''s'"
  /\ readLiteral ("'it''s' AND 1 = 1") = Some ("it's", " AND 1 = 1").
Proof.
  split; [reflexivity|]. split; [reflexivity|].
  exact (escapeString_reads_back "it's" " AND 1 = 1" eq_refl).
Defined.

(** *** The text of composed fragments *)

Lemma textAll_cons (this : SnowflakeDialect) (x : SQLChunk)
    (rest : list SQLChunk) (a b : string) :
  toText this x = Some a -> textAll this rest = Some b ->
  textAll this (x :: rest) = Some (a +:+ b).
Proof. intros Ha Hb. cbn [textAll]. now rewrite Ha, Hb. Qed.

Lemma textAll_nil (this : SnowflakeDialect) :
  textAll this [] = Some EmptyString.
Proof. reflexivity. Qed.

Lemma string_app_nil_l (s : string) : EmptyString +:+ s = s.
Proof. reflexivity. Qed.

(** Appends nested to the right, without empty pieces. *)
Ltac string_norm :=
  repeat (rewrite ?string_app_assoc, ?string_app_nil_r, ?string_app_nil_l).

(** Builds the text of a list of chunks, chunk by chunk, from the
    texts of the fragments among the hypotheses. *)
Ltac text_of :=
  repeat first
    [ apply textAll_nil
    | eapply textAll_cons; [first [eassumption | reflexivity]|] ].

(** Items written one after the other, with a separator after every
    item but the last. *)
Lemma separated_text {A : Type} (this : SnowflakeDialect)
    (item : A -> list SQLChunk) (sep : list SQLChunk) (sepText : string)
    (n : nat) (l : list A) (texts : list string) :
  textAll this sep = Some sepText ->
  Forall2 (fun x t => textAll this (item x) = Some t) l texts ->
  forall k, k + List.length l = n ->
  textAll this
    (concat (imap (fun i x =>
                     (item x ++ (if Nat.ltb (k + i) (n - 1) then sep else []))%list)
                  l))
  = Some (join sepText texts).
Proof.
  intros Hsep. induction 1 as [|x t l texts Hx Hrest IH]; intros k Hk.
  - reflexivity.
  - cbn [imap concat]. rewrite Nat.add_0_r.
    assert (imap ((fun i y =>
                     (item y ++ (if Nat.ltb (k + i) (n - 1) then sep else []))%list)
                  ∘ S) l
            = imap (fun i y =>
                      (item y ++ (if Nat.ltb (S k + i) (n - 1) then sep else []))%list)
                   l) as ->.
    { apply imap_ext. intros i y _. cbn. now rewrite Nat.add_succ_r. }
    specialize (IH (S k)). cbn [List.length] in Hk.
    destruct Hrest as [|x' t' l' texts' Hx' Hrest'].
    + assert (Nat.ltb k (n - 1) = false) as -> by (apply Nat.ltb_ge; cbn in *; lia).
      cbn [imap concat]. rewrite !List.app_nil_r. exact Hx.
    + assert (Nat.ltb k (n - 1) = true) as -> by (apply Nat.ltb_lt; cbn in *; lia).
      rewrite <- List.app_assoc.
      rewrite (textAll_app this _ _ t (sepText +:+ join sepText (t' :: texts')) Hx).
      * reflexivity.
      * apply (textAll_app this sep _ sepText (join sepText (t' :: texts')) Hsep).
        apply IH. cbn in *. lia.
Qed.

(** *** WITH clauses *)

(** X11.  [buildWithCTE] returns nothing for an absent or empty list
    of common table expressions.  For a non-empty list it writes [WITH],
    then each expression as its escaped alias, [AS] and its query in
    parentheses, the expressions separated by commas with none after the
    last, then one space. *)
Theorem buildWithCTE_text (this : SnowflakeDialect) (queries : list Subquery)
    (texts : list string) :
  Forall2 (fun w t => sqlToText this (sq_sql w) = Some t) queries texts ->
  queries <> [] ->
  buildWithCTE None = None
  /\ buildWithCTE (Some []) = None
  /\ exists q,
       buildWithCTE (Some queries) = Some q
       /\ sqlToText this q
          = Some ("WITH "
                  +:+ join ", "
                        (zip_with (fun w t =>
                                     escapeName (sq_alias w) +:+ " AS ("
                                     +:+ t +:+ ")")
                                  queries texts)
                  +:+ " ").
Proof.
  intros Htexts Hne. split; [reflexivity|]. split; [reflexivity|].
  destruct queries as [|w ws]; [congruence|].
  eexists. split; [reflexivity|].
  unfold sqlToText. rewrite sql_join_no_separator, toText_SQL.
  set (queries := w :: ws) in *.
  apply (textAll_app this [SQLChunk_SQL (sql ["WITH "] [])] _ "WITH ");
    [reflexivity|].
  apply (textAll_app this _ [SQLChunk_SQL (sql [" "] [])] _ " ");
    [|reflexivity].
  refine (separated_text this
            (fun w => [SQLChunk_SQL (sql [""; " AS ("; ")"]
                                         [sql_identifier (sq_alias w);
                                          SQLChunk_SQL (sq_sql w)])])
            [SQLChunk_SQL (sql [", "] [])] ", " (List.length queries) queries
            _ eq_refl _ 0 eq_refl).
  clear Hne. induction Htexts as [|w' t ws' ts Hw _ IH]; [constructor|].
  cbn [zip_with]. constructor; [|exact IH].
  unfold sqlToText in Hw.
  change (sql [""; " AS ("; ")"]
              [sql_identifier (sq_alias w'); SQLChunk_SQL (sq_sql w')])
    with (mkSQL [StringChunk ""; Name (sq_alias w'); StringChunk " AS (";
                 SQLChunk_SQL (sq_sql w'); StringChunk ")"] NoopDecoder).
  eapply eq_trans.
  { eapply textAll_cons; [|reflexivity]. rewrite toText_SQL. text_of. }
  rewrite !string_app_nil_r. reflexivity.
Qed.

Lemma buildWithCTE_text_witness :
  exists q,
    buildWithCTE (Some [recent; old]) = Some q
    /\ sqlToText plainDialect q
       = Some ("WITH " +:+ escapeName "recent" +:+ " AS (SELECT 1), "
               +:+ escapeName "old" +:+ " AS (SELECT 2) ").
Proof.
  destruct (buildWithCTE_text plainDialect [recent; old]
              ["SELECT 1"; "SELECT 2"]) as (_ & _ & q & Hq & Htext).
  - repeat constructor.
  - discriminate.
  - exists q. split; [exact Hq|]. rewrite Htext. reflexivity.
Defined.

(** *** FROM and JOIN *)

(** The text of [schema ? sql`${sql.identifier(schema)}.` : undefined]. *)
Lemma schemaSql_text (this : SnowflakeDialect) (schema : option string) :
  toText this (schemaSql schema)
  = Some match schema with
         | Some s => if String.eqb s "" then "" else escapeName s +:+ "."
         | None => ""
         end.
Proof.
  destruct schema as [s|]; [|reflexivity].
  unfold schemaSql. destruct (String.eqb s ""); [reflexivity|].
  cbn. now rewrite string_app_nil_r.
Qed.

(** X12.  [buildFromTable] returns a table that is not an alias, and
    every root that is not a table, as it is.  An aliased table becomes
    a fragment that reads as the escaped original name, qualified with
    the escaped schema when the table has a non-empty one, then a space
    and the escaped alias. *)
Theorem buildFromTable_alias (this : SnowflakeDialect) (t : Table) :
  IsAlias t = true ->
  toText this (buildFromTable (TableChunk t))
  = Some (match Schema t with
          | Some s => if String.eqb s "" then "" else escapeName s +:+ "."
          | None => ""
          end
          +:+ escapeName (OriginalName t) +:+ " " +:+ escapeName (TableName t))
  /\ (forall n o s b,
        buildFromTable (TableChunk (mkTable n o s b false))
        = TableChunk (mkTable n o s b false))
  /\ (forall alias q fields,
        buildFromTable (SubqueryChunk alias q fields)
        = SubqueryChunk alias q fields)
  /\ (forall q, buildFromTable (SQLChunk_SQL q) = SQLChunk_SQL q).
Proof.
  intros Halias. split; [|repeat split].
  unfold buildFromTable. rewrite Halias.
  destruct (Schema t) as [s|]; unfold string_truthy, string_falsy, nullish.
  - destruct (String.eqb s ""); cbn; string_norm; reflexivity.
  - cbn. string_norm. reflexivity.
Qed.

Lemma buildFromTable_alias_witness :
  IsAlias usersAlias = true
  /\ toText plainDialect (buildFromTable (TableChunk usersAlias))
     = Some (escapeName "app" +:+ "." +:+ escapeName "users" +:+ " "
             +:+ escapeName "u")
  /\ buildFromTable (TableChunk users) = TableChunk users.
Proof.
  destruct (buildFromTable_alias plainDialect usersAlias eq_refl)
    as (Htext & Hplain & _).
  split; [reflexivity|]. split; [|apply Hplain].
  rewrite Htext. reflexivity.
Defined.

(** X13.  [buildJoins] returns nothing for an absent or empty join
    list.  For a non-empty list the joins are written in order, one
    space before the first and one space between two joins, none after
    the last. *)
Theorem buildJoins_text (this : SnowflakeDialect)
    (joins : list SnowflakeSelectJoinConfig) (texts : list string) :
  Forall2 (fun j t => toText this (buildJoin j) = Some t) joins texts ->
  joins <> [] ->
  buildJoins None = None
  /\ buildJoins (Some []) = None
  /\ exists q,
       buildJoins (Some joins) = Some q
       /\ sqlToText this q = Some (" " +:+ join " " texts).
Proof.
  intros Htexts Hne. split; [reflexivity|]. split; [reflexivity|].
  destruct joins as [|j js]; [congruence|].
  eexists. split; [reflexivity|].
  unfold sqlToText. rewrite sql_join_no_separator, toText_SQL.
  set (n := List.length (j :: js)).
  assert (concat (imap (fun index joinMeta =>
                    ((if Nat.eqb index 0 then [SQLChunk_SQL (sql [" "] [])] else [])
                     ++ [buildJoin joinMeta]
                     ++ (if Nat.ltb index (n - 1)
                         then [SQLChunk_SQL (sql [" "] [])] else []))%list)
                  (j :: js))
          = (SQLChunk_SQL (sql [" "] [])
             :: concat (imap (fun i joinMeta =>
                         ([buildJoin joinMeta]
                          ++ (if Nat.ltb (0 + i) (n - 1)
                              then [SQLChunk_SQL (sql [" "] [])] else []))%list)
                       (j :: js)))%list) as ->.
  { reflexivity. }
  apply (textAll_cons this _ _ " "); [reflexivity|].
  refine (separated_text this (fun j => [buildJoin j])
            [SQLChunk_SQL (sql [" "] [])] " " n (j :: js) texts eq_refl _ 0 eq_refl).
  eapply Forall2_impl; [exact Htexts|].
  intros x t Hx. cbn [textAll]. rewrite Hx. now rewrite string_app_nil_r.
Qed.

Lemma buildJoins_text_witness :
  exists q,
    buildJoins (Some [mkJoin None (TableChunk orgs) (Some "orgs") "inner";
                      mkJoin (Some sameId) (TableChunk usersAlias) (Some "u") "left"])
    = Some q
    /\ sqlToText plainDialect q
       = Some (" inner JOIN " +:+ escapeName "orgs" +:+ " left JOIN "
               +:+ escapeName "app" +:+ "." +:+ escapeName "users" +:+ " "
               +:+ escapeName "u" +:+ " ON " +:+ escapeName "id" +:+ " = "
               +:+ escapeName "org_id").
Proof.
  destruct (buildJoins_text plainDialect
              [mkJoin None (TableChunk orgs) (Some "orgs") "inner";
               mkJoin (Some sameId) (TableChunk usersAlias) (Some "u") "left"]
              ["inner JOIN " +:+ escapeName "orgs";
               "left JOIN " +:+ escapeName "app" +:+ "." +:+ escapeName "users"
               +:+ " " +:+ escapeName "u" +:+ " ON " +:+ escapeName "id"
               +:+ " = " +:+ escapeName "org_id"])
    as (_ & _ & q & Hq & Htext).
  - repeat constructor.
  - discriminate.
  - exists q. split; [exact Hq|]. rewrite Htext. reflexivity.
Defined.

(** *** Evaluating the text of a template *)

Lemma toText_queryChunks (this : SnowflakeDialect) (s : SQL) :
  toText this (SQLChunk_SQL s) = textAll this (queryChunks s).
Proof. destruct s as [l d]. apply toText_SQL. Qed.

Lemma toText_StringChunk (this : SnowflakeDialect) (s : string) :
  toText this (StringChunk s) = Some s.
Proof. reflexivity. Qed.

Lemma toText_Name (this : SnowflakeDialect) (n : string) :
  toText this (Name n) = Some (escapeName n).
Proof. reflexivity. Qed.

Lemma toText_Param (this : SnowflakeDialect) (v : JSValue)
    (encoder : option SnowflakeColumn) :
  toText this (Param v encoder) = Some "?".
Proof. reflexivity. Qed.

Lemma toText_Undefined (this : SnowflakeDialect) :
  toText this (ValueChunk JSUndefined) = Some EmptyString.
Proof. reflexivity. Qed.

(** Unfolds the templates down to their chunks and writes the chunks
    whose text is known. *)
Ltac text_eval :=
  repeat first
    [ rewrite toText_queryChunks
    | rewrite toText_StringChunk
    | rewrite toText_Name
    | rewrite toText_Param
    | rewrite toText_Undefined
    | progress cbn [queryChunks sql sql_raw sql_identifier sql_param interleave
                    textAll app opt Undefined negb orb andb Nat.eqb List.length
                    String.eqb Ascii.eqb Bool.eqb] ].

(** X14.  The join of a table writes the join type, [JOIN], the
    escaped original name of the table, qualified with its schema when
    it has a non-empty one, the alias of the join when the table is
    renamed, and the condition after [ON].  For a table whose name is
    its original name the alias of the join is never written, whatever
    it is. *)
Theorem buildJoin_table_text (this : SnowflakeDialect) (t : Table)
    (a joinType : string) (o : SQL) (onText : string) :
  sqlToText this o = Some onText ->
  a <> "" ->
  toText this (buildJoin (mkJoin (Some o) (TableChunk t) (Some a) joinType))
  = Some (joinType +:+ " JOIN "
          +:+ match Schema t with
              | Some s => if String.eqb s "" then "" else escapeName s +:+ "."
              | None => ""
              end
          +:+ escapeName (OriginalName t)
          +:+ (if String.eqb (TableName t) (OriginalName t)
               then "" else " " +:+ escapeName a)
          +:+ " ON " +:+ onText)
  /\ (String.eqb (TableName t) (OriginalName t) = true ->
      forall on alias,
        buildJoin (mkJoin on (TableChunk t) alias joinType)
        = buildJoin (mkJoin on (TableChunk t) None joinType)).
Proof.
  intros Hon Ha. unfold sqlToText in Hon. rewrite toText_queryChunks in Hon.
  apply String.eqb_neq in Ha.
  split.
  - unfold buildJoin. cbn [join_table on join_alias Dialect.joinType].
    pose proof (schemaSql_text this (Schema t)) as Hschema.
    destruct (String.eqb (TableName t) (OriginalName t));
      unfold aliasSql; rewrite ?Ha; text_eval;
      rewrite Hschema, Hon; string_norm; reflexivity.
  - intros Hsame on alias. unfold buildJoin.
    cbn [join_table Dialect.on join_alias Dialect.joinType].
    now rewrite Hsame.
Qed.

Lemma buildJoin_table_text_witness :
  toText plainDialect
    (buildJoin (mkJoin (Some sameId) (TableChunk usersAlias) (Some "u") "left"))
  = Some ("left JOIN " +:+ escapeName "app" +:+ "." +:+ escapeName "users"
          +:+ " " +:+ escapeName "u" +:+ " ON " +:+ escapeName "id" +:+ " = "
          +:+ escapeName "org_id")
  /\ buildJoin (mkJoin None (TableChunk orgs) (Some "o") "inner")
     = buildJoin (mkJoin None (TableChunk orgs) None "inner").
Proof.
  split.
  - rewrite (proj1 (buildJoin_table_text plainDialect usersAlias "u" "left"
                      sameId (escapeName "id" +:+ " = " +:+ escapeName "org_id")
                      eq_refl ltac:(discriminate))).
    reflexivity.
  - reflexivity.
Defined.

(** *** Set operations *)

(** X15.  A chain of set operators is compiled from the left: the
    first operator is applied to the left operand, every later operator
    to the result so far.  A non-empty chain never throws; the empty
    chain throws the error of the code. *)
Theorem buildSetOperations_fold (left : SQL) (op : SetOperator)
    (ops : list SetOperator) :
  buildSetOperations left (op :: ops)
  = Ok (fold_left buildSetOperationQuery ops (buildSetOperationQuery left op))
  /\ buildSetOperations left []
     = Throw (Error "Cannot pass undefined values to any set operator").
Proof.
  split; [|reflexivity].
  revert left op. induction ops as [|op' ops IH]; intros left op.
  - reflexivity.
  - cbn [fold_left]. rewrite <- IH. reflexivity.
Qed.

(** Chunks joined by [sql.join] around a separator. *)
Lemma separated_before_text (this : SnowflakeDialect) (sep : SQLChunk)
    (sepText : string) (chunks : list SQLChunk) (texts : list string) :
  toText this sep = Some sepText ->
  Forall2 (fun c t => toText this c = Some t) chunks texts ->
  forall k,
    textAll this
      (concat (imap (fun i chunk =>
                       if Nat.ltb 0 (S k + i) then [sep; chunk] else [chunk])
                    chunks))
    = Some match texts with
           | [] => EmptyString
           | _ => sepText +:+ join sepText texts
           end.
Proof.
  intros Hsep. induction 1 as [|c t chunks texts Hc Hrest IH]; intros k.
  - reflexivity.
  - rewrite imap_cons. cbn beta.
    change (Nat.ltb 0 (S k + 0)) with true. cbn iota.
    assert (imap ((fun i chunk =>
                     if Nat.ltb 0 (S k + i) then [sep; chunk] else [chunk]) ∘ S)
                 chunks
            = imap (fun i chunk =>
                      if Nat.ltb 0 (S (S k) + i) then [sep; chunk] else [chunk])
                   chunks) as -> by reflexivity.
    cbn [concat app textAll]. rewrite Hsep, Hc, (IH (S k)).
    destruct Hrest; cbn [join String.concat]; string_norm; reflexivity.
Qed.

Lemma sql_join_separator_text (this : SnowflakeDialect) (sep : SQLChunk)
    (sepText : string) (chunks : list SQLChunk) (texts : list string) :
  toText this sep = Some sepText ->
  Forall2 (fun c t => toText this c = Some t) chunks texts ->
  textAll this (queryChunks (sql_join chunks (Some sep)))
  = Some (join sepText texts).
Proof.
  intros Hsep Htexts. unfold sql_join. cbn [queryChunks].
  destruct Htexts as [|c t chunks texts Hc Hrest]; [reflexivity|].
  rewrite imap_cons. cbn beta.
  change (Nat.ltb 0 0) with false. cbn iota.
  assert (imap ((fun i chunk =>
                   if Nat.ltb 0 i then [sep; chunk] else [chunk]) ∘ S) chunks
          = imap (fun i chunk =>
                    if Nat.ltb 0 (1 + i) then [sep; chunk] else [chunk]) chunks)
    as -> by reflexivity.
  cbn [concat app textAll]. rewrite Hc.
  rewrite (separated_before_text this sep sepText chunks texts Hsep Hrest 0).
  destruct Hrest; cbn [join String.concat]; string_norm; reflexivity.
Qed.

(** X16.  A set operation reads as the left query in parentheses, the
    operator, [ALL] when all rows are kept, and the right query in
    parentheses.  When it is ordered by columns, [ORDER BY] follows with
    the columns written by their escaped names alone, separated by
    commas: no table in front, and the name of the column as configured,
    not as the casing policy of the dialect would write it. *)
Theorem buildSetOperationQuery_text (this : SnowflakeDialect)
    (left right : SQL) (type : string) (all : bool)
    (c : SnowflakeColumn) (cs : list SnowflakeColumn) (l r : string) :
  sqlToText this left = Some l ->
  sqlToText this right = Some r ->
  sqlToText this
    (buildSetOperationQuery left (mkSetOperator right type all None None None))
  = Some ("(" +:+ l +:+ ") " +:+ type +:+ " "
          +:+ (if all then "ALL " else "") +:+ "(" +:+ r +:+ ")")
  /\ sqlToText this
       (buildSetOperationQuery left
          (mkSetOperator right type all (Some (map ColumnChunk (c :: cs)))
                         None None))
     = Some ("(" +:+ l +:+ ") " +:+ type +:+ " "
             +:+ (if all then "ALL " else "") +:+ "(" +:+ r +:+ ")"
             +:+ " ORDER BY "
             +:+ join ", " (map (fun c => escapeName (column_name c)) (c :: cs))
             +:+ " ").
Proof.
  intros Hl Hr. unfold sqlToText in *. rewrite toText_queryChunks in Hl, Hr.
  split.
  - unfold buildSetOperationQuery.
    cbn [rightSelect so_type isAll so_orderBy so_limit so_offset limitSql offsetSql].
    text_eval. rewrite Hl, Hr. string_norm. reflexivity.
  - unfold buildSetOperationQuery.
    cbn [rightSelect so_type isAll so_orderBy so_limit so_offset limitSql
         offsetSql map].
    set (ordered := sql_join _ _).
    assert (textAll this (queryChunks ordered)
            = Some (join ", " (map (fun c => escapeName (column_name c))
                                   (c :: cs)))) as Horder.
    { apply sql_join_separator_text; [reflexivity|].
      change (Forall2 (fun chunk t => toText this chunk = Some t)
                (map orderByValue (map ColumnChunk (c :: cs)))
                (map (fun c => escapeName (column_name c)) (c :: cs))).
      induction (c :: cs) as [|x xs IH]; cbn [map]; constructor; auto. }
    clearbody ordered. text_eval. rewrite Hl, Hr, Horder. string_norm.
    reflexivity.
Qed.

Lemma buildSetOperationQuery_text_witness :
  sqlToText plainDialect
    (buildSetOperationQuery (sql ["SELECT 1"] [])
       (mkSetOperator (sql ["SELECT 2"] []) "union" true
                      (Some [ColumnChunk users_id; ColumnChunk users_name])
                      None None))
  = Some ("(SELECT 1) union ALL (SELECT 2) ORDER BY "
          +:+ escapeName "id" +:+ ", " +:+ escapeName "name" +:+ " ").
Proof.
  exact (proj2 (buildSetOperationQuery_text plainDialect
                  (sql ["SELECT 1"] []) (sql ["SELECT 2"] []) "union" true
                  users_id [users_name] "SELECT 1" "SELECT 2"
                  eq_refl eq_refl)).
Defined.

(** *** The clauses of a SELECT *)





(** *** INSERT *)

Lemma separated_items {A : Type} (f : A -> SQLChunk) (sep : SQLChunk)
    (n : nat) (l : list A) :
  forall k, k + List.length l = n ->
  concat (imap (fun i x =>
                  ([f x] ++ (if Nat.ltb (k + i) (n - 1) then [sep] else []))%list)
               l)
  = separatedBy sep (map f l).
Proof.
  induction l as [|x l IH]; intros k Hk; [reflexivity|].
  rewrite imap_cons. cbn [concat map separatedBy]. rewrite Nat.add_0_r.
  assert (imap ((fun i y =>
                   ([f y] ++ (if Nat.ltb (k + i) (n - 1) then [sep] else []))%list)
                ∘ S) l
          = imap (fun i y =>
                    ([f y] ++ (if Nat.ltb (S k + i) (n - 1) then [sep] else []))%list)
                 l) as ->.
  { apply imap_ext. intros i y _. cbn. now rewrite Nat.add_succ_r. }
  rewrite (IH (S k)) by (cbn in *; lia).
  destruct l as [|y l]; cbn [map List.length] in *.
  - assert (Nat.ltb k (n - 1) = false) as -> by (apply Nat.ltb_ge; lia).
    reflexivity.
  - assert (Nat.ltb k (n - 1) = true) as -> by (apply Nat.ltb_lt; lia).
    reflexivity.
Qed.

(** The query compiled for value rows, written out. *)
Lemma buildInsertQuery_rows_eq (this : SnowflakeDialect)
    (table : SnowflakeTable) (rows : list (gmap string SQLChunk))
    (onConflict : option SQL) (returning : option SelectedFieldsOrdered)
    (withList : option (list Subquery)) (sel : option bool) :
  sel <> Some true ->
  buildInsertQuery this
    (mkInsert table (ValuesRows rows) onConflict returning withList sel)
  = Ok (sql [""; "INSERT INTO "; " "; " "; ""]
            [opt (buildWithCTE withList); TableChunk (base table);
             ArrayChunk
               (map (fun entry =>
                       sql_identifier (getColumnCasing (casing this) (snd entry)))
                    (insertable table));
             SQLChunk_SQL
               (mkSQL
                  (SQLChunk_SQL (sql_raw "VALUES ")
                   :: separatedBy (SQLChunk_SQL (sql [", "] []))
                        (map (fun row : gmap string SQLChunk =>
                                ArrayChunk
                                  (map (fun entry =>
                                          insertValue (snd entry)
                                                      (row !! fst entry))
                                       (insertable table)))
                             rows))
                  NoopDecoder)]).
Proof.
  intros Hselect. unfold buildInsertQuery.
  cbn [ins_table values Dialect.select ins_withList].
  fold (insertable table).
  assert (match sel with
          | Some true =>
              @Throw (list SQLChunk) (TypeError "select.getSQL is not a function")
          | _ =>
              Ok ([SQLChunk_SQL (sql_raw "VALUES ")]
                  ++ concat (imap (fun valueIndex (value : gmap string SQLChunk) =>
                       ([ArrayChunk
                           (map (fun entry =>
                                   insertValue (snd entry) (value !! fst entry))
                                (insertable table))]
                        ++ (if Nat.ltb valueIndex (List.length rows - 1)
                            then [SQLChunk_SQL (sql [", "] [])] else []))%list)
                     rows))%list
          end
          = Ok (SQLChunk_SQL (sql_raw "VALUES ")
                :: separatedBy (SQLChunk_SQL (sql [", "] []))
                     (map (fun row : gmap string SQLChunk =>
                             ArrayChunk
                               (map (fun entry =>
                                       insertValue (snd entry) (row !! fst entry))
                                    (insertable table)))
                          rows))) as ->.
  { rewrite <- (separated_items
                  (fun row : gmap string SQLChunk =>
                     ArrayChunk (map (fun entry =>
                                        insertValue (snd entry) (row !! fst entry))
                                     (insertable table)))
                  (SQLChunk_SQL (sql [", "] [])) (List.length rows) rows 0 eq_refl).
    destruct sel as [[|]|]; [congruence | reflexivity | reflexivity]. }
  now rewrite sql_join_no_separator.
Qed.



(** X20.  Only the values under the keys of the columns that are not
    insert-disabled reach an INSERT: two lists of rows that agree on
    those keys, row by row, compile to the same query.  A value given
    for an insert-disabled column, or under a key that is not a column,
    is ignored. *)
Theorem buildInsertQuery_ignores_other_keys (this : SnowflakeDialect)
    (table : SnowflakeTable) (rows rows' : list (gmap string SQLChunk))
    (onConflict : option SQL) (returning : option SelectedFieldsOrdered)
    (withList : option (list Subquery)) (sel : option bool) :
  sel <> Some true ->
  Forall2 (fun row row' : gmap string SQLChunk =>
             forall entry, In entry (insertable table) ->
                           row !! fst entry = row' !! fst entry)
          rows rows' ->
  buildInsertQuery this
    (mkInsert table (ValuesRows rows) onConflict returning withList sel)
  = buildInsertQuery this
      (mkInsert table (ValuesRows rows') onConflict returning withList sel).
Proof.
  intros Hselect Hrows.
  rewrite !buildInsertQuery_rows_eq by exact Hselect.
  assert (map (fun row : gmap string SQLChunk =>
                 ArrayChunk (map (fun entry =>
                                    insertValue (snd entry) (row !! fst entry))
                                 (insertable table))) rows
          = map (fun row : gmap string SQLChunk =>
                   ArrayChunk (map (fun entry =>
                                      insertValue (snd entry) (row !! fst entry))
                                   (insertable table))) rows') as ->;
    [|reflexivity].
  induction Hrows as [|row row' rows rows' Hrow _ IH]; [reflexivity|].
  cbn [map]. rewrite IH. do 2 f_equal.
  apply List.map_ext_in. intros entry Hin. now rewrite (Hrow entry Hin).
Qed.

Lemma buildInsertQuery_ignores_other_keys_witness :
  buildInsertQuery plainDialect
    (mkInsert usersWithTotal
       (ValuesRows [ {[ "id" := Param (JSNumber 1) (Some users_id);
                        "total" := Param (JSNumber 9) (Some users_total) ]} ])
       None None None None)
  = buildInsertQuery plainDialect
      (mkInsert usersWithTotal
         (ValuesRows [ {[ "id" := Param (JSNumber 1) (Some users_id) ]} ])
         None None None None).
Proof.
  refine (buildInsertQuery_ignores_other_keys plainDialect usersWithTotal
            _ _ None None None None _ _); [discriminate|].
  constructor; [|constructor].
  intros entry [<-|[]]. reflexivity.
Defined.

(** X21.  The [select] flag and the payload of an INSERT must agree.
    The compiler throws a [TypeError] exactly when the flag is set and
    the payload is a list of rows, or the flag is not set and the
    payload is a query.  With the flag set and a query as payload, the
    query takes the place of the values as it is: no [VALUES] keyword
    and no default is filled in, and the column list is still written. *)
Theorem buildInsertQuery_payload (this : SnowflakeDialect)
    (table : SnowflakeTable) (payload : InsertValues)
    (onConflict : option SQL) (returning : option SelectedFieldsOrdered)
    (withList : option (list Subquery)) (sel : option bool) :
  ((exists e,
      buildInsertQuery this
        (mkInsert table payload onConflict returning withList sel) = Throw e)
   <-> (sel = Some true /\ exists rows, payload = ValuesRows rows)
       \/ (sel <> Some true /\ forall rows, payload <> ValuesRows rows))
  /\ (forall e,
        buildInsertQuery this
          (mkInsert table payload onConflict returning withList sel) = Throw e ->
        exists message, e = TypeError message)
  /\ (forall query,
        buildInsertQuery this
          (mkInsert table (ValuesSQL query) onConflict returning withList
                    (Some true))
        = Ok (sql [""; "INSERT INTO "; " "; " "; ""]
                  [opt (buildWithCTE withList); TableChunk (base table);
                   ArrayChunk
                     (map (fun entry =>
                             Name (getColumnCasing (casing this) (snd entry)))
                          (insertable table));
                   SQLChunk_SQL (mkSQL [SQLChunk_SQL query] NoopDecoder)])).
Proof.
  split; [|split].
  - unfold buildInsertQuery. cbn [Dialect.select values].
    destruct sel as [[|]|], payload as [rows|s|s];
      (split;
       [ intros He;
         first [ destruct He as [e He]; discriminate He
               | left; split; [reflexivity | eexists; reflexivity]
               | right; split; [discriminate | intros r; discriminate] ]
       | intros Hc;
         first [ eexists; reflexivity
               | exfalso; destruct Hc as [[H1 H2]|[H1 H2]];
                 [ first [ discriminate H1
                         | destruct H2 as [r H2]; discriminate H2 ]
                 | first [ apply H1; reflexivity
                         | eapply H2; reflexivity ] ] ] ]).
  - unfold buildInsertQuery. cbn [Dialect.select values].
    intros e.
    destruct sel as [[|]|], payload as [rows|s|s];
      intros H; try discriminate H; injection H as <-; eexists; reflexivity.
  - intros query. reflexivity.
Qed.

(** *** UPDATE *)




(** X23.  The [SET] list depends on the values under the keys of the
    table's columns and on nothing else: two update sets that agree on
    those keys give the same list.  A value under a key that is not a
    column of the table is ignored. *)
Theorem buildUpdateSet_ignores_other_keys (this : SnowflakeDialect)
    (table : SnowflakeTable) (set set' : UpdateSet) :
  (forall entry, In entry (Columns table) ->
                 set !! fst entry = set' !! fst entry) ->
  buildUpdateSet this table set = buildUpdateSet this table set'.
Proof.
  intros Hsame. unfold buildUpdateSet.
  assert (List.filter (inUpdateSet set) (Columns table)
          = List.filter (inUpdateSet set') (Columns table)) as Hfilter.
  { apply List.filter_ext_in. intros entry Hin. unfold inUpdateSet.
    now rewrite (Hsame entry Hin). }
  rewrite <- Hfilter. do 2 f_equal.
  apply imap_ext. intros i entry Hentry.
  assert (In entry (Columns table)) as Hin.
  { apply list_elem_of_lookup_2, list_elem_of_In in Hentry.
    now apply List.filter_In in Hentry as [Hentry _]. }
  unfold updateValue. now rewrite (Hsame entry Hin).
Qed.

Lemma buildUpdateSet_ignores_other_keys_witness :
  buildUpdateSet plainDialect usersWithActive
    (<[ "nickname" := Param (JSString "x") None ]> setId)
  = buildUpdateSet plainDialect usersWithActive setId.
Proof.
  apply buildUpdateSet_ignores_other_keys.
  intros entry [<-|[<-|[]]]; reflexivity.
Defined.

End CompilerProperties.

(** ** Prepared queries, transactions and the facade, continued *)

Module SessionProperties.

Import DriverProperties.
Import Scenarios.

(** *** Prepared queries *)

(** X24.  Executing a prepared query asks the connection once, for the
    text and the parameters recorded when the query was prepared, and
    touches no other connection.  An error of the connection rejects
    the promise with that very error; otherwise the promise resolves
    with the rows, passed through the result mapper when the query has
    one.  [all] asks the same and never applies the mapper. *)
Theorem prepared_query_execute (this : SnowflakeSdkPreparedQuery) (w : World) :
  let asked :=
    mkExecute (query_sql (rawQuery this)) (Some (params (rawQuery this))) in
  let answer :=
    respond (connections w (pq_connection this))
            (calls (connections w (pq_connection this))) asked in
  newCalls (pq_connection this) w
    (fst (SnowflakeSdkPreparedQuery_execute this w)) = [asked]
  /\ (forall c, c <> pq_connection this ->
        connections (fst (SnowflakeSdkPreparedQuery_execute this w)) c
        = connections w c)
  /\ snd (SnowflakeSdkPreparedQuery_execute this w)
     = match err answer with
       | Some e => Rejected e
       | None =>
           Resolved match customResultMapper this with
                    | Some mapper => mapper (rows answer)
                    | None => rows answer
                    end
       end
  /\ fst (SnowflakeSdkPreparedQuery_all this w)
     = fst (SnowflakeSdkPreparedQuery_execute this w)
  /\ snd (SnowflakeSdkPreparedQuery_all this w)
     = match err answer with
       | Some e => Rejected e
       | None => Resolved (rows answer)
       end.
Proof.
  intros asked answer.
  unfold SnowflakeSdkPreparedQuery_execute, SnowflakeSdkPreparedQuery_all.
  fold asked.
  set (w0 := logQuery (pq_logger this) (rawQuery this) w).
  assert (connections w0 = connections w) as Hw0 by apply logQuery_connections.
  destruct (connection_execute_calls (pq_connection this) asked w0)
    as (Hcalls & _ & Hother & Hanswer).
  rewrite Hw0 in Hcalls, Hother, Hanswer. fold answer in Hanswer.
  destruct (connection_execute (pq_connection this) asked w0)
    as [w' completion].
  cbn [fst snd] in *. subst completion.
  repeat split.
  - destruct (err answer); [|destruct (customResultMapper this)];
      cbn [fst]; apply newCalls_of; exact Hcalls.
  - intros c Hc.
    destruct (err answer); [|destruct (customResultMapper this)];
      cbn [fst]; apply Hother; exact Hc.
  - destruct (err answer); [|destruct (customResultMapper this)]; reflexivity.
  - destruct (err answer); [|destruct (customResultMapper this)]; reflexivity.
  - destruct (err answer); reflexivity.
Qed.

(** *** Transactions: rollback, nesting and refusals *)

Lemma statement_logged (c : ConnRef) (text : string) (w : World) :
  logged (fst (statement c text w)) = logged w.
Proof. rewrite statement_spec. reflexivity. Qed.

Section MoreTransactions.

Variable sqlToQuery : SnowflakeDialect -> SQL -> Query.
Context {T : Type}.

(** X25.  A callback that ends with [tx.rollback()], at any nesting
    depth and after any work through its handle, never commits.
    [rollback] itself sends nothing; the callback rejects, with
    [TransactionRollbackError] when the work before resolved, and the
    session issues exactly one [ROLLBACK] after the calls of the
    callback and no [COMMIT].  The caller gets that error, or the error
    of the [ROLLBACK] when the [ROLLBACK] fails. *)
Theorem rollback_never_commits {A : Type} (this : SnowflakeSdkSession)
    (depth : nat) (before : SnowflakeSdkTransaction -> Async A) (w : World) :
  (forall tx, TxBody sqlToQuery (before tx)) ->
  accepts w (connection this) "BEGIN TRANSACTION" ->
  exists tx w2 e0 body,
    nestedIndex tx = depth
    /\ tx_session tx = this
    /\ fst (before tx (fst (statement (connection this) "BEGIN TRANSACTION" w)))
       = w2
    /\ e0 = match snd (before tx (fst (statement (connection this)
                                         "BEGIN TRANSACTION" w))) with
            | Resolved _ => TransactionRollbackError
            | Rejected e => e
            end
    /\ SnowflakeSdkSession_transaction this
         (nested depth
            (fun tx => _ <- before tx ;; @SnowflakeTransaction_rollback T tx))
         w
       = (fst (statement (connection this) "ROLLBACK" w2),
          Rejected
            match err (respond (connections w2 (connection this))
                               (calls (connections w2 (connection this)))
                               (mkExecute "ROLLBACK" None)) with
            | Some rollbackError => rollbackError
            | None => e0
            end)
    /\ Forall prepared body
    /\ newCalls (connection this) w
         (fst (statement (connection this) "ROLLBACK" w2))
       = ([mkExecute "BEGIN TRANSACTION" None] ++ body
          ++ [mkExecute "ROLLBACK" None])%list
    /\ issued "COMMIT"
         (newCalls (connection this) w
            (fst (statement (connection this) "ROLLBACK" w2))) = 0
    /\ issued "ROLLBACK"
         (newCalls (connection this) w
            (fst (statement (connection this) "ROLLBACK" w2))) = 1.
Proof.
  intros Hbefore Hbegin.
  set (inner := fun tx : SnowflakeSdkTransaction =>
                  _ <- before tx ;; @SnowflakeTransaction_rollback T tx).
  set (w1 := fst (statement (connection this) "BEGIN TRANSACTION" w)).
  destruct (nested_runs_inner depth inner (topHandle this))
    as (tx & Hrun & Hindex & _ & Hsession).
  assert (forall tx', TxBody sqlToQuery (nested depth inner tx')) as Hbody.
  { apply nested_TxBody. intros tx'. unfold inner.
    apply body_await; [apply Hbefore | intros v; apply body_rollback]. }
  set (e0 := match snd (before tx w1) with
             | Resolved _ => TransactionRollbackError
             | Rejected e => e
             end).
  assert (nested depth inner (topHandle this) w1
          = (fst (before tx w1), Rejected e0)) as Hcallback.
  { rewrite Hrun. unfold inner, await, SnowflakeTransaction_rollback, reject, e0.
    destruct (before tx w1) as [w2 [v|e]]; reflexivity. }
  destruct (around_callback sqlToQuery this (nested depth inner) w
              (fst (before tx w1)) (Rejected e0) Hbody Hcallback)
    as (body & Hprepared & Hcalls).
  exists tx, (fst (before tx w1)), e0, body.
  split; [exact Hindex|]. split; [exact Hsession|].
  split; [reflexivity|]. split; [reflexivity|].
  assert (newCalls (connection this) w
            (fst (statement (connection this) "ROLLBACK" (fst (before tx w1))))
          = ([mkExecute "BEGIN TRANSACTION" None] ++ body
             ++ [mkExecute "ROLLBACK" None])%list) as Htrace.
  { apply newCalls_of. rewrite statement_calls, Hcalls.
    now rewrite <- !List.app_assoc. }
  split.
  { rewrite transaction_stages, (statement_accepted _ _ _ Hbegin).
    fold w1. rewrite Hcallback. rewrite statement_spec.
    destruct (err _) as [rollbackError|]; reflexivity. }
  split; [exact Hprepared|]. split; [exact Htrace|].
  rewrite Htrace. split; count_issued Hprepared.
Qed.

(** X26.  A nested transaction has no savepoint of its own.  When the
    callback of a top-level transaction catches the failure of a nested
    transaction and returns, the session commits: the statements the
    failed nested transaction had executed stay between [BEGIN
    TRANSACTION] and [COMMIT], and no [ROLLBACK] is issued. *)
Theorem caught_nested_failure_is_committed (this : SnowflakeSdkSession)
    (inner : SnowflakeSdkTransaction -> Async T) (fallback : T)
    (w w2 : World) (e : JSError) :
  (forall tx, TxBody sqlToQuery (inner tx)) ->
  accepts w (connection this) "BEGIN TRANSACTION" ->
  inner (nestedHandle (topHandle this))
        (fst (statement (connection this) "BEGIN TRANSACTION" w))
  = (w2, Rejected e) ->
  accepts w2 (connection this) "COMMIT" ->
  SnowflakeSdkSession_transaction this
    (fun tx =>
       try_catch (SnowflakeSdkTransaction_transaction tx inner)
                 (fun _ => resolve fallback))
    w
  = (fst (statement (connection this) "COMMIT" w2), Resolved fallback)
  /\ Forall prepared
       (newCalls (connection this)
          (fst (statement (connection this) "BEGIN TRANSACTION" w)) w2)
  /\ newCalls (connection this) w
       (fst (statement (connection this) "COMMIT" w2))
     = ([mkExecute "BEGIN TRANSACTION" None]
        ++ newCalls (connection this)
             (fst (statement (connection this) "BEGIN TRANSACTION" w)) w2
        ++ [mkExecute "COMMIT" None])%list
  /\ issued "COMMIT"
       (newCalls (connection this) w
          (fst (statement (connection this) "COMMIT" w2))) = 1
  /\ issued "ROLLBACK"
       (newCalls (connection this) w
          (fst (statement (connection this) "COMMIT" w2))) = 0.
Proof.
  intros Hinner Hbegin Hrun Hcommit.
  set (w1 := fst (statement (connection this) "BEGIN TRANSACTION" w)) in *.
  pose proof (TxBody_grows sqlToQuery _ (Hinner (nestedHandle (topHandle this)))
                w1) as Hgrow.
  rewrite Hrun in Hgrow. cbn [fst] in Hgrow.
  destruct (Hgrow (connection this)) as (body & Hcalls & Hprepared & _).
  rewrite (newCalls_of _ _ _ _ Hcalls).
  assert (newCalls (connection this) w
            (fst (statement (connection this) "COMMIT" w2))
          = ([mkExecute "BEGIN TRANSACTION" None] ++ body
             ++ [mkExecute "COMMIT" None])%list) as Htrace.
  { apply newCalls_of. rewrite statement_calls, Hcalls.
    unfold w1. rewrite statement_calls. now rewrite <- !List.app_assoc. }
  split.
  { rewrite transaction_stages, (statement_accepted _ _ _ Hbegin).
    fold w1. unfold try_catch, SnowflakeSdkTransaction_transaction.
    fold (nestedHandle (topHandle this)). rewrite Hrun.
    unfold resolve. now rewrite (statement_accepted _ _ _ Hcommit). }
  split; [exact Hprepared|]. split; [exact Htrace|].
  rewrite Htrace. split; count_issued Hprepared.
Qed.

(** X27.  When the connection refuses [BEGIN TRANSACTION], the
    callback is never called: whatever the callback is, the promise
    rejects with the error of the connection, the connection has
    received [BEGIN TRANSACTION] and nothing else, neither [COMMIT] nor
    [ROLLBACK], and nothing has been logged. *)
Theorem begin_refused_runs_nothing (this : SnowflakeSdkSession)
    (transaction transaction' : SnowflakeSdkTransaction -> Async T)
    (w : World) (error : JSError) :
  err (respond (connections w (connection this))
               (calls (connections w (connection this)))
               (mkExecute "BEGIN TRANSACTION" None)) = Some error ->
  SnowflakeSdkSession_transaction this transaction w
  = (fst (statement (connection this) "BEGIN TRANSACTION" w), Rejected error)
  /\ SnowflakeSdkSession_transaction this transaction w
     = SnowflakeSdkSession_transaction this transaction' w
  /\ newCalls (connection this) w
       (fst (SnowflakeSdkSession_transaction this transaction w))
     = [mkExecute "BEGIN TRANSACTION" None]
  /\ issued "COMMIT"
       (newCalls (connection this) w
          (fst (SnowflakeSdkSession_transaction this transaction w))) = 0
  /\ issued "ROLLBACK"
       (newCalls (connection this) w
          (fst (SnowflakeSdkSession_transaction this transaction w))) = 0
  /\ logged (fst (SnowflakeSdkSession_transaction this transaction w))
     = logged w.
Proof.
  intros Hbegin.
  destruct (transaction_begin_refused this transaction w error Hbegin)
    as [Hresult Htrace].
  destruct (transaction_begin_refused this transaction' w error Hbegin)
    as [Hresult' _].
  split; [exact Hresult|]. split; [now rewrite Hresult, Hresult'|].
  split; [exact Htrace|]. rewrite Htrace.
  split; [reflexivity|]. split; [reflexivity|].
  rewrite Hresult. apply statement_logged.
Qed.

(** X28.  When the callback resolves and the connection refuses the
    [COMMIT], the session issues a [ROLLBACK] right after it and the
    promise rejects: with the error of the [COMMIT], or with the error
    of the [ROLLBACK] when that fails too.  The result of the callback
    is lost. *)
Theorem commit_refused_then_rollback (this : SnowflakeSdkSession)
    (transaction : SnowflakeSdkTransaction -> Async T) (w w2 : World)
    (result : T) (commitError : JSError) :
  accepts w (connection this) "BEGIN TRANSACTION" ->
  transaction (topHandle this)
              (fst (statement (connection this) "BEGIN TRANSACTION" w))
  = (w2, Resolved result) ->
  err (respond (connections w2 (connection this))
               (calls (connections w2 (connection this)))
               (mkExecute "COMMIT" None)) = Some commitError ->
  SnowflakeSdkSession_transaction this transaction w
  = (fst (statement (connection this) "ROLLBACK"
            (fst (statement (connection this) "COMMIT" w2))),
     Rejected
       match err (respond
                    (connections (fst (statement (connection this) "COMMIT" w2))
                                 (connection this))
                    (calls (connections
                              (fst (statement (connection this) "COMMIT" w2))
                              (connection this)))
                    (mkExecute "ROLLBACK" None)) with
       | Some rollbackError => rollbackError
       | None => commitError
       end)
  /\ calls (connections
              (fst (statement (connection this) "ROLLBACK"
                      (fst (statement (connection this) "COMMIT" w2))))
              (connection this))
     = (calls (connections w2 (connection this))
        ++ [mkExecute "COMMIT" None; mkExecute "ROLLBACK" None])%list
  /\ ((forall tx, TxBody sqlToQuery (transaction tx)) ->
      issued "BEGIN TRANSACTION"
        (newCalls (connection this) w
           (fst (statement (connection this) "ROLLBACK"
                   (fst (statement (connection this) "COMMIT" w2))))) = 1
      /\ issued "COMMIT"
           (newCalls (connection this) w
              (fst (statement (connection this) "ROLLBACK"
                      (fst (statement (connection this) "COMMIT" w2))))) = 1
      /\ issued "ROLLBACK"
           (newCalls (connection this) w
              (fst (statement (connection this) "ROLLBACK"
                      (fst (statement (connection this) "COMMIT" w2))))) = 1).
Proof.
  intros Hbegin Hrun Hcommit.
  set (w3 := fst (statement (connection this) "COMMIT" w2)).
  assert (calls (connections (fst (statement (connection this) "ROLLBACK" w3))
                             (connection this))
          = (calls (connections w2 (connection this))
             ++ [mkExecute "COMMIT" None; mkExecute "ROLLBACK" None])%list)
    as Hcalls.
  { rewrite statement_calls. unfold w3. rewrite statement_calls.
    now rewrite <- List.app_assoc. }
  split; [|split; [exact Hcalls|]].
  - rewrite transaction_stages, (statement_accepted _ _ _ Hbegin), Hrun.
    rewrite (statement_refused _ _ _ _ Hcommit). fold w3.
    rewrite (statement_spec (connection this) "ROLLBACK" w3).
    destruct (err (respond (connections w3 (connection this))
                           (calls (connections w3 (connection this)))
                           (mkExecute "ROLLBACK" None)))
      as [rollbackError|]; reflexivity.
  - intros Hbody.
    destruct (around_callback sqlToQuery this transaction w w2 _ Hbody Hrun)
      as (body & Hprepared & Hcallback).
    assert (newCalls (connection this) w
              (fst (statement (connection this) "ROLLBACK" w3))
            = ([mkExecute "BEGIN TRANSACTION" None] ++ body
               ++ [mkExecute "COMMIT" None] ++ [mkExecute "ROLLBACK" None])%list)
      as ->.
    { apply newCalls_of. rewrite Hcalls, Hcallback.
      now rewrite <- !List.app_assoc. }
    repeat split; count_issued Hprepared.
Qed.

End MoreTransactions.

Lemma rollback_never_commits_witness :
  accepts (worldOf healthy) 0 "BEGIN TRANSACTION"
  /\ issued "COMMIT"
       (newCalls 0 (worldOf healthy)
          (fst (SnowflakeSdkSession_transaction session0
                  (nested 2 selectThenRollback) (worldOf healthy)))) = 0
  /\ issued "ROLLBACK"
       (newCalls 0 (worldOf healthy)
          (fst (SnowflakeSdkSession_transaction session0
                  (nested 2 selectThenRollback) (worldOf healthy)))) = 1
  /\ snd (SnowflakeSdkSession_transaction session0
            (nested 2 selectThenRollback) (worldOf healthy))
     = Rejected TransactionRollbackError.
Proof.
  destruct (rollback_never_commits textOnly (T:=nat) session0 2
              (fun tx => SnowflakeSdkTransaction_execute textOnly tx
                           (sql ["SELECT 1"] []))
              (worldOf healthy)
              (fun tx => body_execute textOnly tx (sql ["SELECT 1"] []))
              eq_refl)
    as (tx & w2 & e0 & body & _ & _ & _ & _ & Hresult & _ & _ & Hcommit
        & Hrollback).
  assert (fst (SnowflakeSdkSession_transaction session0
                 (nested 2 selectThenRollback) (worldOf healthy))
          = fst (statement 0 "ROLLBACK" w2)) as Hworld
    by exact (f_equal fst Hresult).
  split; [reflexivity|]. rewrite Hworld.
  split; [exact Hcommit|]. split; [exact Hrollback|].
  vm_compute. reflexivity.
Defined.

Lemma caught_nested_failure_is_committed_witness :
  snd (SnowflakeSdkSession_transaction session0 catchNested (worldOf healthy))
  = Resolved 7
  /\ map sqlText
       (newCalls 0 (worldOf healthy)
          (fst (SnowflakeSdkSession_transaction session0 catchNested
                  (worldOf healthy))))
     = ["BEGIN TRANSACTION"; "SELECT 1"; "COMMIT"].
Proof.
  destruct (caught_nested_failure_is_committed textOnly session0
              selectThenThrow 7 (worldOf healthy)
              (fst (selectThenThrow (nestedHandle (topHandle session0))
                      (fst (statement 0 "BEGIN TRANSACTION" (worldOf healthy)))))
              (Error "Test error") selectThenThrow_TxBody eq_refl
              (settled _ _ eq_refl) eq_refl)
    as (Hresult & _).
  assert (snd (SnowflakeSdkSession_transaction session0 catchNested
                 (worldOf healthy)) = Resolved 7) as Hsnd
    by exact (f_equal snd Hresult).
  split; [exact Hsnd|]. vm_compute. reflexivity.
Defined.

Lemma begin_refused_runs_nothing_witness :
  snd (SnowflakeSdkSession_transaction session0 selectThenReturn
         (worldOf (failing "BEGIN TRANSACTION")))
  = Rejected (Error "BEGIN TRANSACTION failed")
  /\ map sqlText
       (newCalls (connection session0) (worldOf (failing "BEGIN TRANSACTION"))
          (fst (SnowflakeSdkSession_transaction session0 selectThenReturn
                  (worldOf (failing "BEGIN TRANSACTION")))))
     = ["BEGIN TRANSACTION"].
Proof.
  destruct (begin_refused_runs_nothing session0 selectThenReturn
              selectThenThrow (worldOf (failing "BEGIN TRANSACTION"))
              (Error "BEGIN TRANSACTION failed") eq_refl)
    as (Hresult & _ & Htrace & _).
  rewrite Htrace, Hresult. split; reflexivity.
Defined.

Lemma commit_refused_then_rollback_witness :
  snd (SnowflakeSdkSession_transaction session0 selectThenReturn
         (worldOf (failing "COMMIT")))
  = Rejected (Error "COMMIT failed")
  /\ issued "ROLLBACK"
       (newCalls 0 (worldOf (failing "COMMIT"))
          (fst (SnowflakeSdkSession_transaction session0 selectThenReturn
                  (worldOf (failing "COMMIT"))))) = 1.
Proof.
  destruct (commit_refused_then_rollback textOnly session0 selectThenReturn
              (worldOf (failing "COMMIT"))
              (fst (selectThenReturn (topHandle session0)
                      (fst (statement 0 "BEGIN TRANSACTION"
                              (worldOf (failing "COMMIT"))))))
              42 (Error "COMMIT failed") eq_refl (settled _ _ eq_refl) eq_refl)
    as (Hresult & _ & Hcount).
  destruct (Hcount selectThenReturn_TxBody) as (_ & _ & Hrollback).
  rewrite Hresult. split; [reflexivity|]. exact Hrollback.
Defined.

(** *** The facade *)

(** X29.  Logging is opt-in.  A database made by [drizzle] without a
    configuration, without a logger or with [logger: false] logs
    nothing when it executes a query; with a logger that records, the
    compiled query is logged once.  Either way the session works on the
    connection it was given and sends the same call; [logger: true]
    selects the default logger. *)
Theorem logging_is_opt_in (sqlToQuery : SnowflakeDialect -> SQL -> Query)
    (dialect0 : SnowflakeDialect) (defaultLogger : Logger) (UserSchema : Type)
    (extract : UserSchema -> RelationalSchema) (conn : ConnRef)
    (schema : option UserSchema) (query : SQL) (w : World) :
  logged (fst (SnowflakeDatabase_execute sqlToQuery
                 (drizzle dialect0 defaultLogger UserSchema extract conn None)
                 query w))
  = logged w
  /\ logged (fst (SnowflakeDatabase_execute sqlToQuery
                    (drizzle dialect0 defaultLogger UserSchema extract conn
                       (Some (mkDrizzleConfig UserSchema schema None)))
                    query w))
     = logged w
  /\ logged (fst (SnowflakeDatabase_execute sqlToQuery
                    (drizzle dialect0 defaultLogger UserSchema extract conn
                       (Some (mkDrizzleConfig UserSchema schema
                                (Some (LoggerFlag false)))))
                    query w))
     = logged w
  /\ logged (fst (SnowflakeDatabase_execute sqlToQuery
                    (drizzle dialect0 defaultLogger UserSchema extract conn
                       (Some (mkDrizzleConfig UserSchema schema
                                (Some (LoggerObject RecordingLogger)))))
                    query w))
     = (logged w ++ [mkQuery (query_sql (sqlToQuery dialect0 query))
                             (params (sqlToQuery dialect0 query))])%list
  /\ logger (db_session
               (drizzle dialect0 defaultLogger UserSchema extract conn
                  (Some (mkDrizzleConfig UserSchema schema
                           (Some (LoggerFlag true))))))
     = defaultLogger
  /\ (forall config,
        connection (db_session
                      (drizzle dialect0 defaultLogger UserSchema extract conn
                         config)) = conn
        /\ newCalls conn w
             (fst (SnowflakeDatabase_execute sqlToQuery
                     (drizzle dialect0 defaultLogger UserSchema extract conn
                        config)
                     query w))
           = [mkExecute (query_sql (sqlToQuery dialect0 query))
                        (Some (params (sqlToQuery dialect0 query)))]).
Proof.
  assert (forall (s : option RelationalSchema) (l : option Logger),
            logged (fst (SnowflakeSession_execute sqlToQuery
                           (SnowflakeSdkSession_new conn dialect0 s
                              (Some {| cfg_logger := l |}))
                           query w))
            = logged (logQuery (nullish l NoopLogger)
                        (mkQuery (query_sql (sqlToQuery dialect0 query))
                                 (params (sqlToQuery dialect0 query))) w))
    as Hlogged.
  { intros s l.
    unfold SnowflakeSession_execute, SnowflakeSdkPreparedQuery_execute,
      prepareQuery, SnowflakeSdkPreparedQuery_new, SnowflakeSdkSession_new.
    cbn [pq_connection rawQuery pq_logger customResultMapper query_sql params
         connection dialect logger nullish cfg_logger].
    unfold connection_execute. cbn [err fst]. destruct (err _); reflexivity. }
  unfold SnowflakeDatabase_execute, drizzle, createSession.
  cbn [db_session nullish dz_logger dz_schema drv_connection drv_options].
  rewrite !Hlogged.
  split; [reflexivity|]. split; [reflexivity|]. split; [reflexivity|].
  split; [reflexivity|]. split; [reflexivity|].
  intros config. split; [reflexivity|].
  unfold SnowflakeSession_execute.
  exact (proj1 (prepared_query_execute
                  (prepareQuery _ _ None None false None) w)).
Qed.

(** *** Migrations *)

Section Migrations.

Variable sqlToQuery : SnowflakeDialect -> SQL -> Query.
Variable created_at : list JSValue -> JSValue.
Variable Number : JSValue -> option Z.

(** One query of the session on a connection that completes every
    statement with the rows [answer]. *)
Lemma execute_obliging (session : SnowflakeSdkSession) (query : SQL)
    (answer : option Rows) (w : World) :
  obliging answer (connection session) w ->
  exists w',
    SnowflakeSession_execute sqlToQuery session query w = (w', Resolved answer)
    /\ SnowflakeSession_all sqlToQuery session query w = (w', Resolved answer)
    /\ calls (connections w' (connection session))
       = (calls (connections w (connection session))
          ++ [sent sqlToQuery session query])%list
    /\ obliging answer (connection session) w'.
Proof.
  intros Hw.
  unfold SnowflakeSession_execute, SnowflakeSession_all,
    SnowflakeSdkPreparedQuery_execute, SnowflakeSdkPreparedQuery_all,
    prepareQuery, SnowflakeSdkPreparedQuery_new.
  cbn [pq_connection rawQuery pq_logger customResultMapper query_sql params].
  fold (sent sqlToQuery session query).
  set (w0 := logQuery (logger session) _ w).
  assert (connections w0 = connections w) as Hw0 by apply logQuery_connections.
  destruct (connection_execute_calls (connection session)
              (sent sqlToQuery session query) w0)
    as (Hcalls & Hrespond & _ & Hanswer).
  rewrite Hw0 in Hcalls, Hrespond, Hanswer. rewrite Hw in Hanswer.
  destruct (connection_execute (connection session)
              (sent sqlToQuery session query) w0) as [w' completion].
  cbn [fst snd] in *. subst completion. cbn [err rows].
  exists w'. split; [reflexivity|]. split; [reflexivity|].
  split; [exact Hcalls|].
  intros history options. rewrite Hrespond. apply Hw.
Qed.

(** A loop whose body, on an obliging connection, resolves after the
    calls [trace x]. *)
Lemma forEach_obliging {A : Type} (c : ConnRef) (answer : option Rows)
    (body : A -> Async unit) (trace : A -> list ExecuteOptions) :
  (forall x w,
     obliging answer c w ->
     exists w',
       body x w = (w', Resolved tt)
       /\ calls (connections w' c) = (calls (connections w c) ++ trace x)%list
       /\ obliging answer c w') ->
  forall l w,
    obliging answer c w ->
    exists w',
      forEach l body w = (w', Resolved tt)
      /\ calls (connections w' c)
         = (calls (connections w c) ++ concat (map trace l))%list
      /\ obliging answer c w'.
Proof.
  intros Hbody l. induction l as [|x l IH]; intros w Hw.
  - exists w. cbn [forEach map concat]. rewrite List.app_nil_r.
    split; [reflexivity|]. split; [reflexivity | exact Hw].
  - destruct (Hbody x w Hw) as (w1 & Hx & Hcalls1 & Hw1).
    destruct (IH w1 Hw1) as (w2 & Hl & Hcalls2 & Hw2).
    exists w2. split; [|split; [|exact Hw2]].
    + cbn [forEach]. unfold await. now rewrite Hx.
    + cbn [map concat]. rewrite Hcalls2, Hcalls1. now rewrite List.app_assoc.
Qed.

Lemma statement_step_obliging (session : SnowflakeSdkSession)
    (answer : option Rows) (stmt : string) (w : World) :
  obliging answer (connection session) w ->
  exists w',
    (_ <- SnowflakeSession_execute sqlToQuery session (sql_raw stmt) ;;
     resolve tt) w = (w', Resolved tt)
    /\ calls (connections w' (connection session))
       = (calls (connections w (connection session))
          ++ [sent sqlToQuery session (sql_raw stmt)])%list
    /\ obliging answer (connection session) w'.
Proof.
  intros Hw.
  destruct (execute_obliging session (sql_raw stmt) answer w Hw)
    as (w' & He & _ & Hc & Ho).
  exists w'. split; [|split; [exact Hc | exact Ho]].
  unfold await. now rewrite He.
Qed.

Lemma applyMigration_obliging (session : SnowflakeSdkSession)
    (s t : string) (answer : option Rows) (m : MigrationMeta) (w : World) :
  obliging answer (connection session) w ->
  exists w',
    applyMigration sqlToQuery session s t m w = (w', Resolved tt)
    /\ calls (connections w' (connection session))
       = (calls (connections w (connection session))
          ++ map (sent sqlToQuery session)
               (map sql_raw (mig_sql m) ++ [recordMigrationSql s t m]))%list
    /\ obliging answer (connection session) w'.
Proof.
  intros Hw. unfold applyMigration.
  destruct (forEach_obliging (connection session) answer
              (fun stmt =>
                 _ <- SnowflakeSession_execute sqlToQuery session (sql_raw stmt) ;;
                 resolve tt)
              (fun stmt => [sent sqlToQuery session (sql_raw stmt)])
              (statement_step_obliging session answer)
              (mig_sql m) w Hw) as (w1 & Hloop & Hcalls1 & Hw1).
  destruct (execute_obliging session (recordMigrationSql s t m) answer w1 Hw1)
    as (w2 & Hrecord & _ & Hcalls2 & Hw2).
  exists w2. split; [|split; [|exact Hw2]].
  - unfold await at 1. rewrite Hloop. unfold await. rewrite Hrecord. reflexivity.
  - assert (forall stmts,
              concat (map (fun stmt => [sent sqlToQuery session (sql_raw stmt)])
                          stmts)
              = map (sent sqlToQuery session) (map sql_raw stmts)) as Hflat.
    { clear. intros stmts. induction stmts as [|stmt stmts IH]; [reflexivity|].
      cbn [map concat app]. now rewrite IH. }
    rewrite Hcalls2, Hcalls1, Hflat, List.map_app, <- List.app_assoc.
    reflexivity.
Qed.

Lemma pending_step_obliging (session : SnowflakeSdkSession)
    (s t : string) (answer : option Rows) (last : option (list JSValue))
    (m : MigrationMeta) (w : World) :
  obliging answer (connection session) w ->
  exists w',
    (if isPending created_at Number last m
     then applyMigration sqlToQuery session s t m
     else resolve tt) w = (w', Resolved tt)
    /\ calls (connections w' (connection session))
       = (calls (connections w (connection session))
          ++ (if isPending created_at Number last m
              then map (sent sqlToQuery session)
                       (map sql_raw (mig_sql m) ++ [recordMigrationSql s t m])
              else []))%list
    /\ obliging answer (connection session) w'.
Proof.
  intros Hw. destruct (isPending created_at Number last m).
  - now apply applyMigration_obliging.
  - exists w. rewrite List.app_nil_r. split; [reflexivity|].
    split; [reflexivity | exact Hw].
Qed.

(** Whatever the connection answers, the loops only add prepared
    calls. *)
Lemma await_grows {A B : Type} (P : ExecuteOptions -> Prop) (m : Async A)
    (k : A -> Async B) (w : World) :
  grows P w (fst (m w)) ->
  (forall v w1, grows P w1 (fst (k v w1))) ->
  grows P w (fst (await m k w)).
Proof.
  intros Hm Hk. unfold await. destruct (m w) as [w1 [v|e]]; cbn [fst] in *.
  - eapply grows_trans; [exact Hm | apply Hk].
  - exact Hm.
Qed.

Lemma forEach_grows {A : Type} (P : ExecuteOptions -> Prop)
    (body : A -> Async unit) (l : list A) :
  (forall x w, grows P w (fst (body x w))) ->
  forall w, grows P w (fst (forEach l body w)).
Proof.
  intros Hbody. induction l as [|x l IH]; intros w.
  - apply grows_refl.
  - cbn [forEach]. apply await_grows; [apply Hbody | intros _; apply IH].
Qed.

Lemma session_execute_grows (session : SnowflakeSdkSession) (query : SQL)
    (w : World) :
  grows prepared w (fst (SnowflakeSession_execute sqlToQuery session query w))
  /\ grows prepared w (fst (SnowflakeSession_all sqlToQuery session query w)).
Proof.
  assert (grows prepared w
            (fst (SnowflakeSession_execute sqlToQuery session query w))) as H
    by exact (execute_grows sqlToQuery (topHandle session) query w).
  split; [exact H|].
  unfold SnowflakeSession_all.
  destruct (prepared_query_execute
              (prepareQuery session (sqlToQuery (dialect session) query)
                            None None false None) w)
    as (_ & _ & _ & -> & _).
  exact H.
Qed.

Lemma migrate_grows (migrations : list MigrationMeta)
    (session : SnowflakeSdkSession) (config : MigrateConfig) (w : World) :
  grows prepared w
    (fst (migrate sqlToQuery created_at Number migrations session config w)).
Proof.
  unfold migrate.
  apply await_grows; [apply session_execute_grows|]. intros _ w1.
  apply await_grows; [apply session_execute_grows|]. intros _ w2.
  apply await_grows; [apply session_execute_grows|]. intros [dbMigrations|] w3.
  - apply forEach_grows. intros m w4.
    destruct (isPending created_at Number (head dbMigrations) m);
      [|apply grows_refl].
    unfold applyMigration.
    apply await_grows.
    + apply forEach_grows. intros stmt w5.
      apply await_grows; [apply session_execute_grows|].
      intros _ w6. apply grows_refl.
    + intros _ w5. apply await_grows; [apply session_execute_grows|].
      intros _ w6. apply grows_refl.
  - apply grows_refl.
Qed.

(** X30.  On a connection that completes every statement, [migrate]
    first makes sure the bookkeeping schema and table exist and reads
    the last recorded migration; then it applies exactly the migrations
    that are newer than that one (all of them when nothing is recorded),
    in the order given: the statements of a migration one by one,
    followed by the [INSERT] that records it.  Given only a folder, the
    names are [drizzle] and [__drizzle_migrations].  Whatever the
    connection answers, every call of [migrate] is a prepared query:
    it issues no [BEGIN TRANSACTION], [COMMIT] or [ROLLBACK]. *)
Theorem migrate_applies_pending (migrations : list MigrationMeta)
    (session : SnowflakeSdkSession) (folder : string)
    (table schema : option string) (answer : Rows) (w : World) :
  obliging (Some answer) (connection session) w ->
  exists wf,
    migrate sqlToQuery created_at Number migrations session
            (ConfigObject folder table schema) w
    = (wf, Resolved tt)
    /\ newCalls (connection session) w wf
       = map (sent sqlToQuery session)
           ([createSchemaSql (nullish schema "drizzle");
             migrationTableCreate (nullish schema "drizzle")
                                  (nullish table "__drizzle_migrations");
             lastMigrationSql (nullish schema "drizzle")
                              (nullish table "__drizzle_migrations")]
            ++ concat
                 (map (fun m =>
                         (map sql_raw (mig_sql m)
                          ++ [recordMigrationSql
                                (nullish schema "drizzle")
                                (nullish table "__drizzle_migrations") m])%list)
                      (List.filter
                         (isPending created_at Number (head answer))
                         migrations)))%list
    /\ migrate sqlToQuery created_at Number migrations session
               (ConfigFolder folder)
       = migrate sqlToQuery created_at Number migrations session
                 (ConfigObject folder None None)
    /\ (forall config w' c,
          issued "BEGIN TRANSACTION"
            (newCalls c w'
               (fst (migrate sqlToQuery created_at Number migrations session
                       config w'))) = 0
          /\ issued "COMMIT"
               (newCalls c w'
                  (fst (migrate sqlToQuery created_at Number migrations session
                          config w'))) = 0
          /\ issued "ROLLBACK"
               (newCalls c w'
                  (fst (migrate sqlToQuery created_at Number migrations session
                          config w'))) = 0).
Proof.
  intros Hw.
  assert (forall config w' c,
            issued "BEGIN TRANSACTION"
              (newCalls c w'
                 (fst (migrate sqlToQuery created_at Number migrations session
                         config w'))) = 0
            /\ issued "COMMIT"
                 (newCalls c w'
                    (fst (migrate sqlToQuery created_at Number migrations
                            session config w'))) = 0
            /\ issued "ROLLBACK"
                 (newCalls c w'
                    (fst (migrate sqlToQuery created_at Number migrations
                            session config w'))) = 0) as Hfree.
  { intros config w' c.
    destruct (migrate_grows migrations session config w' c)
      as (l & Hcalls & Hprepared & _).
    rewrite (newCalls_of _ _ _ _ Hcalls).
    repeat split; apply issued_prepared; exact Hprepared. }
  unfold migrate at 1.
  set (s := nullish schema "drizzle").
  set (t := nullish table "__drizzle_migrations").
  destruct (execute_obliging session (createSchemaSql s) (Some answer) w Hw)
    as (w1 & H1 & _ & Hcalls1 & Hw1).
  destruct (execute_obliging session (migrationTableCreate s t) (Some answer)
              w1 Hw1) as (w2 & H2 & _ & Hcalls2 & Hw2).
  destruct (execute_obliging session (lastMigrationSql s t) (Some answer)
              w2 Hw2) as (w3 & _ & H3 & Hcalls3 & Hw3).
  destruct (forEach_obliging (connection session) (Some answer)
              (fun migration =>
                 if isPending created_at Number (head answer) migration
                 then applyMigration sqlToQuery session s t migration
                 else resolve tt)
              (fun m =>
                 if isPending created_at Number (head answer) m
                 then map (sent sqlToQuery session)
                          (map sql_raw (mig_sql m) ++ [recordMigrationSql s t m])
                 else [])
              (pending_step_obliging session s t (Some answer) (head answer))
              migrations w3 Hw3) as (wf & Hloop & Hcallsf & _).
  assert (newCalls (connection session) w wf
          = map (sent sqlToQuery session)
              ([createSchemaSql s; migrationTableCreate s t; lastMigrationSql s t]
               ++ concat
                    (map (fun m =>
                            (map sql_raw (mig_sql m)
                             ++ [recordMigrationSql s t m])%list)
                         (List.filter (isPending created_at Number (head answer))
                                      migrations)))%list) as Htrace.
  { apply newCalls_of. rewrite Hcallsf, Hcalls3, Hcalls2, Hcalls1.
    rewrite <- !List.app_assoc. f_equal. rewrite List.map_app.
    cbn [map app]. do 3 f_equal.
    clear. induction migrations as [|m ms IH]; [reflexivity|].
    cbn [map concat List.filter].
    destruct (isPending created_at Number (head answer) m).
    - cbn [map concat]. rewrite IH. symmetry. apply List.map_app.
    - exact IH. }
  exists wf. split; [|split; [exact Htrace|split; [reflexivity|exact Hfree]]].
  unfold await at 1. rewrite H1. unfold await at 1. rewrite H2.
  unfold await. rewrite H3. exact Hloop.
Qed.

End Migrations.

Lemma migrate_applies_pending_witness :
  obliging (Some [[JSNumber 1; JSString "hash1"; JSString "1000"]]) 0
           (worldOf recorded)
  /\ map sqlText
       (newCalls 0 (worldOf recorded)
          (fst (migrate textOnly thirdField numberOf [migration1; migration2]
                  session0 (ConfigFolder "drizzle") (worldOf recorded))))
     = map (fun q => query_sql (textOnly plainDialect q))
           [createSchemaSql "drizzle";
            migrationTableCreate "drizzle" "__drizzle_migrations";
            lastMigrationSql "drizzle" "__drizzle_migrations";
            sql_raw "CREATE TABLE b (id INTEGER)";
            sql_raw "ALTER TABLE b ADD c INTEGER";
            recordMigrationSql "drizzle" "__drizzle_migrations" migration2].
Proof.
  assert (obliging (Some [[JSNumber 1; JSString "hash1"; JSString "1000"]]) 0
                   (worldOf recorded)) as Hw
    by (intros history options; reflexivity).
  split; [exact Hw|].
  destruct (migrate_applies_pending textOnly thirdField numberOf
              [migration1; migration2] session0 "drizzle" None None
              [[JSNumber 1; JSString "hash1"; JSString "1000"]]
              (worldOf recorded) Hw) as (wf & Hrun & Htrace & Hfolder & _).
  rewrite Hfolder, Hrun. cbn [fst].
  change 0 with (connection session0). rewrite Htrace.
  reflexivity.
Defined.

End SessionProperties.
